(** * BloomWatch backend: bloom scoring, prediction and species inference

    A shallow embedding of [bloom_detector.py] and [nasa_api.py].

    Conventions of the embedding.
    - Python numbers (int and float alike) are exact rationals [Q], and the
      definitions give the arithmetic as the code writes it down.  The
      program itself computes in binary64: its results carry the error of
      that evaluation, and integers beyond the largest float make its
      divisions raise.  The properties of numeric results are therefore
      stated for numbers within the range of binary64 and up to an
      allowance for the error (module [Binary64]); those that compare
      exact values say so.  Equality of numbers is [Qeq].
    - Dictionaries received from callers are [gmap string value]; a value
      is a number or a string.  Dictionaries built by a literal with a
      fixed key set are records.
    - Strings are byte strings; in a date only the characters 0..9 count
      as digits.
    - Exceptions are explicit: fallible code returns [result].
    - The clock, the remote reply and the random generator are inputs.

    The file has two parts: the definitions (the code, then the formulas
    of the specification and the concrete inputs used below), and the
    properties, one section per component. *)

From stdpp Require Import base option list gmap strings.
From Stdlib Require Import ZArith QArith Qround Qabs Qminmax Lqa Lia.
From Stdlib Require DecimalString.

(** ** Python numbers *)

Module PyNum.
Local Open Scope Q_scope.

Definition ltb (a b : Q) : bool :=
  match Qcompare a b with Lt => true | _ => false end.
Definition leb (a b : Q) : bool :=
  match Qcompare a b with Gt => false | _ => true end.

(** [max(a, b)] keeps its first argument unless the second is larger;
    [min(a, b)] keeps its first argument unless the second is smaller. *)
Definition py_max (a b : Q) : Q := if ltb a b then b else a.
Definition py_min (a b : Q) : Q := if ltb b a then b else a.

Definition py_abs (a : Q) : Q := Qabs a.

(** Nearest integer, ties to the even neighbour. *)
Definition round_half_even (x : Q) : Z :=
  let f := Qfloor x in
  match Qcompare (x - inject_Z f) (1 # 2) with
  | Lt => f
  | Gt => (f + 1)%Z
  | Eq => if Z.even f then f else (f + 1)%Z
  end.

(** [round(x, ndigits)] *)
Definition py_round (x : Q) (ndigits : nat) : Q :=
  let scale := Pos.pow 10 (Pos.of_nat ndigits) in
  match ndigits with
  | O => inject_Z (round_half_even x)
  | S _ => round_half_even (x * inject_Z (Zpos scale)) # scale
  end.

(** [int(x)]: truncation toward zero. *)
Definition py_int (x : Q) : Z := Z.quot (Qnum x) (Zpos (Qden x)).

End PyNum.

(** ** Python values, dictionaries and exceptions *)

Module Py.
Import PyNum.

Inductive value : Type :=
| Num (q : Q)
| Str (s : string).

Inductive exn : Type :=
| KeyError (key : string)
| IndexError
| TypeError
| ValueError
| OverflowError.

Inductive result (A : Type) : Type :=
| Ok (a : A)
| Raise (e : exn).
Arguments Ok {A} a.
Arguments Raise {A} e.

Definition bind {A B} (r : result A) (k : A -> result B) : result B :=
  match r with
  | Ok a => k a
  | Raise e => Raise e
  end.

Notation "'let!' x ':=' r 'in' k" := (bind r (fun x => k))
  (at level 10, x name, r at level 100, k at level 200).

(** [d.get(key, default)] *)
Definition dict_get (d : gmap string value) (key : string) (default : value)
  : value :=
  match d !! key with
  | Some v => v
  | None => default
  end.

(** [d[key]] *)
Definition dict_item (d : gmap string value) (key : string) : result value :=
  match d !! key with
  | Some v => Ok v
  | None => Raise (KeyError key)
  end.

(** [l[i]] for a non-negative index *)
Definition list_item {A} (l : list A) (i : nat) : result A :=
  match l !! i with
  | Some a => Ok a
  | None => Raise IndexError
  end.

(** [l[-1]] *)
Definition list_item_last {A} (l : list A) : result A :=
  match last l with
  | Some a => Ok a
  | None => Raise IndexError
  end.

(** Arithmetic and ordering on a value that is not a number raise
    [TypeError] as soon as the other operand is a number. *)
Definition as_num (v : value) : result Q :=
  match v with
  | Num q => Ok q
  | Str _ => Raise TypeError
  end.

(** [a - b] *)
Definition py_sub (a b : value) : result value :=
  match a, b with
  | Num x, Num y => Ok (Num (x - y)%Q)
  | _, _ => Raise TypeError
  end.

(** [a > b] *)
Definition py_gt (a b : value) : result bool :=
  match a, b with
  | Num x, Num y => Ok (ltb y x)
  | Str s, Str t => Ok (String.ltb t s)
  | _, _ => Raise TypeError
  end.

(** [for i in idx: s = body(s, i)] *)
Fixpoint for_each {S} (body : S -> nat -> result S) (idx : list nat) (s : S)
  : result S :=
  match idx with
  | [] => Ok s
  | i :: rest => let! s' := body s i in for_each body rest s'
  end.

(** [range(n)] for the value [n] of [len(l) - 1]; a negative bound gives
    the empty range, as truncated subtraction does. *)
Definition range (n : nat) : list nat := seq 0 n.

End Py.

(** ** The [datetime] operations the program uses

    [strptime] with the format [%Y%m%d], subtraction of two dates, addition
    of a whole number of days and [strftime] with the format [%Y-%m-%d].
    Every date of the program is at midnight, so a date is its calendar
    day.  The ordinal arithmetic follows the reference (pure Python)
    implementation of the library. *)

Module Datetime.
Import Py.
Local Open Scope Z_scope.

Record date : Type := mkdate { year : Z; month : Z; day : Z }.

Definition MINYEAR : Z := 1.
Definition MAXYEAR : Z := 9999.
Definition _MAXORDINAL : Z := 3652059.

Definition _DAYS_IN_MONTH : list Z :=
  [-1; 31; 28; 31; 30; 31; 30; 31; 31; 30; 31; 30; 31].
Definition _DAYS_BEFORE_MONTH : list Z :=
  [-1; 0; 31; 59; 90; 120; 151; 181; 212; 243; 273; 304; 334].

Definition table (t : list Z) (i : Z) : Z := nth (Z.to_nat i) t 0.

Definition _is_leap (y : Z) : bool :=
  (y mod 4 =? 0) && (negb (y mod 100 =? 0) || (y mod 400 =? 0)).

Definition _days_before_year (y : Z) : Z :=
  let y := y - 1 in
  y * 365 + y / 4 - y / 100 + y / 400.

Definition _days_in_month (y m : Z) : Z :=
  if (m =? 2) && _is_leap y then 29 else table _DAYS_IN_MONTH m.

Definition _days_before_month (y m : Z) : Z :=
  table _DAYS_BEFORE_MONTH m + (if (2 <? m) && _is_leap y then 1 else 0).

Definition _ymd2ord (y m d : Z) : Z :=
  _days_before_year y + _days_before_month y m + d.

Definition _DI400Y : Z := _days_before_year 401.
Definition _DI100Y : Z := _days_before_year 101.
Definition _DI4Y : Z := _days_before_year 5.

Definition _ord2ymd (n : Z) : Z * Z * Z :=
  let n := n - 1 in
  let n400 := n / _DI400Y in
  let n := n mod _DI400Y in
  let y := n400 * 400 + 1 in
  let n100 := n / _DI100Y in
  let n := n mod _DI100Y in
  let n4 := n / _DI4Y in
  let n := n mod _DI4Y in
  let n1 := n / 365 in
  let n := n mod 365 in
  let y := y + n100 * 100 + n4 * 4 + n1 in
  if (n1 =? 4) || (n100 =? 4) then (y - 1, 12, 31)
  else
    let leapyear := (n1 =? 3) && (negb (n4 =? 24) || (n100 =? 3)) in
    let m := Z.shiftr (n + 50) 5 in
    let preceding :=
      table _DAYS_BEFORE_MONTH m + (if (2 <? m) && leapyear then 1 else 0) in
    let '(m, preceding) :=
      if n <? preceding
      then (m - 1,
            preceding - (table _DAYS_IN_MONTH (m - 1)
                         + (if (m - 1 =? 2) && leapyear then 1 else 0)))
      else (m, preceding) in
    (y, m, n - preceding + 1).

(** The field check of the [date] constructor. *)
Definition valid_date (y m d : Z) : bool :=
  (MINYEAR <=? y) && (y <=? MAXYEAR) && (1 <=? m) && (m <=? 12)
  && (1 <=? d) && (d <=? _days_in_month y m).

Definition make_date (y m d : Z) : result date :=
  if valid_date y m d then Ok (mkdate y m d) else Raise ValueError.

Definition toordinal (t : date) : Z := _ymd2ord (year t) (month t) (day t).

Definition fromordinal (n : Z) : date :=
  let '(y, m, d) := _ord2ymd n in mkdate y m d.

(** [(t2 - t1).days] *)
Definition days_between (t2 t1 : date) : Z := toordinal t2 - toordinal t1.

(** [t + timedelta(days=k)].  A [k] beyond the range of [timedelta] also
    leaves the range of ordinals, so one range check covers both. *)
Definition add_days (t : date) (k : Z) : result date :=
  let o := toordinal t + k in
  if (0 <? o) && (o <=? _MAXORDINAL) then Ok (fromordinal o)
  else Raise OverflowError.

(** *** Parsing with [%Y%m%d]

    The format compiles to the regular expression
    [(?P<Y>\d\d\d\d)(?P<m>1[0-2]|0[1-9]|[1-9])(?P<d>3[0-1]|[1-2]\d|0[1-9]|[1-9]| [1-9])];
    the first match in backtracking order is taken and must consume the
    whole string.  Strings are read as ASCII: only the characters 0..9
    count as digits. *)

Definition digit_val (c : Ascii.ascii) : option Z :=
  let n := Z.of_N (Ascii.N_of_ascii c) in
  if (48 <=? n) && (n <=? 57) then Some (n - 48) else None.

Definition digit_in (lo hi : Z) (s : string) : option (Z * string) :=
  match s with
  | String c rest =>
      match digit_val c with
      | Some v => if (lo <=? v) && (v <=? hi) then Some (v, rest) else None
      | None => None
      end
  | EmptyString => None
  end.

Definition two_digits (lo1 hi1 lo2 hi2 : Z) (s : string)
  : option (Z * string) :=
  match digit_in lo1 hi1 s with
  | Some (a, r) =>
      match digit_in lo2 hi2 r with
      | Some (b, r') => Some (10 * a + b, r')
      | None => None
      end
  | None => None
  end.

Definition space_digit (lo hi : Z) (s : string) : option (Z * string) :=
  match s with
  | String c rest => if Ascii.eqb c (Ascii.ascii_of_nat 32) then digit_in lo hi rest else None
  | EmptyString => None
  end.

Definition matches (alts : list (option (Z * string))) : list (Z * string) :=
  omap id alts.

Definition re_Y (s : string) : option (Z * string) :=
  match digit_in 0 9 s with
  | Some (a, r1) =>
      match two_digits 0 9 0 9 r1 with
      | Some (bc, r2) =>
          match digit_in 0 9 r2 with
          | Some (d, r3) => Some (1000 * a + 10 * bc + d, r3)
          | None => None
          end
      | None => None
      end
  | None => None
  end.

Definition re_m (s : string) : list (Z * string) :=
  matches [two_digits 1 1 0 2 s; two_digits 0 0 1 9 s; digit_in 1 9 s].

Definition re_d (s : string) : list (Z * string) :=
  matches [two_digits 3 3 0 1 s; two_digits 1 2 0 9 s; two_digits 0 0 1 9 s;
           digit_in 1 9 s; space_digit 1 9 s].

(** Month then day: every way to match the month, in order, followed by
    every way to match the day; the first one wins. *)
Definition re_md (s : string) : option (Z * Z * string) :=
  head (flat_map
          (fun mr => map (fun dr => (fst mr, fst dr, snd dr)) (re_d (snd mr)))
          (re_m s)).

Definition re_Ymd (s : string) : option (Z * Z * Z * string) :=
  match re_Y s with
  | Some (y, r1) =>
      match re_md r1 with
      | Some (m, d, r2) => Some (y, m, d, r2)
      | None => None
      end
  | None => None
  end.

(** [datetime.strptime(v, '%Y%m%d')] *)
Definition strptime (v : value) : result date :=
  match v with
  | Num _ => Raise TypeError
  | Str s =>
      match re_Ymd s with
      | Some (y, m, d, EmptyString) => make_date y m d
      | _ => Raise ValueError
      end
  end.

(** *** Printing *)

(** [str(n)] for an integer *)
Definition str_int (n : Z) : string := DecimalString.NilZero.string_of_int (Z.to_int n).

Definition pad (width : nat) (n : Z) : string :=
  let s := str_int n in
  String.append (String.concat "" (repeat "0"%string (width - String.length s))) s.

(** [t.strftime('%Y' + sep + '%m' + sep + '%d')]; the year is written with
    four digits, which every platform does from the year 1000 on. *)
Definition strftime (sep : string) (t : date) : string :=
  String.append (pad 4 (year t))
    (String.append sep (String.append (pad 2 (month t))
       (String.append sep (pad 2 (day t))))).

End Datetime.

(** ** nasa_api.py *)

Module NASADataFetcher.
Import PyNum Py.
Local Open Scope Q_scope.

(** What the request to the remote service came to.  [Reply200] carries
    the values of the [T2M] and [PRECTOTCORR] tables of a decoded body, in
    table order (an absent or empty table has no values); any other status
    is [ReplyOther]; [ReplyRaised] is an exception of the request or of the
    decoding. *)
Inductive power_reply : Type :=
| Reply200 (T2M PRECTOTCORR : list value)
| ReplyOther
| ReplyRaised (e : exn).

(** The surroundings of one call: the clock, the remote reply and the
    next three values of [random.random()], each in [0, 1). *)
Record world : Type := mkworld {
  now : Datetime.date;
  reply : power_reply;
  random1 : Q;
  random2 : Q;
  random3 : Q
}.

(** [random.uniform(a, b)] is [a + (b - a) * random()]. *)
Definition uniform (a b : Q) (random : Q) : Q := a + (b - a) * random.

Definition _calculate_simulated_ndvi (temp precip : Q) : Q :=
  let optimal_temp := 20 in
  let temp_factor := 1 - py_abs (temp - optimal_temp) / 30 in
  let temp_factor := py_max 0 (py_min 1 temp_factor) in
  let precip_factor := if ltb 0 precip then py_min (precip / 10) 1 else 0.3 in
  let ndvi := (temp_factor * 0.6 + precip_factor * 0.4) * 0.9 in
  py_max 0 (py_min 0.95 ndvi).

Definition _get_fallback_data (lat lon : value) (w : world)
  : result (gmap string value) :=
  let! lat := as_num lat in
  let season_factor := py_abs lat / 90 in
  let base_ndvi := 0.4 + uniform 0 0.3 (random1 w) * (1 - season_factor) in
  Ok (<["ndvi" := Num (py_round base_ndvi 3)]>
      (<["evi" := Num (py_round (base_ndvi * 1.15) 3)]>
      (<["temperature" := Num (15 + uniform (-5) 15 (random2 w))]>
      (<["precipitation" := Num (uniform 0 20 (random3 w))]>
      (<["date" := Str (Datetime.strftime "" (now w))]> ∅))))).

(** The body of the [try] block. *)
Definition lookup_attempt (lat lon : value) (date : value) (w : world)
  : result (gmap string value) :=
  match reply w with
  | Reply200 temp precip =>
      let temp_val := hd (Num 20) temp in
      let precip_val := hd (Num 0) precip in
      let! t := as_num temp_val in
      let! p := as_num precip_val in
      let ndvi := _calculate_simulated_ndvi t p in
      let evi := if ltb ndvi 0.83 then ndvi * 1.2 else ndvi in
      Ok (<["ndvi" := Num (py_round ndvi 3)]>
          (<["evi" := Num (py_round evi 3)]>
          (<["temperature" := temp_val]>
          (<["precipitation" := precip_val]>
          (<["date" := date]> ∅)))))
  | ReplyOther => _get_fallback_data lat lon w
  | ReplyRaised e => Raise e
  end.

Definition get_vegetation_index (lat lon : value) (date : option value)
  (w : world) : result (gmap string value) :=
  let date :=
    match date with
    | None => Str (Datetime.strftime "" (now w))
    | Some d => d
    end in
  match lookup_attempt lat lon date w with
  | Ok sample => Ok sample
  | Raise _ => _get_fallback_data lat lon w
  end.

End NASADataFetcher.

(** ** bloom_detector.py *)

Module Assessment.
(** The dictionary returned by [analyze_bloom], without its [message]
    entry (a fixed sentence around the level). *)
Record t : Type := mk {
  status : string;
  level : Q;
  confidence : Q;
  color : string;
  ndvi : Py.value;
  evi : Py.value
}.
End Assessment.

Module Prediction.
(** The dictionary returned by [predict_bloom_date]; the two early returns
    have no [historical_blooms] entry. *)
Record t : Type := mk {
  date : string;
  probability : Q;
  peak_period : string;
  historical_blooms : option nat
}.
End Prediction.

Module Species.
Record t : Type := mk {
  ecosystem_type : string;
  species_hints : list string;
  ecological_notes : list string;
  biodiversity_potential : string;
  confidence : string;
  conservation_priority : string
}.
End Species.

Module BloomDetector.
Import PyNum Py.
Local Open Scope Q_scope.

Definition bloom_threshold_ndvi : Q := 0.6.
Definition bloom_threshold_evi : Q := 0.65.
Definition growth_rate_threshold : Q := 0.05.

Definition _calculate_bloom_level (ndvi evi temp precip : Q) : Q :=
  let veg_factor := ((ndvi + evi) / 2) * 40 in
  let temp_optimal := 20 in
  let temp_deviation := py_abs (temp - temp_optimal) in
  let temp_factor := py_max 0 ((10 - temp_deviation) / 10) * 30 in
  let precip_factor := if ltb 0 precip then py_min (precip / 15) 1 * 30 else 5 in
  let bloom_level := veg_factor + temp_factor + precip_factor in
  py_round (py_min bloom_level 100) 1.

(** The [if]/[elif] chain of [analyze_bloom]: status, confidence before
    the cap, colour. *)
Definition status_band (bloom_level : Q) : string * Q * string :=
  if leb 70 bloom_level then
    ("peak_bloom"%string, 0.85 + (bloom_level - 70) / 100, "#00ff00"%string)
  else if leb 50 bloom_level then
    ("active_bloom"%string, 0.70 + (bloom_level - 50) / 100, "#90ee90"%string)
  else if leb 30 bloom_level then
    ("early_bloom"%string, 0.55 + (bloom_level - 30) / 100, "#ffff00"%string)
  else
    ("no_bloom"%string, 0.40 + bloom_level / 100, "#808080"%string).

(** The arithmetic of [_calculate_bloom_level] raises [TypeError] on any
    entry that is not a number; the conversions stand for that. *)
Definition analyze_bloom (satellite_data : gmap string value)
  : result Assessment.t :=
  let ndvi := dict_get satellite_data "ndvi" (Num 0) in
  let evi := dict_get satellite_data "evi" (Num 0) in
  let temp := dict_get satellite_data "temperature" (Num 20) in
  let precip := dict_get satellite_data "precipitation" (Num 0) in
  let! n := as_num ndvi in
  let! e := as_num evi in
  let! t := as_num temp in
  let! p := as_num precip in
  let bloom_level := _calculate_bloom_level n e t p in
  let '(status, confidence, color) := status_band bloom_level in
  Ok {| Assessment.status := status;
        Assessment.level := bloom_level;
        Assessment.confidence := py_round (py_min confidence 0.95) 2;
        Assessment.color := color;
        Assessment.ndvi := ndvi;
        Assessment.evi := evi |}.

(** One turn of the scanning loop of [predict_bloom_date]. *)
Definition scan_pair (historical_data : list (gmap string value))
  (bloom_dates : list value) (i : nat) : result (list value) :=
  let! curr := list_item historical_data i in
  let! next_data := list_item historical_data (i + 1) in
  let! n := dict_item next_data "ndvi" in
  let! above := py_gt n (Num bloom_threshold_ndvi) in
  if above : bool then
    let! n := dict_item next_data "ndvi" in
    let! c := dict_item curr "ndvi" in
    let! growth := py_sub n c in
    let! rising := py_gt growth (Num growth_rate_threshold) in
    if rising : bool then
      let! d := dict_item curr "date" in
      Ok (bloom_dates ++ [d])
    else Ok bloom_dates
  else Ok bloom_dates.

Definition sum (l : list Z) : Z := foldl Z.add 0%Z l.

Definition _calculate_average_interval (dates : list value) : result Z :=
  if (length dates <? 2)%nat then Ok 90%Z
  else
    let! intervals :=
      for_each
        (fun intervals i =>
           let! s1 := list_item dates i in
           let! date1 := Datetime.strptime s1 in
           let! s2 := list_item dates (i + 1) in
           let! date2 := Datetime.strptime s2 in
           Ok (intervals ++ [Datetime.days_between date2 date1]))
        (range (length dates - 1)) [] in
    Ok (py_int (inject_Z (sum intervals)
                / inject_Z (Z.of_nat (length intervals)))).

Definition predict_bloom_date (historical_data : list (gmap string value))
  : result Prediction.t :=
  if (length historical_data <? 14)%nat then
    Ok {| Prediction.date := "Datos insuficientes";
          Prediction.probability := 0;
          Prediction.peak_period := "N/A";
          Prediction.historical_blooms := None |}
  else
    let! bloom_dates :=
      for_each (scan_pair historical_data)
               (range (length historical_data - 1)) [] in
    match bloom_dates with
    | [] =>
        Ok {| Prediction.date := "No hay patrón histórico";
              Prediction.probability := 0.3;
              Prediction.peak_period := "Variable";
              Prediction.historical_blooms := None |}
    | _ :: _ =>
        let! avg_interval := _calculate_average_interval bloom_dates in
        let! last_bloom := list_item_last bloom_dates in
        let! last_bloom_date := Datetime.strptime last_bloom in
        let! predicted_date := Datetime.add_days last_bloom_date avg_interval in
        let probability :=
          py_min 0.95
            (0.6 + inject_Z (Z.of_nat (length bloom_dates)) * 0.05) in
        Ok {| Prediction.date := Datetime.strftime "-" predicted_date;
              Prediction.probability := py_round probability 2;
              Prediction.peak_period :=
                String.append (Datetime.str_int avg_interval)
                              " días desde última floración";
              Prediction.historical_blooms := Some (length bloom_dates) |}
    end.

Definition _calculate_biodiversity_potential (ndvi evi temp precip : Q)
  : string :=
  let veg_score := (ndvi + evi) / 2 * 50 in
  let temp_score := if ltb 15 temp && ltb temp 28 then 30 else 15 in
  let precip_score := if ltb 5 precip then 20 else 10 in
  let total_score := veg_score + temp_score + precip_score in
  if ltb 80 total_score then "Muy Alto - Ecosistema rico"
  else if ltb 60 total_score then "Alto - Biodiversidad significativa"
  else if ltb 40 total_score then "Moderado - Biodiversidad estándar"
  else "Bajo - Ecosistema limitado".

(** The two lists the rules append to. *)
Record findings : Type := mkfindings {
  hints : list string;
  notes : list string
}.

Definition add (new_hints new_notes : list string) (f : findings) : findings :=
  {| hints := hints f ++ new_hints; notes := notes f ++ new_notes |}.

Definition when (cond : bool) (rule : findings -> findings) (f : findings)
  : findings :=
  if cond then rule f else f.

(** Every entry read is used in an ordering or in arithmetic on each path,
    so an entry that is not a number raises [TypeError]; the conversions
    stand for that. *)
Definition identify_species_type (satellite_data location : gmap string value)
  : result Species.t :=
  let! ndvi := as_num (dict_get satellite_data "ndvi" (Num 0)) in
  let! evi := as_num (dict_get satellite_data "evi" (Num 0)) in
  let! temp := as_num (dict_get satellite_data "temperature" (Num 20)) in
  let! precip := as_num (dict_get satellite_data "precipitation" (Num 0)) in
  let! lat := as_num (dict_get location "lat" (Num 0)) in
  let f := {| hints := []; notes := [] |} in
  let '(ecosystem_type, f) :=
    if leb (-23.5) lat && leb lat 23.5 then
      let f :=
        when (ltb 0.7 ndvi)
          (add ["Selva tropical densa"%string]
               ["Alta biodiversidad esperada"%string]) f in
      let f :=
        when (ltb 25 temp && ltb 10 precip)
          (add ["Flores tropicales: Orquídeas, Heliconias, Jengibre"%string]
               ["Período óptimo para polinizadores"%string]) f in
      ("Tropical"%string, f)
    else if ltb 23.5 (py_abs lat) && leb (py_abs lat) 66.5 then
      let f :=
        when ((ltb 15 temp && ltb temp 25) && ltb 0.5 ndvi)
          (add ["Árboles frutales en floración"%string;
                "Posibles especies: Cerezos, Manzanos, Duraznos"%string]
               ["Momento crítico para control de plagas"%string]) f in
      let f :=
        when (ltb 0.6 ndvi && (ltb 10 temp && ltb temp 20))
          (add ["Flores silvestres de primavera"%string]
               ["Importante para polinizadores nativos"%string]) f in
      ("Templado"%string, f)
    else
      let f :=
        when (ltb 0.3 ndvi)
          (add ["Tundra floreciente o bosque boreal"%string]
               ["Ventana corta de floración - sensible a cambio climático"%string])
          f in
      ("Boreal/Polar"%string, f) in
  let f :=
    when ((ltb 0.4 ndvi && ltb ndvi 0.7) && (ltb 0.5 evi && ltb evi 0.8))
      (fun f =>
         let f := add ["🌾 Patrón agrícola detectado"%string] [] f in
         if ltb 20 temp then
           add ["Cultivos posibles: Algodón, Girasoles, Canola"%string]
               ["Fase pre-floración crítica para aplicación de fertilizantes"%string]
               f
         else add ["Cultivos de clima frío: Trigo, Cebada"%string] [] f)
      f in
  let f :=
    when (ltb 0.75 ndvi && ltb temp 10)
      (add ["⚠️ ALERTA: Posible especie invasora"%string]
           ["Floración anómala fuera de temporada normal"%string;
            "Requiere inspección de campo urgente"%string])
      f in
  let f :=
    when (ltb ndvi 0.25)
      (add ["Vegetación escasa o degradada"%string]
           ["⚠️ Posible desertificación o sobreexplotación"%string;
            "Área prioritaria para restauración"%string])
      f in
  let species_hints := hints f in
  let ecological_notes := notes f in
  let biodiversity_score :=
    _calculate_biodiversity_potential ndvi evi temp precip in
  Ok {| Species.ecosystem_type := ecosystem_type;
        Species.species_hints :=
          match species_hints with
          | [] => ["Vegetación general"%string]
          | _ => species_hints
          end;
        Species.ecological_notes :=
          match ecological_notes with
          | [] => ["Condiciones normales"%string]
          | _ => ecological_notes
          end;
        Species.biodiversity_potential := biodiversity_score;
        Species.confidence :=
          if (2 <? length species_hints)%nat then "Alta"
          else if (0 <? length species_hints)%nat then "Media"
          else "Baja";
        Species.conservation_priority :=
          if ltb 0.6 ndvi || ltb ndvi 0.3 then "Alta" else "Media" |}.

End BloomDetector.

(** ** The specification's formulas

    Written from the wording of the specification, to be compared with the
    definitions above. *)

Module Spec.
Import Py.
Local Open Scope Q_scope.

Definition clamp (lo hi x : Q) : Q := Qmax lo (Qmin hi x).

(** Bloom level (specification 4.2). *)
Definition vegFactor (ndvi evi : Q) : Q := (ndvi + evi) / 2 * 40.
Definition tempFactor (temp : Q) : Q :=
  Qmax 0 ((10 - Qabs (temp - 20)) / 10) * 30.
Definition precipFactor (precip : Q) : Q :=
  if Qlt_le_dec 0 precip then Qmin (precip / 15) 1 * 30 else 5.
Definition level (ndvi evi temp precip : Q) : Q :=
  PyNum.py_round
    (clamp 0 100 (vegFactor ndvi evi + tempFactor temp + precipFactor precip))
    1.

(** Status bands and their confidence formulas (specification 4.2). *)
Inductive band : Type := Peak | Active | Early | NoBloom.

Definition band_of (level : Q) : band :=
  if Qlt_le_dec level 30 then NoBloom
  else if Qlt_le_dec level 50 then Early
  else if Qlt_le_dec level 70 then Active
  else Peak.

Definition band_status (b : band) : string :=
  match b with
  | Peak => "peak_bloom"
  | Active => "active_bloom"
  | Early => "early_bloom"
  | NoBloom => "no_bloom"
  end.

Definition band_formula (b : band) (level : Q) : Q :=
  match b with
  | Peak => 0.85 + (level - 70) / 100
  | Active => 0.70 + (level - 50) / 100
  | Early => 0.55 + (level - 30) / 100
  | NoBloom => 0.40 + level / 100
  end.

Definition confidence (level : Q) : Q :=
  PyNum.py_round (Qmin (band_formula (band_of level) level) 0.95) 2.

(** Derived vegetation indices (specification 4.1). *)
Definition ndvi_tempFactor (temp : Q) : Q :=
  clamp 0 1 (1 - Qabs (temp - 20) / 30).
Definition ndvi_precipFactor (precip : Q) : Q :=
  if Qlt_le_dec 0 precip then Qmin (precip / 10) 1 else 0.3.
Definition ndvi (temp precip : Q) : Q :=
  clamp 0 0.95
    ((ndvi_tempFactor temp * 0.6 + ndvi_precipFactor precip * 0.4) * 0.9).
Definition evi (ndvi : Q) : Q :=
  if Qlt_le_dec ndvi 0.83 then ndvi * 1.2 else ndvi.

(** The entry [key] of a sample is absent or a number. *)
Definition numeric_or_absent (sd : gmap string value) (key : string) : Prop :=
  match sd !! key with
  | Some (Str _) => False
  | _ => True
  end.

(** A series as the specification sees it: per entry its [ndvi] and its
    date. *)
Definition sample : Type := Q * Datetime.date.

(** A well-formed [YYYYMMDD] text: the eight digits of a calendar day. *)
Definition date_text (t : Datetime.date) : string := Datetime.strftime "" t.

Definition well_formed_date (t : Datetime.date) : Prop :=
  Datetime.valid_date (Datetime.year t) (Datetime.month t) (Datetime.day t)
  = true.

(** The dictionary [entry] holds the sample [s]. *)
Definition entry_of (entry : gmap string value) (s : sample) : Prop :=
  entry !! "ndvi" = Some (Num (fst s))
  /\ entry !! "date" = Some (Str (date_text (snd s)))
  /\ well_formed_date (snd s).

(** Bloom transitions (specification 4.3): the dates of the entries [curr]
    of the consecutive pairs [(curr, next)] with [next.ndvi > 0.6] and
    [next.ndvi - curr.ndvi > 0.05], in series order. *)
Definition is_transition (curr next : sample) : bool :=
  if Qlt_le_dec 0.6 (fst next) then
    if Qlt_le_dec 0.05 (fst next - fst curr) then true else false
  else false.

Fixpoint transitions (series : list sample) : list Datetime.date :=
  match series with
  | curr :: (next :: _) as rest =>
      if is_transition curr next then snd curr :: transitions rest
      else transitions rest
  | _ => []
  end.

(** Day gaps between consecutive dates, their mean, and the mean cut to a
    whole number of days (toward zero). *)
Fixpoint day_gaps (dates : list Datetime.date) : list Z :=
  match dates with
  | t1 :: (t2 :: _) as rest => Datetime.days_between t2 t1 :: day_gaps rest
  | _ => []
  end.

Definition mean (l : list Z) : Q :=
  inject_Z (fold_right Z.add 0%Z l) / inject_Z (Z.of_nat (length l)).

Definition truncate (x : Q) : Z :=
  if Qlt_le_dec x 0 then Qceiling x else Qfloor x.

(** The interval as the specification words it, and as a whole number of
    days. *)
Definition mean_interval (dates : list Datetime.date) : Q :=
  match day_gaps dates with
  | [] => 90
  | gaps => mean gaps
  end.

Definition whole_interval (dates : list Datetime.date) : Z :=
  match day_gaps dates with
  | [] => 90%Z
  | gaps => truncate (mean gaps)
  end.

Definition probability (transition_count : nat) : Q :=
  PyNum.py_round
    (Qmin 0.95 (0.6 + inject_Z (Z.of_nat transition_count) * 0.05)) 2.

End Spec.

(** ** Named parts of the source expressions *)

Module Parts.
Import PyNum.
Local Open Scope Q_scope.

(** [bloom_level] of [_calculate_bloom_level] before the cap and the
    rounding: the sum of the three factors. *)
Definition raw_level (ndvi evi temp precip : Q) : Q :=
  (ndvi + evi) / 2 * 40
  + py_max 0 ((10 - py_abs (temp - 20)) / 10) * 30
  + (if ltb 0 precip then py_min (precip / 15) 1 * 30 else 5).

(** The expression [evi] of [get_vegetation_index] as a function of the
    unrounded [ndvi]. *)
Definition derived_evi (ndvi : Q) : Q :=
  if ltb ndvi 0.83 then ndvi * 1.2 else ndvi.

(** [base_ndvi] of [_get_fallback_data] for a numeric latitude. *)
Definition base_ndvi (lat : Q) (random : Q) : Q :=
  0.4 + NASADataFetcher.uniform 0 0.3 random * (1 - py_abs lat / 90).

End Parts.

(** ** Texts of dates, for the proofs about parsing *)

Module DateText.
Import Py Datetime.
Local Open Scope Z_scope.

(** The character of a decimal digit. *)
Definition digit_char (k : Z) : Ascii.ascii :=
  Ascii.ascii_of_N (Z.to_N (48 + k)).

(** The four digits of a year. *)
Definition text4 (y : Z) : string :=
  String (digit_char (y / 1000))
    (String (digit_char (y / 100 mod 10))
       (String (digit_char (y / 10 mod 10))
          (String (digit_char (y mod 10)) EmptyString))).

(** The month [md / 32] and the day [md mod 32], written with two digits
    each, are read back by [re_md]. *)
Definition month_day_ok (md : Z) : bool :=
  let m := md / 32 in
  let d := md mod 32 in
  if (1 <=? m) && (m <=? 12) && (1 <=? d) && (d <=? 31) then
    match re_md (String.append (pad 2 m) (pad 2 d)) with
    | Some (m', d', EmptyString) => (m' =? m) && (d' =? d)
    | _ => false
    end
  else true.

(** The value stored under [date] for the day [t]. *)
Definition date_value (t : date) : value := Str (Spec.date_text t).

(** [f] holds at the [n] integers from [lo] on. *)
Fixpoint all_from (f : Z -> bool) (lo : Z) (n : nat) : bool :=
  match n with
  | O => true
  | S n' => f lo && all_from f (lo + 1) n'
  end.

(** The ordinal [n] is the ordinal of its calendar day. *)
Definition ordinal_ok (n : Z) : bool :=
  let '(y, m, d) := _ord2ymd n in _ymd2ord y m d =? n.

End DateText.

(** ** Concrete inputs *)

Module Examples.
Import Py Datetime.
Local Open Scope Q_scope.

Definition mild_sample : gmap string value :=
  <["ndvi" := Num 0.5]> (<["evi" := Num 0.6]>
    (<["temperature" := Num 22]> (<["precipitation" := Num 3]> ∅))).

(** A call whose remote lookup fails. *)
Definition offline : NASADataFetcher.world :=
  NASADataFetcher.mkworld (mkdate 2024 1 1) NASADataFetcher.ReplyOther
                          (1 # 2) (1 # 4) (3 # 4).

(** The classifier input of the specification: lat 0, ndvi 0.8, temp 26,
    precip 12. *)
Definition rainforest_sample : gmap string value :=
  <["ndvi" := Num 0.8]>
    (<["temperature" := Num 26]> (<["precipitation" := Num 12]> ∅)).
Definition equator : gmap string value := <["lat" := Num 0]> ∅.

(** The entry of a series for a sample. *)
Definition entry_for (s : Spec.sample) : gmap string value :=
  <["date" := Str (Spec.date_text (snd s))]> (<["ndvi" := Num (fst s)]> ∅).

(** Fourteen weekly entries; the only transition is at 2024-01-01. *)
Definition single_transition : list Spec.sample :=
  [ (0.5, mkdate 2024 1 1); (0.7, mkdate 2024 1 8); (0.7, mkdate 2024 1 15);
    (0.7, mkdate 2024 1 22); (0.7, mkdate 2024 1 29); (0.7, mkdate 2024 2 5);
    (0.7, mkdate 2024 2 12); (0.7, mkdate 2024 2 19); (0.7, mkdate 2024 2 26);
    (0.7, mkdate 2024 3 4); (0.7, mkdate 2024 3 11); (0.7, mkdate 2024 3 18);
    (0.7, mkdate 2024 3 25); (0.7, mkdate 2024 4 1) ].

(** Fourteen entries with transitions at 2024-01-01, 2024-01-08 and
    2024-01-16: the gaps are 7 and 8 days. *)
Definition uneven_transitions : list Spec.sample :=
  [ (0.5, mkdate 2024 1 1); (0.7, mkdate 2024 1 5); (0.5, mkdate 2024 1 8);
    (0.7, mkdate 2024 1 12); (0.5, mkdate 2024 1 16); (0.7, mkdate 2024 1 20);
    (0.7, mkdate 2024 1 24); (0.7, mkdate 2024 1 28); (0.7, mkdate 2024 2 1);
    (0.7, mkdate 2024 2 5); (0.7, mkdate 2024 2 9); (0.7, mkdate 2024 2 13);
    (0.7, mkdate 2024 2 17); (0.7, mkdate 2024 2 21) ].

(** Fourteen daily entries at the end of the calendar; the only transition
    is at 9999-11-01. *)
Definition end_of_calendar : list Spec.sample :=
  [ (0.5, mkdate 9999 11 1); (0.7, mkdate 9999 11 2); (0.7, mkdate 9999 11 3);
    (0.7, mkdate 9999 11 4); (0.7, mkdate 9999 11 5); (0.7, mkdate 9999 11 6);
    (0.7, mkdate 9999 11 7); (0.7, mkdate 9999 11 8); (0.7, mkdate 9999 11 9);
    (0.7, mkdate 9999 11 10); (0.7, mkdate 9999 11 11);
    (0.7, mkdate 9999 11 12); (0.7, mkdate 9999 11 13);
    (0.7, mkdate 9999 11 14) ].

(** An entry that is no sample at all. *)
Definition malformed_entry : gmap string value := <["ndvi" := Str "n/a"]> ∅.

End Examples.

(** ** What the rules of the classifier keep *)

Module Rules.
Import BloomDetector.

(** Findings as the rules leave them: notes come only with hints, and no
    rule gives the general hint. *)
Definition hinted (f : findings) : Prop :=
  (hints f = [] -> notes f = [])
  /\ ~ In "Vegetación general"%string (hints f).

End Rules.

(** ** Series of ndvi values *)

Module Series.
Import PyNum Py.
Local Open Scope Q_scope.

(** Some consecutive pair of the values is a bloom transition: the next
    value is above 0.6 and more than 0.05 above the current one. *)
Fixpoint rises (ndvis : list Q) : bool :=
  match ndvis with
  | curr :: (next :: _) as rest =>
      (ltb 0.6 next && ltb 0.05 (next - curr)) || rises rest
  | _ => false
  end.

(** The entry holds the number [q] under [ndvi]; nothing is asked of its
    other keys. *)
Definition has_ndvi (entry : gmap string value) (q : Q) : Prop :=
  entry !! "ndvi" = Some (Num q).

End Series.

(** ** nasa_api.py: series of samples *)

Module NASASeries.
Import PyNum Py Datetime NASADataFetcher.

(** [get_historical_data].  [end_date] is the day of the reading of the
    clock taken first (its time of day goes through the subtraction
    unchanged and is not written by the format); [calls i] is the
    surroundings of the call made for the day [i] days back. *)
Definition get_historical_data (lat lon : value) (days : Z) (end_date : date)
  (calls : nat -> world) : result (list (gmap string value)) :=
  let! historical :=
    for_each
      (fun historical i =>
         let! day := add_days end_date (- Z.of_nat i) in
         let date := Str (strftime "" day) in
         let! data := get_vegetation_index lat lon (Some date) (calls i) in
         let! ndvi := dict_item data "ndvi" in
         let! evi := dict_item data "evi" in
         Ok (historical
             ++ [<["date" := date]>
                   (<["ndvi" := ndvi]> (<["evi" := evi]> ∅))]))
      (range (Z.to_nat days)) [] in
  Ok (rev historical).

(** The day [i] days before [end_date], and the sample the series holds
    for it: the ndvi of the sample fetched for that day. *)
Definition day_back (end_date : date) (i : nat) : date :=
  fromordinal (toordinal end_date - Z.of_nat i).

Definition ndvi_back (lat lon : value) (end_date : date)
  (calls : nat -> world) (i : nat) : Q :=
  match get_vegetation_index lat lon
          (Some (Str (strftime "" (day_back end_date i)))) (calls i) with
  | Ok data =>
      match data !! "ndvi" with
      | Some (Num q) => q
      | _ => 0%Q
      end
  | Raise _ => 0%Q
  end.

Definition sample_back (lat lon : value) (end_date : date)
  (calls : nat -> world) (i : nat) : Spec.sample :=
  (ndvi_back lat lon end_date calls i, day_back end_date i).

(** A day of the calendar, by its ordinal: its fields pass the check of
    the constructor and the first of its month is not after it. *)
Definition calendar_ok (n : Z) : bool :=
  let ymd := _ord2ymd n in
  valid_date (fst (fst ymd)) (snd (fst ymd)) (snd ymd)
  && (0 <=? _days_before_month (fst (fst ymd)) (snd (fst ymd)))%Z.

(** The entry the series holds for the day [i] days back: the text of the
    day, and the ndvi and evi of the sample fetched for that text. *)
Definition history_entry (lat lon : value) (end_date : date)
  (calls : nat -> world) (entry : gmap string value) (i : nat) : Prop :=
  let text := Str (strftime "" (day_back end_date i)) in
  exists data n e,
    get_vegetation_index lat lon (Some text) (calls i) = Ok data
    /\ data !! "ndvi" = Some (Num n) /\ data !! "evi" = Some (Num e)
    /\ entry = <["date" := text]> (<["ndvi" := Num n]> (<["evi" := Num e]> ∅)).

(** The days are in ascending order of the calendar, none before the
    ordinal [lo]. *)
Fixpoint ascending_from (lo : Z) (days : list date) : Prop :=
  match days with
  | [] => True
  | t :: rest => (lo <= toordinal t)%Z /\ ascending_from (toordinal t) rest
  end.

End NASASeries.

(** ** nasa_api.py: weekly series between two dates *)

Module TimeSeries.
Import Py.

(** An entry of [bloom_events]. *)
Record event : Type := mkevent {
  event_date : string;
  intensity : value
}.

Record t : Type := mk {
  dates : list string;
  ndvi : list value;
  evi : list value;
  bloom_events : list event
}.

End TimeSeries.

Module NASATimeSeries.
Import PyNum Py Datetime NASADataFetcher.

(** *** Parsing with [%Y-%m-%d]

    The format compiles to the regular expression
    [(?P<Y>\d\d\d\d)-(?P<m>1[0-2]|0[1-9]|[1-9])-(?P<d>3[0-1]|[1-2]\d|0[1-9]|[1-9]| [1-9])];
    as with [%Y%m%d] the first match in backtracking order is taken and
    must consume the whole string. *)

Definition literal (c : Ascii.ascii) (s : string) : option string :=
  match s with
  | String c' rest => if Ascii.eqb c' c then Some rest else None
  | EmptyString => None
  end.

Definition dash : Ascii.ascii := Ascii.ascii_of_nat 45.

(** Month, dash, day: every way to match the month, in order, followed by
    the dash and every way to match the day; the first one wins. *)
Definition re_m_d (s : string) : option (Z * Z * string) :=
  head (flat_map
          (fun mr =>
             match literal dash (snd mr) with
             | Some r => map (fun dr => (fst mr, fst dr, snd dr)) (re_d r)
             | None => []
             end)
          (re_m s)).

Definition re_Y_m_d (s : string) : option (Z * Z * Z * string) :=
  match re_Y s with
  | Some (y, r1) =>
      match literal dash r1 with
      | Some r2 =>
          match re_m_d r2 with
          | Some (m, d, r3) => Some (y, m, d, r3)
          | None => None
          end
      | None => None
      end
  | None => None
  end.

(** [datetime.strptime(v, '%Y-%m-%d')] *)
Definition strptime_dashed (v : value) : result date :=
  match v with
  | Num _ => Raise TypeError
  | Str s =>
      match re_Y_m_d s with
      | Some (y, m, d, EmptyString) => make_date y m d
      | _ => Raise ValueError
      end
  end.

(** [t1 <= t2]: the comparison of the fields, year first. *)
Definition date_le (t1 t2 : date) : bool :=
  ((year t1 <? year t2)
   || ((year t1 =? year t2)
       && ((month t1 <? month t2)
           || ((month t1 =? month t2) && (day t1 <=? day t2)))))%Z.

(** One pass of the body of the [while] loop, in the surroundings [w] of
    its call: the lists with the sample of [current] appended, and the
    next value of [current].  The body reads [data['ndvi']] three times;
    the reads agree, so the entry is bound once, where it is first
    read. *)
Definition time_series_step (lat lon : value) (w : world) (current : date)
  (acc : TimeSeries.t) : result (date * TimeSeries.t) :=
  let date_str := Str (strftime "" current) in
  let! data := get_vegetation_index lat lon (Some date_str) w in
  let dates := TimeSeries.dates acc ++ [strftime "-" current] in
  let! ndvi := dict_item data "ndvi" in
  let ndvi_values := TimeSeries.ndvi acc ++ [ndvi] in
  let! evi := dict_item data "evi" in
  let evi_values := TimeSeries.evi acc ++ [evi] in
  let! high := py_gt ndvi (Num 0.6) in
  let bloom_events :=
    if high
    then TimeSeries.bloom_events acc
         ++ [TimeSeries.mkevent (strftime "-" current) ndvi]
    else TimeSeries.bloom_events acc in
  let! next := add_days current 7 in
  Ok (next, TimeSeries.mk dates ndvi_values evi_values bloom_events).

(** The [while] loop, for at most [fuel] passes; [None] when they do not
    suffice.  [calls k] is the surroundings of pass [k].  An exception of
    a pass ends the loop, and the lists built so far are dropped with
    it. *)
Fixpoint time_series_loop (fuel : nat) (lat lon : value) (end_ : date)
  (calls : nat -> world) (k : nat) (current : date) (acc : TimeSeries.t)
  : option (result TimeSeries.t) :=
  match fuel with
  | O => None
  | S fuel =>
      if date_le current end_ then
        match time_series_step lat lon (calls k) current acc with
        | Ok (next, acc) =>
            time_series_loop fuel lat lon end_ calls (S k) next acc
        | Raise e => Some (Raise e)
        end
      else Some (Ok acc)
  end.

(** [get_time_series], allowed [fuel] passes of its loop. *)
Definition get_time_series (fuel : nat) (lat lon start_date end_date : value)
  (calls : nat -> world) : option (result TimeSeries.t) :=
  match strptime_dashed start_date with
  | Raise e => Some (Raise e)
  | Ok start =>
      match strptime_dashed end_date with
      | Raise e => Some (Raise e)
      | Ok end_ =>
          time_series_loop fuel lat lon end_ calls 0 start
            (TimeSeries.mk [] [] [] [])
      end
  end.

End NASATimeSeries.

(** ** Weekly series, as described *)

Module Weekly.
Import PyNum Py Datetime NASADataFetcher NASATimeSeries.

(** The passes the loop makes from [start] to [end_]: one per seventh
    day, while the day is not after [end_]; and the day of pass [k]. *)
Definition weeks (start end_ : date) : nat :=
  Z.to_nat ((toordinal end_ - toordinal start) / 7 + 1).

Definition week_day (start : date) (k : nat) : date :=
  fromordinal (toordinal start + 7 * Z.of_nat k).

(** The bloom events of a series of dated ndvi values: those above 0.6,
    in order. *)
Definition events_of (entries : list (string * Q)) : list TimeSeries.event :=
  flat_map
    (fun entry =>
       if ltb 0.6 (snd entry)
       then [TimeSeries.mkevent (fst entry) (Num (snd entry))]
       else [])
    entries.

(** The number the sample of pass [k] holds under [key], and the text of
    the day of pass [k]. *)
Definition week_number (lat lon : value) (start : date)
  (calls : nat -> world) (key : string) (k : nat) : Q :=
  match get_vegetation_index lat lon
          (Some (Str (strftime "" (week_day start k)))) (calls k) with
  | Ok data =>
      match data !! key with
      | Some (Num q) => q
      | _ => 0%Q
      end
  | Raise _ => 0%Q
  end.

Definition week_text (start : date) (k : nat) : string :=
  strftime "-" (week_day start k).

(** The series of the first [n] passes. *)
Definition weekly_series (lat lon : value) (start : date)
  (calls : nat -> world) (n : nat) : TimeSeries.t :=
  let passes := seq 0 n in
  TimeSeries.mk
    (week_text start <$> passes)
    ((fun k => Num (week_number lat lon start calls "ndvi" k)) <$> passes)
    ((fun k => Num (week_number lat lon start calls "evi" k)) <$> passes)
    (events_of
       ((fun k => (week_text start k,
                   week_number lat lon start calls "ndvi" k)) <$> passes)).

(** The lists of a series go together: one date, one ndvi number and one
    evi per pass, and the bloom events are those of the dated ndvi
    numbers. *)
Definition consistent (series : TimeSeries.t) : Prop :=
  exists ndvis : list Q,
    TimeSeries.ndvi series = Num <$> ndvis
    /\ length (TimeSeries.dates series) = length ndvis
    /\ length (TimeSeries.evi series) = length ndvis
    /\ TimeSeries.bloom_events series
       = events_of (zip (TimeSeries.dates series) ndvis).

(** [t1] is before [t2], field by field. *)
Definition before (t1 t2 : date) : Prop :=
  (year t1 < year t2
   \/ (year t1 = year t2
       /\ (month t1 < month t2
           \/ (month t1 = month t2 /\ day t1 < day t2))))%Z.

End Weekly.

(** ** The range and the precision of binary64 *)

Module Binary64.
Import PyNum Py.
Local Open Scope Q_scope.

(** The largest binary64 number and the smallest positive one. *)
Definition max_float : Q := inject_Z (2 ^ 1024 - 2 ^ 971).
Definition min_float : Q := 1 # (2 ^ 1074).

(** The program computes in binary64.  A number is [finite] when its
    magnitude is within the largest float: every float is, and so is every
    integer that true division can turn into a float; on a larger integer
    the divisions of the program raise [OverflowError].  It is [in_range]
    when moreover it is zero or at least the smallest positive float in
    magnitude, so that its sign is the sign of the float that stands for
    it. *)
Definition finite (x : Q) : Prop := Qabs x <= max_float.
Definition in_range (x : Q) : Prop :=
  finite x /\ (x == 0 \/ min_float <= Qabs x).

(** The entry [key] of a sample is absent or a number that satisfies
    [P]. *)
Definition entry_within (P : Q -> Prop) (sd : gmap string value)
  (key : string) : Prop :=
  match sd !! key with
  | Some (Num q) => P q
  | Some (Str _) => False
  | None => True
  end.

(** The allowance the properties leave for the error of the binary64
    evaluation of a formula of the program on arguments in range.  The
    formulas have a handful of operations on values of moderate size, so
    the error stays many orders of magnitude below it. *)
Definition slack : Q := 1 # 1000000000.

(** An ndvi is [plain] when it lies in [-1, 1], as a normalized
    difference does. *)
Definition plain (q : Q) : bool := leb (Qabs q) 1.

(** The two comparisons of the scanning loop of [predict_bloom_date] are
    [decided] on a pair when the next value is at most 0.6, or is above
    0.6 by [slack] and the growth is not within [slack] of 0.05; then
    binary64 subtraction and exact subtraction compare alike. *)
Definition decided_pair (curr next : Q) : bool :=
  leb next 0.6
  || (leb (0.6 + slack) next && leb slack (Qabs (next - curr - 0.05))).

Fixpoint decided_pairs (ndvis : list Q) : bool :=
  match ndvis with
  | curr :: (next :: _) as rest => decided_pair curr next && decided_pairs rest
  | _ => true
  end.

Definition decided (ndvis : list Q) : bool :=
  forallb plain ndvis && decided_pairs ndvis.

(** Some consecutive pair may count as a bloom transition in binary64:
    the next value is above 0.6 and the growth above 0.05, each up to
    [slack]. *)
Fixpoint may_rise (ndvis : list Q) : bool :=
  match ndvis with
  | curr :: (next :: _) as rest =>
      (ltb (0.6 - slack) next && ltb (0.05 - slack) (next - curr))
      || may_rise rest
  | _ => false
  end.

(** A sample whose level is [k / 10]: the temperature and the
    precipitation are left to their defaults, which give 30 and 5. *)
Definition sample_at_level (k : Z) : gmap string value :=
  let x := (inject_Z k / 10 - 35) / 40 in
  <["ndvi" := Num x]> (<["evi" := Num x]> ∅).

End Binary64.

(** * Properties *)

(** Linear arithmetic over [Q] with the divisions by constants written as
    multiplications. *)
Ltac qlra := unfold Qdiv in *; cbn [Qinv Qnum Qden] in *; lra.

(** Push [String.append] through the characters of its first argument. *)
Ltac norm_append :=
  repeat (change (String.append (String ?a ?b) ?c)
            with (String a (String.append b c)));
  repeat (change (String.append EmptyString ?c) with c).

(** ** Numbers *)

Section Numbers.
Import PyNum.
Local Open Scope Q_scope.

Lemma ltb_lt (a b : Q) : ltb a b = true <-> a < b.
Proof.
  unfold ltb. destruct (Qcompare_spec a b) as [H|H|H]; split; intro G;
    try discriminate; try reflexivity; lra.
Qed.

Lemma ltb_ge (a b : Q) : ltb a b = false <-> b <= a.
Proof.
  unfold ltb. destruct (Qcompare_spec a b) as [H|H|H]; split; intro G;
    try discriminate; try reflexivity; lra.
Qed.

Lemma leb_le (a b : Q) : leb a b = true <-> a <= b.
Proof.
  unfold leb. destruct (Qcompare_spec a b) as [H|H|H]; split; intro G;
    try discriminate; try reflexivity; lra.
Qed.

Lemma leb_gt (a b : Q) : leb a b = false <-> b < a.
Proof.
  unfold leb. destruct (Qcompare_spec a b) as [H|H|H]; split; intro G;
    try discriminate; try reflexivity; lra.
Qed.

Lemma ltb_cases (a b : Q) :
  (ltb a b = true /\ a < b) \/ (ltb a b = false /\ b <= a).
Proof.
  destruct (ltb a b) eqn:E; [left | right]; split; trivial.
  - now apply ltb_lt.
  - now apply ltb_ge.
Qed.

Lemma leb_cases (a b : Q) :
  (leb a b = true /\ a <= b) \/ (leb a b = false /\ b < a).
Proof.
  destruct (leb a b) eqn:E; [left | right]; split; trivial.
  - now apply leb_le.
  - now apply leb_gt.
Qed.

Lemma py_max_Qmax (a b : Q) : py_max a b == Qmax a b.
Proof.
  unfold py_max. destruct (ltb_cases a b) as [[-> H]|[-> H]].
  - symmetry. apply Q.max_r. lra.
  - symmetry. now apply Q.max_l.
Qed.

Lemma py_min_Qmin (a b : Q) : py_min a b == Qmin a b.
Proof.
  unfold py_min. destruct (ltb_cases b a) as [[-> H]|[-> H]].
  - symmetry. apply Q.min_r. lra.
  - symmetry. now apply Q.min_l.
Qed.

Lemma py_max_cases (a b : Q) :
  (a < b /\ py_max a b = b) \/ (b <= a /\ py_max a b = a).
Proof.
  unfold py_max. destruct (ltb_cases a b) as [[-> H]|[-> H]]; auto.
Qed.

Lemma py_min_cases (a b : Q) :
  (b < a /\ py_min a b = b) \/ (a <= b /\ py_min a b = a).
Proof.
  unfold py_min. destruct (ltb_cases b a) as [[-> H]|[-> H]]; auto.
Qed.

Lemma Qmax_cases (a b : Q) :
  (a <= b /\ Qmax a b == b) \/ (b <= a /\ Qmax a b == a).
Proof. apply Q.max_spec_le. Qed.

Lemma Qmin_cases (a b : Q) :
  (a <= b /\ Qmin a b == a) \/ (b <= a /\ Qmin a b == b).
Proof. apply Q.min_spec_le. Qed.

Lemma Qabs_cases (a : Q) :
  (0 <= a /\ Qabs a == a) \/ (a <= 0 /\ Qabs a == - a).
Proof.
  destruct (Qlt_le_dec a 0) as [H|H].
  - right. split; [lra | apply Qabs_neg; lra].
  - left. split; [assumption | now apply Qabs_pos].
Qed.

#[global] Instance ltb_proper : Proper (Qeq ==> Qeq ==> eq) ltb.
Proof. intros a a' Ha b b' Hb. unfold ltb. now rewrite Ha, Hb. Qed.

#[global] Instance leb_proper : Proper (Qeq ==> Qeq ==> eq) leb.
Proof. intros a a' Ha b b' Hb. unfold leb. now rewrite Ha, Hb. Qed.

#[global] Instance py_max_proper : Proper (Qeq ==> Qeq ==> Qeq) py_max.
Proof. intros a a' Ha b b' Hb. rewrite !py_max_Qmax. now rewrite Ha, Hb. Qed.

#[global] Instance py_min_proper : Proper (Qeq ==> Qeq ==> Qeq) py_min.
Proof. intros a a' Ha b b' Hb. rewrite !py_min_Qmin. now rewrite Ha, Hb. Qed.

(** Rounding to the nearest integer. *)

Lemma round_half_even_near (x : Q) :
  round_half_even x = Qfloor x \/ round_half_even x = (Qfloor x + 1)%Z.
Proof.
  unfold round_half_even.
  destruct (Qcompare _ _); [destruct (Z.even _) | |]; auto.
Qed.

Lemma round_half_even_mono (x y : Q) :
  x <= y -> (round_half_even x <= round_half_even y)%Z.
Proof.
  intro Hxy.
  pose proof (Qfloor_resp_le x y Hxy) as Hfl.
  destruct (Z.eq_dec (Qfloor x) (Qfloor y)) as [E|NE].
  - unfold round_half_even. rewrite <- E.
    destruct (Qcompare_spec (x - inject_Z (Qfloor x)) (1 # 2)) as [Hx|Hx|Hx];
      destruct (Qcompare_spec (y - inject_Z (Qfloor x)) (1 # 2)) as [Hy|Hy|Hy];
      try destruct (Z.even (Qfloor x)); try lia; exfalso; lra.
  - destruct (round_half_even_near x) as [-> | ->];
      destruct (round_half_even_near y) as [-> | ->]; lia.
Qed.

Lemma round_half_even_inject (z : Z) : round_half_even (inject_Z z) = z.
Proof.
  unfold round_half_even. rewrite Qfloor_Z.
  destruct (Qcompare_spec (inject_Z z - inject_Z z) (1 # 2)) as [H|H|H];
    trivial; exfalso; lra.
Qed.

#[global] Instance round_half_even_proper : Proper (Qeq ==> eq) round_half_even.
Proof.
  intros x y E. unfold round_half_even.
  rewrite (Qfloor_comp x y E).
  now rewrite E.
Qed.

Lemma py_round_mono (x y : Q) (n : nat) :
  x <= y -> py_round x n <= py_round y n.
Proof.
  intro H. unfold py_round. destruct n as [|n].
  - rewrite <- Zle_Qle. now apply round_half_even_mono.
  - set (scale := (10 ^ Pos.of_nat (S n))%positive).
    unfold Qle. cbn [Qnum Qden].
    apply Z.mul_le_mono_nonneg_r; [lia|].
    apply round_half_even_mono.
    apply Qmult_le_compat_r; [assumption|].
    unfold Qle; cbn; lia.
Qed.

#[global] Instance py_round_proper : Proper (Qeq ==> eq ==> Qeq) py_round.
Proof.
  intros x y E n ? <-. unfold py_round. destruct n.
  - now rewrite E.
  - now rewrite E.
Qed.

(** A value that already has [n] decimals is left alone. *)
Lemma py_round_fixed (z : Z) (n : nat) :
  py_round (z # (10 ^ Pos.of_nat (S n))) (S n) == z # (10 ^ Pos.of_nat (S n)).
Proof.
  unfold py_round.
  set (scale := (10 ^ Pos.of_nat (S n))%positive).
  assert (E : (z # scale) * inject_Z (Z.pos scale) == inject_Z z).
  { unfold Qeq, Qmult, inject_Z. cbn. lia. }
  rewrite E, round_half_even_inject. reflexivity.
Qed.

(** Bounds with [n] decimals survive rounding. *)
Lemma py_round_lower (c x : Q) (n : nat) :
  py_round c n == c -> c <= x -> c <= py_round x n.
Proof. intros Hc H. rewrite <- Hc. now apply py_round_mono. Qed.

Lemma py_round_upper (c x : Q) (n : nat) :
  py_round c n == c -> x <= c -> py_round x n <= c.
Proof. intros Hc H. rewrite <- Hc. now apply py_round_mono. Qed.

End Numbers.

(** ** Rounding and the error of the evaluation *)

Section Rounding.
Import PyNum Binary64.
Local Open Scope Q_scope.

Lemma Qabs_le_iff (x c : Q) : Qabs x <= c <-> - c <= x <= c.
Proof. apply Qabs_Qle_condition. Qed.

Lemma Qabs_zero_le (x y c : Q) : x == y -> 0 <= c -> Qabs (x - y) <= c.
Proof.
  intros E Hc. assert (x - y == 0) as -> by lra. exact Hc.
Qed.

(** Rounding to the nearest integer moves a number by at most a half. *)
Lemma round_half_even_close (x : Q) :
  Qabs (inject_Z (round_half_even x) - x) <= 1 # 2.
Proof.
  pose proof (Qfloor_le x) as Hlo. pose proof (Qlt_floor x) as Hhi.
  rewrite inject_Z_plus in Hhi. change (inject_Z 1) with 1 in Hhi.
  apply Qabs_le_iff. unfold round_half_even.
  destruct (Qcompare_spec (x - inject_Z (Qfloor x)) (1 # 2)) as [H|H|H];
    [destruct (Z.even (Qfloor x))| |];
    rewrite ?inject_Z_plus; change (inject_Z 1) with 1; split; lra.
Qed.

(** [round(x, n)] for [n >= 1] is a whole number of units of the [n]th
    decimal, and lies within half a unit of [x]. *)
Lemma py_round_grid (x : Q) (n : nat) :
  exists k : Z,
    py_round x (S n) == inject_Z k / inject_Z (Zpos (10 ^ Pos.of_nat (S n))).
Proof.
  exists (round_half_even (x * inject_Z (Zpos (10 ^ Pos.of_nat (S n))))).
  unfold py_round. rewrite (Qmake_Qdiv _ (10 ^ Pos.of_nat (S n))). reflexivity.
Qed.

Lemma py_round_close (x : Q) (n : nat) :
  Qabs (py_round x (S n) - x)
  <= (1 # 2) / inject_Z (Zpos (10 ^ Pos.of_nat (S n))).
Proof.
  unfold py_round.
  set (scale := (10 ^ Pos.of_nat (S n))%positive).
  rewrite (Qmake_Qdiv _ scale).
  pose proof (round_half_even_close (x * inject_Z (Zpos scale))) as H.
  set (k := inject_Z (round_half_even (x * inject_Z (Zpos scale)))) in *.
  assert (0 < inject_Z (Zpos scale)) as Hs by (unfold Qlt; cbn; lia).
  set (s := inject_Z (Zpos scale)) in *.
  apply Qabs_le_iff in H. apply Qabs_le_iff.
  assert (k / s - x == (k - x * s) / s) as -> by (field; lra).
  split.
  - apply Qle_shift_div_l; [assumption|].
    assert (- ((1 # 2) / s) * s == - (1 # 2)) as -> by (field; lra). lra.
  - apply Qle_shift_div_r; [assumption|].
    assert ((1 # 2) / s * s == 1 # 2) as -> by (field; lra). lra.
Qed.

(** A number the exact arithmetic rounds at one, two or three decimals:
    the result is on the grid and within half a unit, with room for the
    error of the evaluation. *)
Lemma py_round_near (x y : Q) (n : nat) :
  x == y ->
  Qabs (py_round x (S n) - y)
  <= (1 # 2) / inject_Z (Zpos (10 ^ Pos.of_nat (S n))) + slack.
Proof.
  intro E. pose proof (py_round_close x n) as H. rewrite E in H at 2.
  unfold slack. lra.
Qed.

Lemma py_round_near1 (x y : Q) :
  x == y ->
  Qabs (py_round x 1 - y) <= 0.05 + slack
  /\ exists k : Z, py_round x 1 == inject_Z k / 10.
Proof.
  intro E. split; [|exact (py_round_grid x 0)].
  eapply Qle_trans; [exact (py_round_near x y 0 E)|].
  vm_compute. discriminate.
Qed.

Lemma py_round_near2 (x y : Q) :
  x == y ->
  Qabs (py_round x 2 - y) <= 0.005 + slack
  /\ exists k : Z, py_round x 2 == inject_Z k / 100.
Proof.
  intro E. split; [|exact (py_round_grid x 1)].
  eapply Qle_trans; [exact (py_round_near x y 1 E)|].
  vm_compute. discriminate.
Qed.

Lemma py_round_near3 (x y : Q) :
  x == y ->
  Qabs (py_round x 3 - y) <= 0.0005 + slack
  /\ exists k : Z, py_round x 3 == inject_Z k / 1000.
Proof.
  intro E. split; [|exact (py_round_grid x 2)].
  eapply Qle_trans; [exact (py_round_near x y 2 E)|].
  vm_compute. discriminate.
Qed.

End Rounding.

(** ** Bloom scoring *)

Section BloomScorer.
Import PyNum Py BloomDetector Parts Binary64.
Local Open Scope Q_scope.

Lemma calculate_bloom_level_raw (ndvi evi temp precip : Q) :
  _calculate_bloom_level ndvi evi temp precip
  = py_round (py_min (raw_level ndvi evi temp precip) 100) 1.
Proof. reflexivity. Qed.

Lemma raw_level_spec (ndvi evi temp precip : Q) :
  raw_level ndvi evi temp precip
  == Spec.vegFactor ndvi evi + Spec.tempFactor temp + Spec.precipFactor precip.
Proof.
  unfold raw_level, Spec.vegFactor, Spec.tempFactor, Spec.precipFactor, py_abs.
  rewrite py_max_Qmax.
  destruct (ltb_cases 0 precip) as [[-> H]|[-> H]];
    destruct (Qlt_le_dec 0 precip) as [H'|H']; try (exfalso; lra).
  - rewrite py_min_Qmin. reflexivity.
  - reflexivity.
Qed.

Lemma raw_level_nonneg (ndvi evi temp precip : Q) :
  0 <= ndvi -> 0 <= evi -> 0 <= precip ->
  0 <= raw_level ndvi evi temp precip.
Proof.
  intros Hn He Hp. unfold raw_level.
  destruct (py_max_cases 0 ((10 - py_abs (temp - 20)) / 10)) as [[H ->]|[H ->]];
    destruct (ltb_cases 0 precip) as [[-> Hp']|[-> Hp']];
    try destruct (py_min_cases (precip / 15) 1) as [[H1 ->]|[H1 ->]];
    qlra.
Qed.

Lemma status_band_cases (level : Q) :
  (70 <= level
   /\ status_band level
      = ("peak_bloom"%string, 0.85 + (level - 70) / 100, "#00ff00"%string))
  \/ (50 <= level < 70
      /\ status_band level
         = ("active_bloom"%string, 0.70 + (level - 50) / 100, "#90ee90"%string))
  \/ (30 <= level < 50
      /\ status_band level
         = ("early_bloom"%string, 0.55 + (level - 30) / 100, "#ffff00"%string))
  \/ (level < 30
      /\ status_band level
         = ("no_bloom"%string, 0.40 + level / 100, "#808080"%string)).
Proof.
  unfold status_band.
  destruct (leb_cases 70 level) as [[-> H1]|[-> H1]]; [left; auto|].
  destruct (leb_cases 50 level) as [[-> H2]|[-> H2]]; [right; left; auto|].
  destruct (leb_cases 30 level) as [[-> H3]|[-> H3]];
    [right; right; left; auto | right; right; right; auto].
Qed.

Lemma analyze_bloom_inv (sd : gmap string value) (r : Assessment.t) :
  analyze_bloom sd = Ok r ->
  Assessment.status r = fst (fst (status_band (Assessment.level r)))
  /\ Assessment.confidence r
     = py_round (py_min (snd (fst (status_band (Assessment.level r)))) 0.95) 2
  /\ Assessment.color r = snd (status_band (Assessment.level r)).
Proof.
  unfold analyze_bloom.
  destruct (as_num (dict_get sd "ndvi" (Num 0))) as [n|]; [|discriminate].
  destruct (as_num (dict_get sd "evi" (Num 0))) as [e|]; [|discriminate].
  destruct (as_num (dict_get sd "temperature" (Num 20))) as [t|]; [|discriminate].
  destruct (as_num (dict_get sd "precipitation" (Num 0))) as [p|]; [|discriminate].
  cbn [bind]. cbv zeta.
  destruct (status_band (_calculate_bloom_level n e t p)) as [[s c] col] eqn:E.
  intros [= <-].
  cbn [Assessment.status Assessment.level Assessment.confidence
       Assessment.color].
  rewrite E. auto.
Qed.

(** The level of non-negative ndvi, evi and precipitation against the
    clamped sum of the three factors. *)
Lemma calculate_bloom_level_near (ndvi evi temp precip : Q) :
  0 <= ndvi -> 0 <= evi -> 0 <= precip ->
  Qabs (_calculate_bloom_level ndvi evi temp precip
        - Spec.clamp 0 100
            (Spec.vegFactor ndvi evi + Spec.tempFactor temp
             + Spec.precipFactor precip))
  <= 0.05 + slack
  /\ exists k : Z,
       _calculate_bloom_level ndvi evi temp precip == inject_Z k / 10.
Proof.
  intros Hn He Hp. rewrite calculate_bloom_level_raw.
  apply py_round_near1.
  pose proof (raw_level_nonneg ndvi evi temp precip Hn He Hp) as Hraw.
  unfold Spec.clamp.
  rewrite py_min_Qmin, <- raw_level_spec.
  rewrite (Q.min_comm 100).
  rewrite Q.max_r; [reflexivity|].
  apply Q.min_glb; qlra.
Qed.

Lemma status_band_of (level : Q) :
  fst (fst (status_band level)) = Spec.band_status (Spec.band_of level).
Proof.
  unfold Spec.band_of.
  destruct (status_band_cases level)
    as [[H ->]|[[H ->]|[[H ->]|[H ->]]]]; cbn [fst snd];
    destruct (Qlt_le_dec level 30); try (exfalso; lra);
    destruct (Qlt_le_dec level 50); try (exfalso; lra);
    destruct (Qlt_le_dec level 70); try (exfalso; lra);
    reflexivity.
Qed.

(** C1: for a sample with ndvi in [0, 0.95], evi >= 0, precipitation >= 0
    and any temperature, all within the range of binary64,
    [analyze_bloom] returns the level
    clamp(0, 100, vegFactor + tempFactor + precipFactor) rounded to one
    decimal: a whole number of tenths within 0.05 of the clamped sum (up
    to the error of the evaluation, which decides the ties), and that
    level lies in [0, 100]. *)
Theorem analyze_bloom_level (sd : gmap string value) (ndvi evi temp precip : Q) :
  sd !! "ndvi" = Some (Num ndvi) ->
  sd !! "evi" = Some (Num evi) ->
  sd !! "temperature" = Some (Num temp) ->
  sd !! "precipitation" = Some (Num precip) ->
  0 <= ndvi <= 0.95 -> 0 <= evi -> 0 <= precip ->
  finite evi -> finite temp -> in_range precip ->
  exists r, analyze_bloom sd = Ok r
    /\ Qabs (Assessment.level r
             - Spec.clamp 0 100
                 (Spec.vegFactor ndvi evi + Spec.tempFactor temp
                  + Spec.precipFactor precip))
       <= 0.05 + slack
    /\ (exists k : Z, Assessment.level r == inject_Z k / 10)
    /\ 0 <= Assessment.level r <= 100.
Proof.
  intros Hn He Ht Hp [Hn0 _] He0 Hp0 _ _ _.
  unfold analyze_bloom, dict_get. rewrite Hn, He, Ht, Hp. cbn [as_num bind].
  cbv zeta.
  destruct (status_band (_calculate_bloom_level ndvi evi temp precip))
    as [[s c] col].
  eexists. split; [reflexivity|]. cbn [Assessment.level].
  destruct (calculate_bloom_level_near ndvi evi temp precip Hn0 He0 Hp0)
    as [Hnear Hgrid].
  split; [exact Hnear|]. split; [exact Hgrid|].
  pose proof (raw_level_nonneg ndvi evi temp precip Hn0 He0 Hp0) as Hraw.
  rewrite calculate_bloom_level_raw. split.
  - apply py_round_lower; [reflexivity|].
    destruct (py_min_cases (raw_level ndvi evi temp precip) 100)
      as [[H ->]|[H ->]]; qlra.
  - apply py_round_upper; [reflexivity|].
    destruct (py_min_cases (raw_level ndvi evi temp precip) 100)
      as [[H ->]|[H ->]]; qlra.
Qed.

Lemma analyze_bloom_level_witness :
  exists r, analyze_bloom Examples.mild_sample = Ok r
    /\ Qabs (Assessment.level r
             - Spec.clamp 0 100
                 (Spec.vegFactor 0.5 0.6 + Spec.tempFactor 22
                  + Spec.precipFactor 3))
       <= 0.05 + slack
    /\ (exists k : Z, Assessment.level r == inject_Z k / 10)
    /\ 0 <= Assessment.level r <= 100.
Proof.
  apply (analyze_bloom_level Examples.mild_sample 0.5 0.6 22 3);
    try reflexivity; try (split; lra); try lra;
    try (vm_compute; discriminate).
  split; [vm_compute; discriminate | right; vm_compute; discriminate].
Defined.

(** C2: the status bands cover every level without overlap, the highest
    band first: level >= 70 is peak_bloom, 50 <= level < 70 is active_bloom,
    30 <= level < 50 is early_bloom and level < 30 is no_bloom; the status
    [analyze_bloom] returns is the band of the level it returns; and the
    six boundary levels 29.9, 30.0, 49.9, 50.0, 69.9 and 70.0 fall in
    no_bloom, early_bloom, early_bloom, active_bloom, active_bloom and
    peak_bloom. *)
Theorem status_bands_partition :
  (forall level : Q,
      let status := fst (fst (status_band level)) in
      (70 <= level -> status = "peak_bloom"%string)
      /\ (50 <= level < 70 -> status = "active_bloom"%string)
      /\ (30 <= level < 50 -> status = "early_bloom"%string)
      /\ (level < 30 -> status = "no_bloom"%string)
      /\ status = Spec.band_status (Spec.band_of level))
  /\ (forall sd r, analyze_bloom sd = Ok r ->
        Assessment.status r = fst (fst (status_band (Assessment.level r))))
  /\ fst (fst (status_band 29.9)) = "no_bloom"%string
  /\ fst (fst (status_band 30.0)) = "early_bloom"%string
  /\ fst (fst (status_band 49.9)) = "early_bloom"%string
  /\ fst (fst (status_band 50.0)) = "active_bloom"%string
  /\ fst (fst (status_band 69.9)) = "active_bloom"%string
  /\ fst (fst (status_band 70.0)) = "peak_bloom"%string.
Proof.
  split; [|split; [|repeat split; reflexivity]].
  - intros level status. subst status.
    unfold Spec.band_of.
    destruct (status_band_cases level)
      as [[H ->]|[[H ->]|[[H ->]|[H ->]]]]; cbn [fst snd];
      destruct (Qlt_le_dec level 30); try (exfalso; lra);
      destruct (Qlt_le_dec level 50); try (exfalso; lra);
      destruct (Qlt_le_dec level 70); try (exfalso; lra);
      repeat split; intros; try reflexivity; exfalso; lra.
  - intros sd r H. now apply analyze_bloom_inv in H.
Qed.

Lemma status_bands_partition_witness :
  fst (fst (status_band 70)) = "peak_bloom"%string
  /\ fst (fst (status_band 29.9)) = "no_bloom"%string.
Proof.
  split.
  - apply (proj1 (proj1 status_bands_partition 70)). lra.
  - apply (proj1 (proj2 (proj2 status_bands_partition))).
Defined.

Lemma confidence_spec (level : Q) :
  py_round (py_min (snd (fst (status_band level))) 0.95) 2
  == Spec.confidence level.
Proof.
  unfold Spec.confidence. apply py_round_proper; [|reflexivity].
  rewrite py_min_Qmin. apply Q.min_compat; [|reflexivity].
  unfold Spec.band_of.
  destruct (status_band_cases level)
    as [[H ->]|[[H ->]|[[H ->]|[H ->]]]]; cbn [fst snd];
    destruct (Qlt_le_dec level 30); try (exfalso; lra);
    destruct (Qlt_le_dec level 50); try (exfalso; lra);
    destruct (Qlt_le_dec level 70); try (exfalso; lra);
    reflexivity.
Qed.

(** C3: the confidence [analyze_bloom] returns is the formula of the band
    of the returned level (0.85 + (level - 70) / 100 for peak,
    0.70 + (level - 50) / 100 for active, 0.55 + (level - 30) / 100 for
    early, 0.40 + level / 100 otherwise), capped at 0.95 and rounded to two
    decimals: a whole number of hundredths within 0.005 of the capped
    formula (up to the error of the evaluation, which decides the ties);
    it never exceeds 0.95.  This holds for the levels in [0, 100], and
    every level k / 10 of [0, 100] is the level of some sample. *)
Theorem analyze_bloom_confidence :
  (forall (sd : gmap string value) (r : Assessment.t),
      analyze_bloom sd = Ok r ->
      0 <= Assessment.level r <= 100 ->
      Qabs (Assessment.confidence r
            - Qmin (Spec.band_formula (Spec.band_of (Assessment.level r))
                      (Assessment.level r)) 0.95)
      <= 0.005 + slack
      /\ (exists k : Z, Assessment.confidence r == inject_Z k / 100)
      /\ Assessment.confidence r <= 0.95)
  /\ (forall k : Z, (0 <= k <= 1000)%Z ->
        exists r, analyze_bloom (sample_at_level k) = Ok r
          /\ Assessment.level r == inject_Z k / 10).
Proof.
  split.
  - intros sd r H _. apply analyze_bloom_inv in H as (_ & -> & _).
    split; [|split].
    + apply py_round_near2.
      rewrite py_min_Qmin. apply Q.min_compat; [|reflexivity].
      unfold Spec.band_of.
      destruct (status_band_cases (Assessment.level r))
        as [[H ->]|[[H ->]|[[H ->]|[H ->]]]]; cbn [fst snd];
        destruct (Qlt_le_dec (Assessment.level r) 30); try (exfalso; lra);
        destruct (Qlt_le_dec (Assessment.level r) 50); try (exfalso; lra);
        destruct (Qlt_le_dec (Assessment.level r) 70); try (exfalso; lra);
        reflexivity.
    + exact (py_round_grid _ 1).
    + apply py_round_upper; [reflexivity|].
      destruct (py_min_cases
                  (snd (fst (status_band (Assessment.level r)))) 0.95)
        as [[G ->]|[G ->]]; lra.
  - intros k Hk. unfold analyze_bloom, sample_at_level, dict_get.
    rewrite lookup_insert_eq.
    rewrite lookup_insert_ne by discriminate. rewrite lookup_insert_eq.
    rewrite !lookup_insert_ne by discriminate. rewrite !lookup_empty.
    cbn [as_num bind]. cbv zeta.
    set (x := (inject_Z k / 10 - 35) / 40).
    destruct (status_band (_calculate_bloom_level x x 20 0)) as [[s c] col].
    eexists. split; [reflexivity|]. cbn [Assessment.level].
    rewrite calculate_bloom_level_raw.
    assert (raw_level x x 20 0 == inject_Z k / 10) as E.
    { unfold raw_level, py_abs.
      assert (py_max 0 ((10 - Qabs (20 - 20)) / 10) == 1) as -> by reflexivity.
      assert (ltb 0 0 = false) as -> by reflexivity.
      subst x. field. }
    assert (inject_Z k <= 1000) as Hk1.
    { change 1000 with (inject_Z 1000). rewrite <- Zle_Qle. lia. }
    destruct (py_min_cases (raw_level x x 20 0) 100) as [[G _]|[_ ->]];
      [exfalso; qlra|].
    rewrite E.
    assert (inject_Z k / 10 == k # 10) as -> by (rewrite (Qmake_Qdiv k 10); reflexivity).
    apply (py_round_fixed k 0).
Qed.
Lemma analyze_bloom_confidence_witness :
  match analyze_bloom ∅ with
  | Ok r =>
      Qabs (Assessment.confidence r
            - Qmin (Spec.band_formula (Spec.band_of (Assessment.level r))
                      (Assessment.level r)) 0.95)
      <= 0.005 + slack
      /\ (exists k : Z, Assessment.confidence r == inject_Z k / 100)
      /\ Assessment.confidence r <= 0.95
  | Raise _ => False
  end.
Proof.
  destruct (analyze_bloom ∅) as [r|e] eqn:E.
  - apply (proj1 analyze_bloom_confidence ∅ r E).
    injection E as <-. vm_compute. split; discriminate.
  - vm_compute in E. discriminate E.
Defined.

Lemma as_num_dict_get (sd : gmap string value) (key : string) (d : Q) :
  Spec.numeric_or_absent sd key ->
  exists q, as_num (dict_get sd key (Num d)) = Ok q.
Proof.
  unfold Spec.numeric_or_absent, dict_get.
  destruct (sd !! key) as [[q|s]|]; intro H; [| contradiction |]; eauto.
Qed.

Lemma dict_get_insert_default (sd : gmap string value) (key key' : string)
  (d d' : value) :
  sd !! key = None ->
  (key = key' -> d = d') ->
  dict_get (<[key := d]> sd) key' d' = dict_get sd key' d'.
Proof.
  intros Hnone Hd. unfold dict_get.
  destruct (decide (key = key')) as [<-|Hne].
  - rewrite lookup_insert_eq, Hnone. now apply Hd.
  - now rewrite lookup_insert_ne.
Qed.

Lemma entry_within_numeric (P : Q -> Prop) (sd : gmap string value)
  (key : string) :
  entry_within P sd key -> Spec.numeric_or_absent sd key.
Proof.
  unfold entry_within, Spec.numeric_or_absent.
  destruct (sd !! key) as [[q|s]|]; auto.
Qed.

(** C10, as far as it holds: [analyze_bloom] returns a result for every
    sample whose four entries are each absent or a number within the
    range of binary64; an absent entry counts as its default (ndvi 0,
    evi 0, temperature 20, precipitation 0); the status is the band of the
    level, and for non-negative ndvi, evi and precipitation the level is
    the clamped sum of the three factors at these values, rounded to one
    decimal; the empty sample gets level 35.0 and status early_bloom. *)
Theorem analyze_bloom_defaults (sd : gmap string value) :
  entry_within finite sd "ndvi" ->
  entry_within finite sd "evi" ->
  entry_within finite sd "temperature" ->
  entry_within in_range sd "precipitation" ->
  (exists r, analyze_bloom sd = Ok r
     /\ Assessment.status r
        = Spec.band_status (Spec.band_of (Assessment.level r))
     /\ (forall n e t p : Q,
           dict_get sd "ndvi" (Num 0) = Num n ->
           dict_get sd "evi" (Num 0) = Num e ->
           dict_get sd "temperature" (Num 20) = Num t ->
           dict_get sd "precipitation" (Num 0) = Num p ->
           0 <= n -> 0 <= e -> 0 <= p ->
           Qabs (Assessment.level r
                 - Spec.clamp 0 100
                     (Spec.vegFactor n e + Spec.tempFactor t
                      + Spec.precipFactor p))
           <= 0.05 + slack
           /\ exists k : Z, Assessment.level r == inject_Z k / 10))
  /\ (sd !! "ndvi" = None ->
      analyze_bloom sd = analyze_bloom (<["ndvi" := Num 0]> sd))
  /\ (sd !! "evi" = None ->
      analyze_bloom sd = analyze_bloom (<["evi" := Num 0]> sd))
  /\ (sd !! "temperature" = None ->
      analyze_bloom sd = analyze_bloom (<["temperature" := Num 20]> sd))
  /\ (sd !! "precipitation" = None ->
      analyze_bloom sd = analyze_bloom (<["precipitation" := Num 0]> sd))
  /\ (exists r, analyze_bloom ∅ = Ok r
        /\ Assessment.level r == 35.0
        /\ Assessment.status r = "early_bloom"%string).
Proof.
  intros Hn He Ht Hp.
  apply entry_within_numeric in Hn, He, Ht, Hp.
  split; [|split; [|split; [|split; [|split]]]].
  - unfold analyze_bloom.
    destruct (as_num_dict_get sd "ndvi" 0 Hn) as [n En].
    destruct (as_num_dict_get sd "evi" 0 He) as [e Ee].
    destruct (as_num_dict_get sd "temperature" 20 Ht) as [t Et].
    destruct (as_num_dict_get sd "precipitation" 0 Hp) as [p Ep].
    rewrite En, Ee, Et, Ep. cbn [bind]. cbv zeta.
    destruct (status_band (_calculate_bloom_level n e t p))
      as [[s c] col] eqn:Eb.
    eexists. split; [reflexivity|].
    cbn [Assessment.status Assessment.level]. split.
    + replace s
        with (fst (fst (status_band (_calculate_bloom_level n e t p))))
        by (now rewrite Eb).
      apply (status_band_of (_calculate_bloom_level n e t p)).
    + intros n' e' t' p' Hn' He' Ht' Hp'.
      rewrite Hn' in En. rewrite He' in Ee. rewrite Ht' in Et.
      rewrite Hp' in Ep. cbn [as_num] in En, Ee, Et, Ep.
      injection En as ->. injection Ee as ->. injection Et as ->.
      injection Ep as ->.
      apply calculate_bloom_level_near.
  - intro H. unfold analyze_bloom.
    rewrite !(dict_get_insert_default sd "ndvi" _ (Num 0)); trivial;
      intro; discriminate.
  - intro H. unfold analyze_bloom.
    rewrite !(dict_get_insert_default sd "evi" _ (Num 0)); trivial;
      intro; discriminate.
  - intro H. unfold analyze_bloom.
    rewrite !(dict_get_insert_default sd "temperature" _ (Num 20)); trivial;
      intro; discriminate.
  - intro H. unfold analyze_bloom.
    rewrite !(dict_get_insert_default sd "precipitation" _ (Num 0)); trivial;
      intro; discriminate.
  - eexists. split; [vm_compute; reflexivity|]. split; reflexivity.
Qed.

Lemma analyze_bloom_defaults_witness :
  exists r, analyze_bloom ∅ = Ok r
    /\ Assessment.level r == 35.0
    /\ Assessment.status r = "early_bloom"%string.
Proof.
  apply (analyze_bloom_defaults ∅); exact I.
Defined.

(** C10 as stated fails: [analyze_bloom] is not total over every sample
    record.  An entry that is present and not a number is not defaulted;
    the arithmetic raises [TypeError] on it. *)
Lemma analyze_bloom_not_total :
  analyze_bloom (<["ndvi" := Str "high"]> ∅) = Raise TypeError
  /\ analyze_bloom (<["precipitation" := Str "none"]> ∅) = Raise TypeError
  /\ ~ (forall sd : gmap string value, exists r, analyze_bloom sd = Ok r).
Proof.
  split; [reflexivity|]. split; [reflexivity|].
  intro H. destruct (H (<["ndvi" := Str "high"]> ∅)) as [r Hr].
  discriminate Hr.
Qed.

End BloomScorer.

(** ** Climate source *)

Section ClimateSource.
Import PyNum Py NASADataFetcher Parts Binary64.
Local Open Scope Q_scope.

Lemma simulated_ndvi_eq_spec (temp precip : Q) :
  _calculate_simulated_ndvi temp precip == Spec.ndvi temp precip.
Proof.
  unfold _calculate_simulated_ndvi, Spec.ndvi, Spec.ndvi_tempFactor,
    Spec.ndvi_precipFactor, Spec.clamp, py_abs.
  destruct (ltb_cases 0 precip) as [[-> H]|[-> H]];
    destruct (Qlt_le_dec 0 precip) as [H'|H']; try (exfalso; lra);
    rewrite !py_max_Qmax, !py_min_Qmin; reflexivity.
Qed.

Lemma simulated_ndvi_range (temp precip : Q) :
  0 <= _calculate_simulated_ndvi temp precip <= 0.95.
Proof.
  unfold _calculate_simulated_ndvi.
  match goal with |- 0 <= py_max 0 (py_min 0.95 ?x) <= _ => set (raw := x) end.
  destruct (py_min_cases 0.95 raw) as [[H ->]|[H ->]];
    match goal with |- 0 <= py_max 0 ?y <= _ =>
      destruct (py_max_cases 0 y) as [[G ->]|[G ->]] end; lra.
Qed.

#[global] Instance simulated_ndvi_proper :
  Proper (Qeq ==> Qeq ==> Qeq) _calculate_simulated_ndvi.
Proof.
  intros t t' Ht p p' Hp. rewrite !simulated_ndvi_eq_spec.
  unfold Spec.ndvi, Spec.ndvi_tempFactor, Spec.ndvi_precipFactor, Spec.clamp.
  destruct (Qlt_le_dec 0 p); destruct (Qlt_le_dec 0 p'); try (exfalso; lra);
    now rewrite ?Ht, ?Hp.
Qed.

(** What the primary path returns. *)
Lemma primary_sample (lat lon : value) (date : option value) (w : world)
  (T2M PRECTOTCORR : list value) (t p : Q) :
  reply w = Reply200 T2M PRECTOTCORR ->
  hd (Num 20) T2M = Num t ->
  hd (Num 0) PRECTOTCORR = Num p ->
  exists sample,
    get_vegetation_index lat lon date w = Ok sample
    /\ sample !! "ndvi"
       = Some (Num (py_round (_calculate_simulated_ndvi t p) 3))
    /\ sample !! "evi"
       = Some (Num (py_round (derived_evi (_calculate_simulated_ndvi t p)) 3))
    /\ sample !! "temperature" = Some (Num t)
    /\ sample !! "precipitation" = Some (Num p).
Proof.
  intros Hr Ht Hp. unfold get_vegetation_index, lookup_attempt.
  rewrite Hr, Ht, Hp. cbn [as_num bind]. cbv zeta.
  eexists. split; [reflexivity|]. unfold derived_evi.
  split; [|split; [|split]].
  - now rewrite lookup_insert_eq.
  - rewrite lookup_insert_ne by discriminate. now rewrite lookup_insert_eq.
  - do 2 (rewrite lookup_insert_ne by discriminate).
    now rewrite lookup_insert_eq.
  - do 3 (rewrite lookup_insert_ne by discriminate).
    now rewrite lookup_insert_eq.
Qed.

(** C4: on the primary path the derived NDVI is the fixed formula
    clamp(0, 0.95, (tempFactor * 0.6 + precipFactor * 0.4) * 0.9) with
    tempFactor = clamp(0, 1, 1 - |temp - 20| / 30) and precipFactor =
    min(precip / 10, 1) if precip > 0 else 0.3, up to the error of its
    evaluation; it lies in [0, 0.95] for all temp and precip within the
    range of binary64; the ndvi of the sample is that value rounded to
    three decimals, again in [0, 0.95]; it is the same for every
    location, date and clock with the same temp and precip, and the
    sample does not depend on the random draws. *)
Theorem simulated_ndvi_deterministic (temp precip : Q) :
  finite temp -> in_range precip ->
  Qabs (_calculate_simulated_ndvi temp precip - Spec.ndvi temp precip)
  <= slack
  /\ 0 <= _calculate_simulated_ndvi temp precip <= 0.95
  /\ (forall lat lon date w T2M PRECTOTCORR,
        reply w = Reply200 T2M PRECTOTCORR ->
        hd (Num 20) T2M = Num temp ->
        hd (Num 0) PRECTOTCORR = Num precip ->
        (exists sample n,
            get_vegetation_index lat lon date w = Ok sample
            /\ sample !! "ndvi" = Some (Num n)
            /\ Qabs (n - Spec.ndvi temp precip) <= 0.0005 + slack
            /\ (exists k : Z, n == inject_Z k / 1000)
            /\ 0 <= n <= 0.95
            /\ (forall lat' lon' date' w' T2M' PRECTOTCORR',
                  reply w' = Reply200 T2M' PRECTOTCORR' ->
                  hd (Num 20) T2M' = Num temp ->
                  hd (Num 0) PRECTOTCORR' = Num precip ->
                  exists sample',
                    get_vegetation_index lat' lon' date' w' = Ok sample'
                    /\ sample' !! "ndvi" = Some (Num n)))
        /\ (forall r1 r2 r3,
              get_vegetation_index lat lon date
                (mkworld (now w) (reply w) r1 r2 r3)
              = get_vegetation_index lat lon date w)).
Proof.
  intros _ _.
  split.
  { apply Qabs_zero_le; [apply simulated_ndvi_eq_spec|]. discriminate. }
  split; [apply simulated_ndvi_range|].
  intros lat lon date w T P Hr Ht Hp. split.
  - destruct (primary_sample lat lon date w T P temp precip Hr Ht Hp)
      as (sample & Hs & Hn & _).
    exists sample, (py_round (_calculate_simulated_ndvi temp precip) 3).
    split; [assumption|]. split; [assumption|].
    destruct (py_round_near3 (_calculate_simulated_ndvi temp precip)
                (Spec.ndvi temp precip) (simulated_ndvi_eq_spec temp precip))
      as [Hnear Hgrid].
    split; [exact Hnear|]. split; [exact Hgrid|].
    pose proof (simulated_ndvi_range temp precip) as [H0 H1].
    split.
    + split; [now apply py_round_lower | now apply py_round_upper].
    + intros lat' lon' date' w' T' P' Hr' Ht' Hp'.
      destruct (primary_sample lat' lon' date' w' T' P' temp precip
                  Hr' Ht' Hp') as (sample' & Hs' & Hn' & _).
      exists sample'. split; assumption.
  - intros r1 r2 r3. unfold get_vegetation_index, lookup_attempt.
    cbn [now reply]. rewrite Hr, Ht, Hp. reflexivity.
Qed.

Lemma simulated_ndvi_deterministic_witness :
  Qabs (_calculate_simulated_ndvi 20 8 - 0.828) <= slack
  /\ 0 <= _calculate_simulated_ndvi 20 8 <= 0.95.
Proof.
  destruct (simulated_ndvi_deterministic 20 8) as (H & G & _).
  - vm_compute. discriminate.
  - split; [vm_compute; discriminate | right; vm_compute; discriminate].
  - split; [|exact G].
    assert (Spec.ndvi 20 8 == 0.828) as E by reflexivity.
    rewrite E in H. exact H.
Defined.

Lemma derived_evi_spec (ndvi : Q) : derived_evi ndvi == Spec.evi ndvi.
Proof.
  unfold derived_evi, Spec.evi.
  destruct (ltb_cases ndvi 0.83) as [[-> H]|[-> H]];
    destruct (Qlt_le_dec ndvi 0.83); try (exfalso; lra); reflexivity.
Qed.

Lemma derived_evi_ge (ndvi : Q) : 0 <= ndvi -> ndvi <= derived_evi ndvi.
Proof.
  intro H. unfold derived_evi.
  destruct (ltb_cases ndvi 0.83) as [[-> G]|[-> G]]; lra.
Qed.

Lemma derived_evi_bound (ndvi : Q) : ndvi <= 0.95 -> derived_evi ndvi <= 0.996.
Proof.
  intro H. unfold derived_evi.
  destruct (ltb_cases ndvi 0.83) as [[-> G]|[-> G]]; lra.
Qed.

(** The law of the derived evi, away from the threshold by the error of
    the evaluation. *)
Lemma derived_evi_near (x : Q) :
  (x <= 0.83 - slack -> Qabs (derived_evi x - x * 1.2) <= slack)
  /\ (0.83 <= x -> derived_evi x == x).
Proof.
  unfold derived_evi, slack. split; intro H.
  - destruct (ltb_cases x 0.83) as [[-> G]|[-> G]]; [|exfalso; lra].
    apply Qabs_zero_le; [reflexivity | discriminate].
  - destruct (ltb_cases x 0.83) as [[-> G]|[-> G]]; [exfalso; lra|].
    reflexivity.
Qed.

(** C5, as far as it holds: on the primary path evi = ndvi * 1.2 when
    ndvi < 0.83 and evi = ndvi otherwise, both rounded to three decimals
    and up to the error of the evaluation (which also decides the branch
    when ndvi is within that error of 0.83); the value drops at
    ndvi = 0.83 (0.9948 at ndvi = 0.829, 0.83 at ndvi = 0.83); every
    derived evi satisfies evi >= ndvi, before and after rounding; and evi
    never exceeds 1.0: it is at most 0.996. *)
Theorem derived_evi_primary (temp precip : Q) :
  finite temp -> in_range precip ->
  let ndvi := Spec.ndvi temp precip in
  (forall x : Q, 0 <= x <= 0.95 ->
     (x <= 0.83 - slack -> Qabs (derived_evi x - x * 1.2) <= slack)
     /\ (0.83 <= x -> derived_evi x == x)
     /\ x <= derived_evi x <= 0.996)
  /\ (forall lat lon date w T2M PRECTOTCORR,
        reply w = Reply200 T2M PRECTOTCORR ->
        hd (Num 20) T2M = Num temp ->
        hd (Num 0) PRECTOTCORR = Num precip ->
        exists sample n e,
          get_vegetation_index lat lon date w = Ok sample
          /\ sample !! "ndvi" = Some (Num n)
          /\ sample !! "evi" = Some (Num e)
          /\ Qabs (n - ndvi) <= 0.0005 + slack
          /\ (ndvi <= 0.83 - slack ->
              Qabs (e - ndvi * 1.2) <= 0.0005 + slack)
          /\ (0.83 + slack <= ndvi -> Qabs (e - ndvi) <= 0.0005 + slack)
          /\ n <= e <= 0.996)
  /\ (derived_evi 0.83 == 0.83
      /\ Qabs (derived_evi 0.829 - 0.9948) <= slack).
Proof.
  intros _ _ ndvi.
  split.
  { intros x [H0 H1]. destruct (derived_evi_near x) as [Hlo Hhi].
    split; [exact Hlo|]. split; [exact Hhi|].
    split; [now apply derived_evi_ge | now apply derived_evi_bound]. }
  split.
  { intros lat lon date w T P Hr Ht Hp.
    destruct (primary_sample lat lon date w T P temp precip Hr Ht Hp)
      as (sample & Hs & Hn & He & _).
    pose proof (simulated_ndvi_eq_spec temp precip) as E. fold ndvi in E.
    pose proof (simulated_ndvi_range temp precip) as [H0 H1].
    set (raw := _calculate_simulated_ndvi temp precip) in *.
    exists sample, (py_round raw 3), (py_round (derived_evi raw) 3).
    repeat (split; [assumption|]).
    split; [exact (proj1 (py_round_near3 raw ndvi E))|].
    split; [|split].
    - intro H. apply py_round_near3. rewrite <- E in H |- *.
      unfold derived_evi.
      destruct (ltb_cases raw 0.83) as [[-> G]|[-> G]];
        [reflexivity | exfalso; unfold slack in H; lra].
    - intro H. apply py_round_near3. rewrite <- E in H |- *.
      unfold derived_evi.
      destruct (ltb_cases raw 0.83) as [[-> G]|[-> G]];
        [exfalso; unfold slack in H; lra | reflexivity].
    - split.
      + apply py_round_mono. now apply derived_evi_ge.
      + apply py_round_upper; [reflexivity|]. now apply derived_evi_bound. }
  split; [reflexivity|]. vm_compute. discriminate.
Qed.

Lemma derived_evi_primary_witness :
  Qabs (derived_evi 0.5 - 0.5 * 1.2) <= slack.
Proof.
  destruct (derived_evi_primary 20 8) as (H & _).
  - vm_compute. discriminate.
  - split; [vm_compute; discriminate | right; vm_compute; discriminate].
  - apply (proj1 (H 0.5 ltac:(split; lra))). vm_compute. discriminate.
Defined.

(** C5 as stated says that evi can exceed 1.0; on the primary path it
    cannot, whatever the temperature and the precipitation. *)
Lemma derived_evi_never_exceeds_one :
  ~ (exists (lat lon : value) (date : option value) (w : world)
            (T2M PRECTOTCORR : list value) (temp precip : Q)
            (sample : gmap string value) (e : Q),
        reply w = Reply200 T2M PRECTOTCORR
        /\ hd (Num 20) T2M = Num temp
        /\ hd (Num 0) PRECTOTCORR = Num precip
        /\ get_vegetation_index lat lon date w = Ok sample
        /\ sample !! "evi" = Some (Num e)
        /\ 1 < e)
  /\ ~ (exists temp precip : Q,
          1 < derived_evi (_calculate_simulated_ndvi temp precip)).
Proof.
  split.
  - intros (lat & lon & date & w & T & P & temp & precip & sample & e
            & Hr & Ht & Hp & Hs & He & Hgt).
    destruct (primary_sample lat lon date w T P temp precip Hr Ht Hp)
      as (sample' & Hs' & _ & He' & _).
    assert (sample' = sample) as -> by congruence.
    assert (e = py_round
                  (derived_evi (_calculate_simulated_ndvi temp precip)) 3)
      as Ee by congruence.
    rewrite Ee in Hgt.
    assert (py_round
              (derived_evi (_calculate_simulated_ndvi temp precip)) 3
            <= 0.996) as Hle.
    { apply py_round_upper; [reflexivity|].
      apply derived_evi_bound. apply simulated_ndvi_range. }
    lra.
  - intros (temp & precip & Hgt).
    pose proof (derived_evi_bound (_calculate_simulated_ndvi temp precip)
                  (proj2 (simulated_ndvi_range temp precip))).
    lra.
Qed.

Lemma fallback_sample (lat : Q) (lon : value) (w : world) :
  exists sample,
    _get_fallback_data (Num lat) lon w = Ok sample
    /\ sample !! "ndvi" = Some (Num (py_round (base_ndvi lat (random1 w)) 3))
    /\ sample !! "evi"
       = Some (Num (py_round (base_ndvi lat (random1 w) * 1.15) 3)).
Proof.
  unfold _get_fallback_data. cbn [as_num bind]. cbv zeta.
  eexists. split; [reflexivity|]. unfold base_ndvi. split.
  - now rewrite lookup_insert_eq.
  - rewrite lookup_insert_ne by discriminate. now rewrite lookup_insert_eq.
Qed.

Lemma base_ndvi_equator (lat random : Q) :
  lat == 0 -> 0 <= uniform 0 0.3 random <= 0.3 ->
  0.4 <= base_ndvi lat random <= 0.7.
Proof.
  intros Hlat [H0 H1]. unfold base_ndvi, py_abs.
  rewrite Hlat.
  assert (Qabs 0 == 0) as -> by reflexivity.
  set (u := uniform 0 0.3 random) in *. qlra.
Qed.

Lemma base_ndvi_pole (lat random : Q) :
  lat == 90 \/ lat == -90 -> base_ndvi lat random == 0.4.
Proof.
  intros Hlat. unfold base_ndvi, py_abs.
  assert (Qabs lat == 90) as ->.
  { destruct Hlat as [-> | ->]; reflexivity. }
  set (u := uniform 0 0.3 random). qlra.
Qed.

(** C6, as far as it holds: for a latitude that is a number within the
    range of binary64 and for every value of the draw U(0, 0.3), fallback
    generation returns a sample (it does not raise); its ndvi is
    0.4 + U(0, 0.3) * (1 - |lat| / 90) rounded to three decimals, up to
    the error of the evaluation, for |lat| <= 90; it lies in [0.4, 0.7]
    at lat = 0 and is exactly 0.4 at lat = 90 and at lat = -90; and the
    sample is what [get_vegetation_index] returns when the remote lookup
    fails. *)
Theorem fallback_ndvi (lat : Q) (lon : value) (w : world) :
  finite lat ->
  0 <= uniform 0 0.3 (random1 w) <= 0.3 ->
  exists sample n,
    _get_fallback_data (Num lat) lon w = Ok sample
    /\ sample !! "ndvi" = Some (Num n)
    /\ (exists k : Z, n == inject_Z k / 1000)
    /\ (Qabs lat <= 90 ->
        Qabs (n - (0.4 + uniform 0 0.3 (random1 w) * (1 - Qabs lat / 90)))
        <= 0.0005 + slack)
    /\ (lat == 0 -> 0.4 <= n <= 0.7)
    /\ (lat == 90 \/ lat == -90 -> n == 0.4)
    /\ (forall date,
          reply w = ReplyOther \/ (exists e, reply w = ReplyRaised e) ->
          get_vegetation_index (Num lat) lon date w = Ok sample).
Proof.
  intros _ Hu.
  destruct (fallback_sample lat lon w) as (sample & Hs & Hn & _).
  exists sample, (py_round (base_ndvi lat (random1 w)) 3).
  split; [assumption|]. split; [assumption|].
  split; [exact (py_round_grid _ 2)|].
  split; [|split; [|split]].
  - intros _. apply py_round_near3. reflexivity.
  - intro Hlat. destruct (base_ndvi_equator lat (random1 w) Hlat Hu).
    split; [now apply py_round_lower | now apply py_round_upper].
  - intro Hlat. rewrite (base_ndvi_pole lat (random1 w) Hlat). reflexivity.
  - intros date [Hr | [e Hr]];
      unfold get_vegetation_index, lookup_attempt; rewrite Hr.
    + now rewrite Hs.
    + assumption.
Qed.

Lemma fallback_ndvi_witness :
  exists sample n,
    _get_fallback_data (Num 90) (Num 0) Examples.offline = Ok sample
    /\ sample !! "ndvi" = Some (Num n)
    /\ n == 0.4
    /\ get_vegetation_index (Num 90) (Num 0) None Examples.offline = Ok sample.
Proof.
  destruct (fallback_ndvi 90 (Num 0) Examples.offline)
    as (sample & n & Hs & Hn & _ & _ & _ & Hpole & Hget).
  - vm_compute. discriminate.
  - vm_compute. split; discriminate.
  - exists sample, n. split; [exact Hs|]. split; [exact Hn|].
    split.
    + apply Hpole. left. reflexivity.
    + apply Hget. left. reflexivity.
Defined.

(** C6 as stated fails: fallback generation does raise.  The latitude
    goes into [abs(lat) / 90]; when it is not a number (the request
    handlers pass on what the request body holds under latitude, and
    nothing when it holds none) the call raises [TypeError], and so does
    [get_vegetation_index] when the remote lookup fails. *)
Lemma fallback_raises_without_latitude :
  _get_fallback_data (Str "none") (Num 0) Examples.offline = Raise TypeError
  /\ get_vegetation_index (Str "none") (Num 0) None Examples.offline
     = Raise TypeError
  /\ ~ (forall (lat lon : value) (w : world),
          exists sample, _get_fallback_data lat lon w = Ok sample).
Proof.
  split; [reflexivity|]. split; [reflexivity|].
  intro H. destruct (H (Str "none") (Num 0) Examples.offline) as [s Hs].
  discriminate Hs.
Qed.

End ClimateSource.

(** ** Dates *)

Section Dates.
Import Py Datetime DateText.
Local Open Scope Z_scope.

Lemma all_from_spec (f : Z -> bool) (n : nat) :
  forall lo, all_from f lo n = true ->
  forall z, lo <= z < lo + Z.of_nat n -> f z = true.
Proof.
  induction n as [|n IH]; intros lo H z Hz; [lia|].
  cbn [all_from] in H. apply andb_true_iff in H as [H0 H1].
  destruct (Z.eq_dec z lo) as [->|Hne]; [assumption|].
  apply (IH (lo + 1)); [assumption | lia].
Qed.

Lemma forallb_interval (f : Z -> bool) (lo n : Z) :
  all_from f lo (Z.to_nat n) = true ->
  forall z, lo <= z < lo + n -> f z = true.
Proof. intros H z Hz. apply (all_from_spec f (Z.to_nat n) lo H). lia. Qed.

Lemma pad4_text (y : Z) : 1 <= y <= 9999 -> pad 4 y = text4 y.
Proof.
  intro H. apply String.eqb_eq.
  apply (forallb_interval (fun y => String.eqb (pad 4 y) (text4 y)) 1 9999);
    [vm_compute; reflexivity | lia].
Qed.

Lemma digit_val_char (k : Z) : 0 <= k <= 9 -> digit_val (digit_char k) = Some k.
Proof.
  intro H.
  assert (k = 0 \/ k = 1 \/ k = 2 \/ k = 3 \/ k = 4 \/ k = 5 \/ k = 6
          \/ k = 7 \/ k = 8 \/ k = 9) as C by lia.
  repeat (destruct C as [-> | C]; [reflexivity|]). now subst.
Qed.

Lemma digit_in_char (lo hi k : Z) (rest : string) :
  0 <= k <= 9 ->
  digit_in lo hi (String (digit_char k) rest)
  = if (lo <=? k) && (k <=? hi) then Some (k, rest) else None.
Proof. intro H. unfold digit_in. now rewrite digit_val_char. Qed.

Lemma re_Y_text4 (y : Z) (rest : string) :
  1 <= y <= 9999 -> re_Y (String.append (text4 y) rest) = Some (y, rest).
Proof.
  intro H. unfold text4. norm_append.
  unfold re_Y, two_digits.
  assert (Hb : forall k, 0 <= k <= 9 -> (0 <=? k) && (k <=? 9) = true).
  { intros k Hk. apply andb_true_iff. split; apply Z.leb_le; lia. }
  do 4 (rewrite digit_in_char by (Z.div_mod_to_equations; lia);
        rewrite Hb by (Z.div_mod_to_equations; lia);
        cbv iota beta).
  f_equal. f_equal. apply Z.eqb_eq.
  apply (forallb_interval
           (fun y => 1000 * (y / 1000)
                     + 10 * (10 * ((y / 100) mod 10) + (y / 10) mod 10)
                     + y mod 10 =? y) 1 9999);
    [vm_compute; reflexivity | lia].
Qed.

Lemma re_md_text (m d : Z) :
  1 <= m <= 12 -> 1 <= d <= 31 ->
  re_md (String.append (pad 2 m) (pad 2 d)) = Some (m, d, EmptyString).
Proof.
  intros Hm Hd.
  assert (month_day_ok (m * 32 + d) = true) as H.
  { apply (forallb_interval month_day_ok 0 512);
      [vm_compute; reflexivity | lia]. }
  unfold month_day_ok in H.
  replace ((m * 32 + d) / 32) with m in H
    by (Z.div_mod_to_equations; lia).
  replace ((m * 32 + d) mod 32) with d in H
    by (Z.div_mod_to_equations; lia).
  replace ((1 <=? m) && (m <=? 12) && (1 <=? d) && (d <=? 31)) with true in H
    by (symmetry; repeat (apply andb_true_iff; split); apply Z.leb_le; lia).
  destruct (re_md _) as [[[m' d'] [|c r]]|]; try discriminate.
  apply andb_true_iff in H as [H1 H2].
  apply Z.eqb_eq in H1, H2. now subst.
Qed.

Lemma days_in_month_le (y m : Z) : 1 <= m <= 12 -> _days_in_month y m <= 31.
Proof.
  intro H. unfold _days_in_month.
  assert (m = 1 \/ m = 2 \/ m = 3 \/ m = 4 \/ m = 5 \/ m = 6 \/ m = 7
          \/ m = 8 \/ m = 9 \/ m = 10 \/ m = 11 \/ m = 12) as C by lia.
  repeat (destruct C as [-> | C];
          [destruct (_is_leap y); vm_compute; intro; discriminate|]).
  subst. destruct (_is_leap y); vm_compute; intro; discriminate.
Qed.

Lemma valid_date_bounds (y m d : Z) :
  valid_date y m d = true ->
  1 <= y <= 9999 /\ 1 <= m <= 12 /\ 1 <= d <= 31.
Proof.
  unfold valid_date, MINYEAR, MAXYEAR. intro H.
  repeat (apply andb_true_iff in H as [H ?]).
  repeat match goal with G : (_ <=? _) = true |- _ => apply Z.leb_le in G end.
  pose proof (days_in_month_le y m). lia.
Qed.

(** A well-formed date text parses back to its date. *)
Lemma strptime_date_text (t : date) :
  Spec.well_formed_date t -> strptime (Str (Spec.date_text t)) = Ok t.
Proof.
  destruct t as [y m d]. unfold Spec.well_formed_date. cbn [year month day].
  intro Hv. destruct (valid_date_bounds y m d Hv) as (Hy & Hm & Hd).
  unfold Spec.date_text, strftime, strptime, re_Ymd. cbn [year month day].
  norm_append. rewrite (pad4_text y Hy), (re_Y_text4 y _ Hy).
  rewrite (re_md_text m d Hm Hd).
  unfold make_date. now rewrite Hv.
Qed.

(** *** Ordinals *)

Lemma days_before_year_shift (y q : Z) :
  _days_before_year (y + 400 * q) = _days_before_year y + 146097 * q.
Proof. unfold _days_before_year. Z.div_mod_to_equations. lia. Qed.

Lemma is_leap_shift (y q : Z) : _is_leap (y + 400 * q) = _is_leap y.
Proof.
  unfold _is_leap.
  replace ((y + 400 * q) mod 4) with (y mod 4)
    by (Z.div_mod_to_equations; lia).
  replace ((y + 400 * q) mod 100) with (y mod 100)
    by (Z.div_mod_to_equations; lia).
  replace ((y + 400 * q) mod 400) with (y mod 400)
    by (Z.div_mod_to_equations; lia).
  reflexivity.
Qed.

Lemma ymd2ord_shift (y m d q : Z) :
  _ymd2ord (y + 400 * q) m d = _ymd2ord y m d + 146097 * q.
Proof.
  unfold _ymd2ord, _days_before_month.
  rewrite days_before_year_shift, is_leap_shift. lia.
Qed.

Lemma ord2ymd_shift (r q : Z) :
  0 <= r < 146097 ->
  _ord2ymd (146097 * q + r + 1)
  = let '(y, m, d) := _ord2ymd (r + 1) in (y + 400 * q, m, d).
Proof.
  intro Hr. unfold _ord2ymd.
  change _DI400Y with 146097.
  replace ((146097 * q + r + 1 - 1) / 146097) with q
    by (Z.div_mod_to_equations; lia).
  replace ((146097 * q + r + 1 - 1) mod 146097) with r
    by (Z.div_mod_to_equations; lia).
  replace ((r + 1 - 1) / 146097) with 0 by (Z.div_mod_to_equations; lia).
  replace ((r + 1 - 1) mod 146097) with r by (Z.div_mod_to_equations; lia).
  cbv zeta.
  destruct ((r mod _DI100Y mod _DI4Y / 365 =? 4) || (r / _DI100Y =? 4));
    [f_equal; f_equal; lia|].
  match goal with
  | |- context [if ?c then _ else _] =>
      match c with
      | (_ <? _) => destruct c
      end
  end; f_equal; f_equal; lia.
Qed.

Lemma ordinal_cycle (n : Z) : 1 <= n <= 146097 -> ordinal_ok n = true.
Proof.
  intro H. apply (forallb_interval ordinal_ok 1 146097);
    [vm_cast_no_check (eq_refl true) | lia].
Qed.

(** The ordinal of the day of an ordinal is that ordinal. *)
Lemma toordinal_fromordinal (n : Z) : 1 <= n -> toordinal (fromordinal n) = n.
Proof.
  intro H.
  assert (exists q r, 0 <= r < 146097 /\ n = 146097 * q + r + 1)
    as (q & r & Hr & ->).
  { exists ((n - 1) / 146097), ((n - 1) mod 146097).
    split; [apply Z.mod_pos_bound; lia | Z.div_mod_to_equations; lia]. }
  unfold fromordinal, toordinal.
  rewrite (ord2ymd_shift r q Hr).
  pose proof (ordinal_cycle (r + 1) ltac:(lia)) as Hc.
  unfold ordinal_ok in Hc.
  destruct (_ord2ymd (r + 1)) as [[y m] d]. cbn [year month day].
  apply Z.eqb_eq in Hc. rewrite ymd2ord_shift. lia.
Qed.

(** The first day whose year is written with four digits. *)
Lemma first_padded_day : toordinal (mkdate 1000 1 1) = 364878%Z.
Proof. reflexivity. Qed.

End Dates.

(** ** Bloom prediction *)

Section BloomPredictor.
Import PyNum Py Datetime DateText BloomDetector Binary64.

Lemma is_transition_ltb (curr next : Spec.sample) :
  Spec.is_transition curr next
  = ltb bloom_threshold_ndvi (fst next)
    && ltb growth_rate_threshold (fst next - fst curr)%Q.
Proof.
  unfold Spec.is_transition, bloom_threshold_ndvi, growth_rate_threshold.
  destruct (ltb_cases 0.6 (fst next)) as [[-> H]|[-> H]];
    destruct (Qlt_le_dec 0.6 (fst next)); try (exfalso; lra); cbn [andb];
    [|reflexivity].
  destruct (ltb_cases 0.05 (fst next - fst curr)%Q) as [[-> G]|[-> G]];
    destruct (Qlt_le_dec 0.05 (fst next - fst curr)%Q);
    try (exfalso; lra); reflexivity.
Qed.

Lemma for_each_cons {S} (body : S -> nat -> result S) (i : nat)
  (rest : list nat) (s : S) :
  for_each body (i :: rest) s
  = bind (body s i) (fun s' => for_each body rest s').
Proof. reflexivity. Qed.

Lemma list_item_middle {A} (pre suf : list A) (x : A) :
  list_item (pre ++ x :: suf) (length pre) = Ok x.
Proof. unfold list_item. now rewrite list_lookup_middle. Qed.

Lemma list_item_middle_next {A} (pre suf : list A) (x y : A) :
  list_item (pre ++ x :: y :: suf) (length pre + 1) = Ok y.
Proof.
  unfold list_item.
  replace (pre ++ x :: y :: suf) with ((pre ++ [x]) ++ y :: suf)
    by (now rewrite <- app_assoc).
  rewrite list_lookup_middle; [reflexivity|].
  rewrite length_app. reflexivity.
Qed.

Lemma list_item_fmap_middle {A B} (f : A -> B) (pre suf : list A) (x : A) :
  list_item (f <$> (pre ++ x :: suf)) (length pre) = Ok (f x).
Proof.
  unfold list_item. now rewrite list_lookup_fmap, list_lookup_middle.
Qed.

Lemma list_item_fmap_middle_next {A B} (f : A -> B) (pre suf : list A)
  (x y : A) :
  list_item (f <$> (pre ++ x :: y :: suf)) (length pre + 1) = Ok (f y).
Proof.
  pose proof (list_item_middle_next pre suf x y) as H.
  unfold list_item in *. rewrite list_lookup_fmap.
  destruct ((pre ++ x :: y :: suf) !! (length pre + 1)%nat); now inversion H.
Qed.

(** The scanning loop collects the transition dates of the part of the
    series it still has to visit. *)
Lemma scan_loop (suf : list (gmap string value)) (samples : list Spec.sample) :
  Forall2 Spec.entry_of suf samples ->
  forall (pre : list (gmap string value)) (acc : list value),
    for_each (scan_pair (pre ++ suf)) (seq (length pre) (length suf - 1)) acc
    = Ok (acc ++ (date_value <$> Spec.transitions samples)).
Proof.
  induction 1 as [|e s suf samples He Hrest IH]; intros pre acc.
  - cbn. now rewrite app_nil_r.
  - destruct Hrest as [|e2 s2 suf samples He2 Hrest].
    + cbn. now rewrite app_nil_r.
    + replace (length (e :: e2 :: suf) - 1)%nat with (S (length suf))
        by (cbn; lia).
      cbn [seq]. rewrite for_each_cons.
      specialize (IH (pre ++ [e]) ).
      replace ((pre ++ [e]) ++ e2 :: suf) with (pre ++ e :: e2 :: suf) in IH
        by (now rewrite <- app_assoc).
      replace (length (pre ++ [e])) with (S (length pre)) in IH
        by (rewrite length_app; cbn; lia).
      replace (length (e2 :: suf) - 1)%nat with (length suf) in IH
        by (cbn; lia).
      unfold scan_pair at 1.
      rewrite list_item_middle, list_item_middle_next. cbn [bind].
      destruct He as (Hn & Hd & _). destruct He2 as (Hn2 & _ & _).
      unfold dict_item. rewrite Hn2. cbn [bind py_gt].
      cbn [Spec.transitions]. rewrite is_transition_ltb.
      destruct (ltb bloom_threshold_ndvi (fst s2)); cbn [andb].
      * rewrite Hn. cbn [bind py_sub py_gt].
        destruct (ltb growth_rate_threshold (fst s2 - fst s)%Q).
        -- rewrite Hd. cbn [bind]. rewrite IH.
           rewrite fmap_cons, <- app_assoc. reflexivity.
        -- apply IH.
      * apply IH.
Qed.

Lemma transitions_well_formed (samples : list Spec.sample) :
  Forall (fun s => Spec.well_formed_date (snd s)) samples ->
  Forall Spec.well_formed_date (Spec.transitions samples).
Proof.
  induction 1 as [|s samples Hs Hrest IH]; [constructor|].
  destruct samples as [|s2 samples]; [constructor|].
  cbn [Spec.transitions] in *.
  destruct (Spec.is_transition s s2); [constructor|]; assumption.
Qed.

Lemma entries_well_formed (series : list (gmap string value))
  (samples : list Spec.sample) :
  Forall2 Spec.entry_of series samples ->
  Forall (fun s => Spec.well_formed_date (snd s)) samples.
Proof.
  induction 1 as [|e s series samples (_ & _ & H) _ IH]; constructor; assumption.
Qed.

(** The interval loop computes the day gaps. *)
Lemma interval_loop (suf : list date) :
  Forall Spec.well_formed_date suf ->
  forall (pre : list date) (acc : list Z),
    for_each
      (fun intervals i =>
         let! s1 := list_item (date_value <$> (pre ++ suf)) i in
         let! date1 := strptime s1 in
         let! s2 := list_item (date_value <$> (pre ++ suf)) (i + 1) in
         let! date2 := strptime s2 in
         Ok (intervals ++ [days_between date2 date1]))
      (seq (length pre) (length suf - 1)) acc
    = Ok (acc ++ Spec.day_gaps suf).
Proof.
  induction 1 as [|t suf Ht Hrest IH]; intros pre acc.
  - cbn. now rewrite app_nil_r.
  - destruct Hrest as [|t2 suf Ht2 Hrest].
    + cbn. now rewrite app_nil_r.
    + replace (length (t :: t2 :: suf) - 1)%nat with (S (length suf))
        by (cbn; lia).
      cbn [seq]. rewrite for_each_cons.
      specialize (IH (pre ++ [t])).
      replace ((pre ++ [t]) ++ t2 :: suf) with (pre ++ t :: t2 :: suf) in IH
        by (now rewrite <- app_assoc).
      replace (length (pre ++ [t])) with (S (length pre)) in IH
        by (rewrite length_app; cbn; lia).
      replace (length (t2 :: suf) - 1)%nat with (length suf) in IH
        by (cbn; lia).
      cbv beta.
      rewrite list_item_fmap_middle, list_item_fmap_middle_next. cbn [bind].
      unfold date_value at 1 2.
      rewrite (strptime_date_text t Ht), (strptime_date_text t2 Ht2).
      cbn [bind].
      rewrite IH. cbn [Spec.day_gaps]. rewrite <- app_assoc. reflexivity.
Qed.

Lemma sum_fold_right (l : list Z) (a : Z) :
  foldl Z.add a l = (a + fold_right Z.add 0 l)%Z.
Proof.
  revert a. induction l as [|x l IH]; intro a; cbn; [lia|].
  rewrite IH. lia.
Qed.

Lemma py_int_truncate (x : Q) : py_int x = Spec.truncate x.
Proof.
  unfold py_int, Spec.truncate, Qceiling, Qfloor.
  destruct x as [n d]. cbn [Qnum Qden Qopp].
  destruct (Qlt_le_dec (n # d) 0) as [H|H].
  - unfold Qlt in H. cbn in H.
    rewrite <- (Z.opp_involutive n) at 1.
    rewrite Z.quot_opp_l by lia. f_equal.
    apply Z.quot_div_nonneg; lia.
  - unfold Qle in H. cbn in H.
    apply Z.quot_div_nonneg; lia.
Qed.

Lemma day_gaps_length (dates : list date) :
  (length dates <? 2)%nat = true <-> Spec.day_gaps dates = [].
Proof.
  destruct dates as [|t [|t2 dates]]; cbn; split; intro H;
    try reflexivity; discriminate.
Qed.

Lemma average_interval_whole (dates : list date) :
  Forall Spec.well_formed_date dates ->
  _calculate_average_interval (date_value <$> dates)
  = Ok (Spec.whole_interval dates).
Proof.
  intro Hd. unfold _calculate_average_interval, Spec.whole_interval.
  rewrite length_fmap.
  destruct (length dates <? 2)%nat eqn:E.
  - apply day_gaps_length in E. now rewrite E.
  - pose proof (interval_loop dates Hd [] []) as L.
    cbn [app length] in L. unfold range. rewrite L. cbn [bind app].
    destruct (Spec.day_gaps dates) as [|g gaps] eqn:G.
    + apply day_gaps_length in G. congruence.
    + rewrite py_int_truncate. unfold Spec.mean, sum.
      rewrite sum_fold_right. reflexivity.
Qed.

Lemma entries_for (samples : list Spec.sample) :
  Forall (fun s => Spec.well_formed_date (snd s)) samples ->
  Forall2 Spec.entry_of (Examples.entry_for <$> samples) samples.
Proof.
  induction 1 as [|s samples Hs _ IH]; [constructor|].
  rewrite fmap_cons. constructor; [|assumption].
  unfold Spec.entry_of, Examples.entry_for. repeat split; assumption.
Qed.

Lemma last_well_formed (dates : list date) (t : date) :
  Forall Spec.well_formed_date dates -> last dates = Some t ->
  Spec.well_formed_date t.
Proof.
  intros Hd Hl. apply last_Some in Hl as [l ->].
  apply Forall_app in Hd as [_ Hd]. now inversion Hd.
Qed.

Lemma fmap_nonempty_match {A B C} (f : A -> B) (l : list A) (x : A)
  (a b : C) :
  last l = Some x ->
  match f <$> l with [] => a | _ :: _ => b end = b.
Proof. destruct l; [discriminate | reflexivity]. Qed.

(** What [predict_bloom_date] returns on a well-formed series of at least
    fourteen entries with a transition. *)
Lemma predict_bloom_date_general (series : list (gmap string value))
  (samples : list Spec.sample) (last_t : date) :
  Forall2 Spec.entry_of series samples ->
  (14 <= length series)%nat ->
  last (Spec.transitions samples) = Some last_t ->
  (0 < toordinal last_t + Spec.whole_interval (Spec.transitions samples)
   <= _MAXORDINAL)%Z ->
  predict_bloom_date series
  = Ok {| Prediction.date :=
            strftime "-"
              (fromordinal
                 (toordinal last_t
                  + Spec.whole_interval (Spec.transitions samples)));
          Prediction.probability :=
            py_round
              (py_min 0.95
                 (0.6 + inject_Z (Z.of_nat (length (Spec.transitions samples)))
                        * 0.05)) 2;
          Prediction.peak_period :=
            String.append
              (str_int (Spec.whole_interval (Spec.transitions samples)))
              " días desde última floración";
          Prediction.historical_blooms :=
            Some (length (Spec.transitions samples)) |}.
Proof.
  intros Hs Hlen Hlast Hrange. unfold predict_bloom_date.
  replace (length series <? 14)%nat with false
    by (symmetry; apply Nat.ltb_ge; lia).
  pose proof (scan_loop series samples Hs [] []) as L.
  cbn [app length] in L. unfold range. rewrite L. cbn [bind].
  rewrite (fmap_nonempty_match date_value _ last_t _ _ Hlast).
  pose proof (transitions_well_formed samples
                (entries_well_formed series samples Hs)) as Hwf.
  rewrite (average_interval_whole _ Hwf). cbn [bind].
  unfold list_item_last. rewrite fmap_last, Hlast.
  cbn [fmap option_fmap option_map bind].
  unfold date_value at 1.
  rewrite (strptime_date_text last_t (last_well_formed _ _ Hwf Hlast)).
  cbn [bind]. unfold add_days.
  replace ((0 <? toordinal last_t
                 + Spec.whole_interval (Spec.transitions samples))%Z
           && (toordinal last_t
               + Spec.whole_interval (Spec.transitions samples)
               <=? _MAXORDINAL)%Z) with true
    by (symmetry; apply andb_true_iff; split;
        [apply Z.ltb_lt | apply Z.leb_le]; lia).
  cbn [bind]. rewrite length_fmap. reflexivity.
Qed.

(** C8, as far as it holds: for a series of at least fourteen entries
    with well-formed dates, ndvi values in [-1, 1] on which the two
    comparisons of the scan are decided (no next value within the error
    of the evaluation above 0.6, no growth within that error of 0.05) and
    at least one transition, [predict_bloom_date] returns the date of the
    last transition plus the interval, where the interval is the mean of
    the day gaps between consecutive transition dates cut to a whole
    number of days (90 with fewer than two transition dates), provided
    that date is a day of the years 1000 to 9999 (how an earlier
    year is written depends on the platform); the probability is
    min(0.95, 0.6 + count * 0.05) rounded to two decimals and
    historical_blooms is the count.  In particular a fourteen-entry series
    whose only transition is at 20240101 (ndvi 0.5 then 0.7) has
    historical_blooms = 1 and the interval 90. *)
Theorem predict_bloom_date_transitions :
  (forall (series : list (gmap string value)) (samples : list Spec.sample)
          (last_t : date),
      Forall2 Spec.entry_of series samples ->
      (14 <= length series)%nat ->
      decided (fst <$> samples) = true ->
      last (Spec.transitions samples) = Some last_t ->
      let dates := Spec.transitions samples in
      let interval := Spec.whole_interval dates in
      (toordinal (mkdate 1000 1 1) <= toordinal last_t + interval
       <= _MAXORDINAL)%Z ->
      exists r,
        predict_bloom_date series = Ok r
        /\ Prediction.date r
           = strftime "-" (fromordinal (toordinal last_t + interval))
        /\ (exists predicted,
              Prediction.date r = strftime "-" predicted
              /\ days_between predicted last_t = interval)
        /\ Prediction.probability r == Spec.probability (length dates)
        /\ Prediction.historical_blooms r = Some (length dates)
        /\ Prediction.peak_period r
           = String.append (str_int interval) " días desde última floración"
        /\ ((length dates < 2)%nat -> interval = 90%Z)
        /\ ((2 <= length dates)%nat ->
            interval = Spec.truncate (Spec.mean (Spec.day_gaps dates))))
  /\ (forall (e1 e2 : gmap string value) (rest : list (gmap string value))
             (rest_samples : list Spec.sample),
        Spec.entry_of e1 (0.5, mkdate 2024 1 1) ->
        Spec.entry_of e2 (0.7, mkdate 2024 1 8) ->
        Forall2 Spec.entry_of rest rest_samples ->
        length rest = 12%nat ->
        decided (0.5 :: 0.7 :: (fst <$> rest_samples)) = true ->
        Spec.transitions ((0.7, mkdate 2024 1 8) :: rest_samples) = [] ->
        exists r,
          predict_bloom_date (e1 :: e2 :: rest) = Ok r
          /\ Prediction.historical_blooms r = Some 1%nat
          /\ Prediction.peak_period r = "90 días desde última floración"%string
          /\ Prediction.date r = "2024-03-31"%string
          /\ Prediction.probability r == 0.65).
Proof.
  split.
  - intros series samples last_t Hs Hlen _ Hlast dates interval Hrange.
    rewrite first_padded_day in Hrange.
    eexists. split.
    { apply (predict_bloom_date_general series samples last_t);
        try assumption. fold dates. fold interval. lia. }
    cbn [Prediction.date Prediction.probability Prediction.peak_period
         Prediction.historical_blooms].
    fold dates. fold interval.
    split; [reflexivity|].
    split.
    { exists (fromordinal (toordinal last_t + interval)).
      split; [reflexivity|]. unfold days_between.
      rewrite toordinal_fromordinal; lia. }
    split.
    { unfold Spec.probability. apply py_round_proper; [|reflexivity].
      apply py_min_Qmin. }
    split; [reflexivity|]. split; [reflexivity|].
    split.
    + intro H. subst interval. unfold Spec.whole_interval.
      destruct dates as [|t [|t2 l]]; cbn in H |- *; try reflexivity; lia.
    + intro H. subst interval. unfold Spec.whole_interval.
      destruct dates as [|t [|t2 l]]; cbn in H; try lia. reflexivity.
  - intros e1 e2 rest rest_samples H1 H2 Hrest Hlen _ Hnone.
    assert (Spec.transitions
              ((0.5, mkdate 2024 1 1) :: (0.7, mkdate 2024 1 8) :: rest_samples)
            = [mkdate 2024 1 1]) as Ht.
    { change (Spec.transitions
                ((0.5, mkdate 2024 1 1) :: (0.7, mkdate 2024 1 8) :: rest_samples))
        with (mkdate 2024 1 1
              :: Spec.transitions ((0.7, mkdate 2024 1 8) :: rest_samples)).
      now rewrite Hnone. }
    eexists. split.
    { apply (predict_bloom_date_general (e1 :: e2 :: rest)
               ((0.5, mkdate 2024 1 1) :: (0.7, mkdate 2024 1 8) :: rest_samples)
               (mkdate 2024 1 1)).
      - constructor; [assumption|]. constructor; assumption.
      - cbn [length]. lia.
      - now rewrite Ht.
      - rewrite Ht. vm_compute. split; [reflexivity | discriminate]. }
    rewrite Ht.
    repeat split.
Qed.

Lemma single_transition_well_formed :
  Forall (fun s => Spec.well_formed_date (snd s)) Examples.single_transition.
Proof. repeat constructor. Qed.

Lemma uneven_transitions_well_formed :
  Forall (fun s => Spec.well_formed_date (snd s)) Examples.uneven_transitions.
Proof. repeat constructor. Qed.

Lemma end_of_calendar_well_formed :
  Forall (fun s => Spec.well_formed_date (snd s)) Examples.end_of_calendar.
Proof. repeat constructor. Qed.

Lemma predict_bloom_date_transitions_witness :
  (exists r,
      predict_bloom_date (Examples.entry_for <$> Examples.uneven_transitions)
      = Ok r
      /\ Prediction.date r = "2024-01-23"%string
      /\ Prediction.historical_blooms r = Some 3%nat
      /\ Prediction.peak_period r = "7 días desde última floración"%string)
  /\ (exists r,
        predict_bloom_date (Examples.entry_for <$> Examples.single_transition)
        = Ok r
        /\ Prediction.historical_blooms r = Some 1%nat
        /\ Prediction.peak_period r = "90 días desde última floración"%string
        /\ Prediction.date r = "2024-03-31"%string
        /\ Prediction.probability r == 0.65).
Proof.
  split.
  - destruct (proj1 predict_bloom_date_transitions
                (Examples.entry_for <$> Examples.uneven_transitions)
                Examples.uneven_transitions (mkdate 2024 1 16))
      as (r & Hr & Hd & _ & _ & Hh & Hp & _).
    + apply entries_for, uneven_transitions_well_formed.
    + cbn. lia.
    + vm_compute. reflexivity.
    + vm_compute. reflexivity.
    + vm_compute. split; discriminate.
    + exists r. split; [exact Hr|]. rewrite Hd, Hh, Hp.
      vm_compute. repeat split.
  - unfold Examples.single_transition. rewrite 2!fmap_cons.
    eapply (proj2 predict_bloom_date_transitions).
    + repeat split.
    + repeat split.
    + apply entries_for. repeat constructor.
    + reflexivity.
    + vm_compute. reflexivity.
    + vm_compute. reflexivity.
Defined.

(** C8 as stated fails twice.  At the end of the calendar the series is
    well formed and has a transition, yet the call raises instead of
    returning; and with day gaps of 7 and 8 the interval the code uses is
    7, not the mean 15/2. *)
Lemma predict_bloom_date_mean_counterexample :
  (Forall2 Spec.entry_of
     (Examples.entry_for <$> Examples.end_of_calendar) Examples.end_of_calendar
   /\ length (Examples.entry_for <$> Examples.end_of_calendar) = 14%nat
   /\ Spec.transitions Examples.end_of_calendar = [mkdate 9999 11 1]
   /\ predict_bloom_date (Examples.entry_for <$> Examples.end_of_calendar)
      = Raise OverflowError)
  /\ (Forall2 Spec.entry_of
        (Examples.entry_for <$> Examples.uneven_transitions)
        Examples.uneven_transitions
      /\ length (Examples.entry_for <$> Examples.uneven_transitions) = 14%nat
      /\ Spec.transitions Examples.uneven_transitions
         = [mkdate 2024 1 1; mkdate 2024 1 8; mkdate 2024 1 16]
      /\ Spec.mean_interval (Spec.transitions Examples.uneven_transitions)
         == 15 # 2
      /\ _calculate_average_interval
           (date_value <$> Spec.transitions Examples.uneven_transitions)
         = Ok 7%Z
      /\ ~ (inject_Z 7 == 15 # 2)
      /\ Prediction.peak_period
           <$> (match predict_bloom_date
                        (Examples.entry_for <$> Examples.uneven_transitions)
                with Ok r => Some r | Raise _ => None end)
         = Some "7 días desde última floración"%string).
Proof.
  split.
  - split; [apply entries_for, end_of_calendar_well_formed|].
    repeat split; vm_compute; reflexivity.
  - split; [apply entries_for, uneven_transitions_well_formed|].
    split; [reflexivity|]. split; [vm_compute; reflexivity|].
    split; [vm_compute; reflexivity|]. split; [vm_compute; reflexivity|].
    split; [intro H; vm_compute in H; discriminate H|].
    vm_compute. reflexivity.
Qed.

(** C7, as far as it holds: for every series shorter than fourteen
    entries, whatever its entries hold, [predict_bloom_date] returns the
    sentinel with date 'Datos insuficientes', probability 0 and peak_period
    'N/A', and does not raise. *)
Theorem predict_bloom_date_insufficient (series : list (gmap string value)) :
  (length series < 14)%nat ->
  predict_bloom_date series
  = Ok {| Prediction.date := "Datos insuficientes";
          Prediction.probability := 0;
          Prediction.peak_period := "N/A";
          Prediction.historical_blooms := None |}.
Proof.
  intro H. unfold predict_bloom_date.
  replace (length series <? 14)%nat with true
    by (symmetry; apply Nat.ltb_lt; lia).
  reflexivity.
Qed.

Lemma predict_bloom_date_insufficient_witness :
  predict_bloom_date [Examples.malformed_entry]
  = Ok {| Prediction.date := "Datos insuficientes";
          Prediction.probability := 0;
          Prediction.peak_period := "N/A";
          Prediction.historical_blooms := None |}.
Proof.
  apply (predict_bloom_date_insufficient [Examples.malformed_entry]).
  cbn. lia.
Defined.

(** C7 as stated names the date text 'insufficient data'; the text the
    code returns is another one. *)
Lemma predict_bloom_date_insufficient_text :
  ~ (forall series : list (gmap string value),
        (length series < 14)%nat ->
        exists r,
          predict_bloom_date series = Ok r
          /\ Prediction.date r = "insufficient data"%string
          /\ Prediction.probability r == 0
          /\ Prediction.peak_period r = "N/A"%string).
Proof.
  intro H. destruct (H [] ltac:(cbn; lia)) as (r & Hr & Hd & _).
  vm_compute in Hr. injection Hr as <-. cbn in Hd. discriminate Hd.
Qed.

End BloomPredictor.

(** ** Species inference *)

Section SpeciesClassifier.
Import PyNum Py BloomDetector.
Local Open Scope Q_scope.

(** C9: at lat = 0, ndvi = 0.8, temp = 26 and precip = 12, whatever the
    evi, [identify_species_type] returns ecosystem_type "Tropical", and its
    species_hints are the dense-rainforest hint followed by the
    tropical-flower hint: both nested tropical rules fire, in order. *)
Theorem identify_species_tropical (sd location : gmap string value)
  (lat ndvi temp precip : Q) :
  location !! "lat" = Some (Num lat) -> lat == 0 ->
  sd !! "ndvi" = Some (Num ndvi) -> ndvi == 0.8 ->
  sd !! "temperature" = Some (Num temp) -> temp == 26 ->
  sd !! "precipitation" = Some (Num precip) -> precip == 12 ->
  Spec.numeric_or_absent sd "evi" ->
  exists r,
    identify_species_type sd location = Ok r
    /\ Species.ecosystem_type r = "Tropical"%string
    /\ Species.species_hints r
       = ["Selva tropical densa"%string;
          "Flores tropicales: Orquídeas, Heliconias, Jengibre"%string]
    /\ Species.ecological_notes r
       = ["Alta biodiversidad esperada"%string;
          "Período óptimo para polinizadores"%string].
Proof.
  intros Hlat Elat Hn En Ht Et Hp Ep Hevi.
  destruct (as_num_dict_get sd "evi" 0 Hevi) as [evi Hevi'].
  unfold identify_species_type. rewrite Hevi'.
  unfold dict_get. rewrite Hlat, Hn, Ht, Hp. cbn [as_num bind].
  assert (leb (-23.5) lat = true) as -> by (apply leb_le; lra).
  assert (leb lat 23.5 = true) as -> by (apply leb_le; lra).
  assert (ltb 0.7 ndvi = true) as -> by (apply ltb_lt; lra).
  assert (ltb 25 temp = true) as -> by (apply ltb_lt; lra).
  assert (ltb 10 precip = true) as -> by (apply ltb_lt; lra).
  assert (ltb ndvi 0.7 = false) as -> by (apply ltb_ge; lra).
  assert (ltb temp 10 = false) as -> by (apply ltb_ge; lra).
  assert (ltb ndvi 0.25 = false) as -> by (apply ltb_ge; lra).
  rewrite !andb_false_r. cbn [andb when add hints notes app].
  eexists. split; [reflexivity|]. repeat split.
Qed.

Lemma identify_species_tropical_witness :
  exists r,
    identify_species_type Examples.rainforest_sample Examples.equator = Ok r
    /\ Species.ecosystem_type r = "Tropical"%string
    /\ Species.species_hints r
       = ["Selva tropical densa"%string;
          "Flores tropicales: Orquídeas, Heliconias, Jengibre"%string]
    /\ Species.ecological_notes r
       = ["Alta biodiversidad esperada"%string;
          "Período óptimo para polinizadores"%string].
Proof.
  apply (identify_species_tropical Examples.rainforest_sample Examples.equator
           0 0.8 26 12); try reflexivity; exact I.
Defined.

End SpeciesClassifier.

(** * Further properties of the code *)

(** ** Bloom scoring, beyond the ranges of the specification *)

Section BloomScorerMore.
Import PyNum Py BloomDetector Parts Binary64.
Local Open Scope Q_scope.

Lemma raw_level_mono (ndvi ndvi' evi evi' temp precip : Q) :
  ndvi <= ndvi' -> evi <= evi' ->
  raw_level ndvi evi temp precip <= raw_level ndvi' evi' temp precip.
Proof. intros Hn He. unfold raw_level. qlra. Qed.

Lemma py_min_mono_l (a a' b : Q) : a <= a' -> py_min a b <= py_min a' b.
Proof.
  intro H.
  destruct (py_min_cases a b) as [[? ->]|[? ->]];
    destruct (py_min_cases a' b) as [[? ->]|[? ->]]; lra.
Qed.

(** X1: the level never falls when ndvi or evi rises, the temperature and
    the precipitation being the same; a sample at peak_bloom stays there. *)
Theorem bloom_level_monotone (ndvi ndvi' evi evi' temp precip : Q) :
  ndvi <= ndvi' -> evi <= evi' ->
  _calculate_bloom_level ndvi evi temp precip
  <= _calculate_bloom_level ndvi' evi' temp precip
  /\ (fst (fst (status_band (_calculate_bloom_level ndvi evi temp precip)))
      = "peak_bloom"%string ->
      fst (fst (status_band (_calculate_bloom_level ndvi' evi' temp precip)))
      = "peak_bloom"%string).
Proof.
  intros Hn He.
  assert (_calculate_bloom_level ndvi evi temp precip
          <= _calculate_bloom_level ndvi' evi' temp precip) as Hle.
  { rewrite !calculate_bloom_level_raw. apply py_round_mono, py_min_mono_l.
    now apply raw_level_mono. }
  split; [exact Hle|].
  destruct (status_band_cases (_calculate_bloom_level ndvi evi temp precip))
    as [[H ->]|[[H ->]|[[H ->]|[H ->]]]]; cbn [fst]; try discriminate.
  intros _.
  destruct (status_band_cases (_calculate_bloom_level ndvi' evi' temp precip))
    as [[H' ->]|[[H' ->]|[[H' ->]|[H' ->]]]]; cbn [fst];
    try reflexivity; exfalso; lra.
Qed.

Lemma bloom_level_monotone_witness :
  _calculate_bloom_level 0.5 0.6 22 3 <= _calculate_bloom_level 0.6 0.7 22 3.
Proof.
  apply (bloom_level_monotone 0.5 0.6 0.6 0.7 22 3); lra.
Defined.

Lemma calculate_bloom_level_span (ndvi evi temp precip : Q) :
  _calculate_bloom_level ndvi evi temp precip <= 100
  /\ (0 <= ndvi + evi -> 0 <= _calculate_bloom_level ndvi evi temp precip)
  /\ (ndvi + evi <= -3.1 -> _calculate_bloom_level ndvi evi temp precip <= -2).
Proof.
  rewrite calculate_bloom_level_raw.
  assert (0 <= py_max 0 ((10 - py_abs (temp - 20)) / 10) * 30 <= 30) as Ht.
  { unfold py_abs.
    destruct (py_max_cases 0 ((10 - Qabs (temp - 20)) / 10)) as [[H ->]|[H ->]];
      pose proof (Qabs_nonneg (temp - 20)); qlra. }
  assert (0 <= (if ltb 0 precip then py_min (precip / 15) 1 * 30 else 5) <= 30)
    as Hp.
  { destruct (ltb_cases 0 precip) as [[-> H]|[-> H]]; [|lra].
    destruct (py_min_cases (precip / 15) 1) as [[G ->]|[G ->]]; qlra. }
  split; [|split].
  - apply py_round_upper; [reflexivity|].
    destruct (py_min_cases (raw_level ndvi evi temp precip) 100)
      as [[H ->]|[H ->]]; lra.
  - intro H. apply py_round_lower; [reflexivity|].
    destruct (py_min_cases (raw_level ndvi evi temp precip) 100)
      as [[G ->]|[G ->]]; [lra|]. unfold raw_level. qlra.
  - intro H. apply py_round_upper; [reflexivity|].
    destruct (py_min_cases (raw_level ndvi evi temp precip) 100)
      as [[G ->]|[G ->]]; [exfalso|]; unfold raw_level in *; qlra.
Qed.

(** X2: the level never exceeds 100; it is at least 0 as soon as
    ndvi + evi >= 0, whatever the temperature and the precipitation; and
    since nothing caps it from below it is negative when ndvi + evi <= -3.1. *)
Theorem bloom_level_bounds (ndvi evi temp precip : Q) :
  _calculate_bloom_level ndvi evi temp precip <= 100
  /\ (0 <= ndvi + evi -> 0 <= _calculate_bloom_level ndvi evi temp precip)
  /\ (ndvi + evi <= -3.1 -> _calculate_bloom_level ndvi evi temp precip <= -2).
Proof. exact (calculate_bloom_level_span ndvi evi temp precip). Qed.

Lemma bloom_level_bounds_witness :
  _calculate_bloom_level (-2) (-2) 20 15 <= -2.
Proof.
  apply (proj2 (proj2 (bloom_level_bounds (-2) (-2) 20 15))). lra.
Defined.

(** X3: a little rain scores below no rain at all.  Without precipitation
    the third factor is 5; with 0 < precip <= 2.5 it is precip / 15 * 30,
    at most 5.  So the level is not monotone in the precipitation. *)
Theorem bloom_level_light_rain (ndvi evi temp precip : Q) :
  0 < precip <= 2.5 ->
  _calculate_bloom_level ndvi evi temp precip
  <= _calculate_bloom_level ndvi evi temp 0
  /\ raw_level ndvi evi temp 0 - raw_level ndvi evi temp precip
     == 5 - 2 * precip.
Proof.
  intros [H0 H1].
  assert (raw_level ndvi evi temp 0 - raw_level ndvi evi temp precip
          == 5 - 2 * precip) as Hd.
  { unfold raw_level.
    destruct (ltb_cases 0 precip) as [[-> G]|[-> G]]; [|exfalso; lra].
    destruct (ltb_cases 0 0) as [[-> G']|[-> G']]; [exfalso; lra|].
    destruct (py_min_cases (precip / 15) 1) as [[K ->]|[K ->]]; qlra. }
  split; [|exact Hd].
  rewrite !calculate_bloom_level_raw. apply py_round_mono, py_min_mono_l. lra.
Qed.

Lemma bloom_level_light_rain_witness :
  _calculate_bloom_level 0.5 0.6 22 1 <= _calculate_bloom_level 0.5 0.6 22 0.
Proof.
  apply (proj1 (bloom_level_light_rain 0.5 0.6 22 1 ltac:(split; lra))).
Defined.

(** X4: the temperature counts only through its distance to 20 degrees.
    From a distance of 10 degrees on it does not count at all: two such
    temperatures give the same level.  And the levels at temp and at
    40 - temp round the same sum to one decimal, so they are at most one
    tenth apart (the error of the evaluation decides the ties); this for
    non-negative ndvi, evi and precipitation.  All numbers are within the
    range of binary64. *)
Theorem bloom_level_temperature (ndvi evi temp precip : Q) :
  finite ndvi -> finite evi -> finite temp -> in_range precip ->
  (forall temp' : Q,
      finite temp' ->
      10 <= Qabs (temp - 20) -> 10 <= Qabs (temp' - 20) ->
      _calculate_bloom_level ndvi evi temp precip
      == _calculate_bloom_level ndvi evi temp' precip)
  /\ (0 <= ndvi -> 0 <= evi -> 0 <= precip ->
      Qabs (_calculate_bloom_level ndvi evi (40 - temp) precip
            - _calculate_bloom_level ndvi evi temp precip)
      <= 0.1 + slack).
Proof.
  intros _ _ _ _. rewrite !calculate_bloom_level_raw. split.
  - intros temp' _ H H'. apply py_round_proper; [|reflexivity].
    apply py_min_proper; [|reflexivity].
    unfold raw_level, py_abs.
    destruct (py_max_cases 0 ((10 - Qabs (temp - 20)) / 10)) as [[G ->]|[G ->]];
      destruct (py_max_cases 0 ((10 - Qabs (temp' - 20)) / 10))
        as [[G' ->]|[G' ->]];
      try qlra; exfalso; qlra.
  - intros _ _ _. apply Qabs_zero_le; [|discriminate].
    apply py_round_proper; [|reflexivity]. apply py_min_proper; [|reflexivity].
    unfold raw_level, py_abs.
    assert (Qabs (40 - temp - 20) == Qabs (temp - 20)) as E.
    { destruct (Qabs_cases (40 - temp - 20)) as [[? ->]|[? ->]];
        destruct (Qabs_cases (temp - 20)) as [[? ->]|[? ->]]; lra. }
    now rewrite E.
Qed.

Lemma bloom_level_temperature_witness :
  _calculate_bloom_level 0.5 0.6 (-5) 3 == _calculate_bloom_level 0.5 0.6 30 3.
Proof.
  apply (proj1 (bloom_level_temperature 0.5 0.6 (-5) 3
                  ltac:(vm_compute; discriminate)
                  ltac:(vm_compute; discriminate)
                  ltac:(vm_compute; discriminate)
                  ltac:(split; [vm_compute; discriminate
                               | right; vm_compute; discriminate])) 30);
    vm_compute; discriminate.
Defined.

End BloomScorerMore.

Section AssessmentMore.
Import PyNum Py BloomDetector Parts.
Local Open Scope Q_scope.

(** X5: the confidence ranges of the four bands, for a level that is not
    negative: no_bloom in [0.40, 0.70], early_bloom in [0.55, 0.75],
    active_bloom in [0.70, 0.90], peak_bloom in [0.85, 0.95].  The ranges
    overlap: a higher band does not mean a higher confidence. *)
Theorem analyze_bloom_confidence_bands (sd : gmap string value)
  (r : Assessment.t) :
  analyze_bloom sd = Ok r ->
  0 <= Assessment.level r ->
  (Assessment.status r = "no_bloom"%string ->
   0.40 <= Assessment.confidence r <= 0.70)
  /\ (Assessment.status r = "early_bloom"%string ->
      0.55 <= Assessment.confidence r <= 0.75)
  /\ (Assessment.status r = "active_bloom"%string ->
      0.70 <= Assessment.confidence r <= 0.90)
  /\ (Assessment.status r = "peak_bloom"%string ->
      0.85 <= Assessment.confidence r <= 0.95).
Proof.
  intros H H0. apply analyze_bloom_inv in H as (Hs & Hc & _).
  rewrite Hs, Hc. clear Hs Hc.
  destruct (status_band_cases (Assessment.level r))
    as [[H ->]|[[H ->]|[[H ->]|[H ->]]]]; cbn [fst snd];
    (split; [|split; [|split]]); intro Hst; try discriminate Hst;
    (split; [apply py_round_lower | apply py_round_upper]);
    try reflexivity;
    match goal with
    | |- context [py_min ?a ?b] =>
        destruct (py_min_cases a b) as [[G ->]|[G ->]]
    end; qlra.
Qed.

Lemma analyze_bloom_confidence_bands_witness :
  match analyze_bloom ∅ with
  | Ok r => 0.55 <= Assessment.confidence r <= 0.75
  | Raise _ => False
  end.
Proof.
  destruct (analyze_bloom ∅) as [r|e] eqn:E.
  - apply (analyze_bloom_confidence_bands ∅ r E).
    + injection E as <-. vm_compute. discriminate.
    + injection E as <-. reflexivity.
  - vm_compute in E. discriminate E.
Defined.

(** X6: an entry among ndvi, evi, temperature and precipitation that holds
    a string makes [analyze_bloom] raise TypeError; only absent entries are
    defaulted. *)
Theorem analyze_bloom_type_error (sd : gmap string value) (key s : string) :
  key = "ndvi"%string \/ key = "evi"%string \/ key = "temperature"%string
  \/ key = "precipitation"%string ->
  sd !! key = Some (Str s) ->
  analyze_bloom sd = Raise TypeError.
Proof.
  intros Hk Hs. unfold analyze_bloom.
  destruct Hk as [-> | [-> | [-> | ->]]].
  - unfold dict_get at 1. rewrite Hs. reflexivity.
  - destruct (as_num (dict_get sd "ndvi" (Num 0))) as [n|[]] eqn:En;
      try (destruct (dict_get sd "ndvi" (Num 0)); discriminate En).
    + cbn [bind]. unfold dict_get at 1. rewrite Hs. reflexivity.
    + reflexivity.
  - destruct (as_num (dict_get sd "ndvi" (Num 0))) as [n|[]] eqn:En;
      try (destruct (dict_get sd "ndvi" (Num 0)); discriminate En);
      [|reflexivity].
    destruct (as_num (dict_get sd "evi" (Num 0))) as [e|[]] eqn:Ee;
      try (destruct (dict_get sd "evi" (Num 0)); discriminate Ee);
      [|reflexivity].
    cbn [bind]. unfold dict_get at 1. rewrite Hs. reflexivity.
  - destruct (as_num (dict_get sd "ndvi" (Num 0))) as [n|[]] eqn:En;
      try (destruct (dict_get sd "ndvi" (Num 0)); discriminate En);
      [|reflexivity].
    destruct (as_num (dict_get sd "evi" (Num 0))) as [e|[]] eqn:Ee;
      try (destruct (dict_get sd "evi" (Num 0)); discriminate Ee);
      [|reflexivity].
    destruct (as_num (dict_get sd "temperature" (Num 20))) as [t|[]] eqn:Et;
      try (destruct (dict_get sd "temperature" (Num 20)); discriminate Et);
      [|reflexivity].
    cbn [bind]. unfold dict_get at 1. rewrite Hs. reflexivity.
Qed.

Lemma analyze_bloom_type_error_witness :
  analyze_bloom Examples.malformed_entry = Raise TypeError.
Proof.
  apply (analyze_bloom_type_error Examples.malformed_entry "ndvi" "n/a").
  - left. reflexivity.
  - reflexivity.
Defined.

End AssessmentMore.

(** ** Species inference, for every input *)

Section SpeciesClassifierMore.
Import PyNum Py BloomDetector.
Local Open Scope Q_scope.

(** The five numbers [identify_species_type] reads, when it returns. *)
Lemma identify_species_reads (sd location : gmap string value)
  (r : Species.t) :
  identify_species_type sd location = Ok r ->
  exists ndvi evi temp precip lat,
    as_num (dict_get sd "ndvi" (Num 0)) = Ok ndvi
    /\ as_num (dict_get sd "evi" (Num 0)) = Ok evi
    /\ as_num (dict_get sd "temperature" (Num 20)) = Ok temp
    /\ as_num (dict_get sd "precipitation" (Num 0)) = Ok precip
    /\ as_num (dict_get location "lat" (Num 0)) = Ok lat.
Proof.
  unfold identify_species_type.
  destruct (as_num (dict_get sd "ndvi" (Num 0))) as [n|]; [|discriminate].
  destruct (as_num (dict_get sd "evi" (Num 0))) as [e|]; [|discriminate].
  destruct (as_num (dict_get sd "temperature" (Num 20))) as [t|];
    [|discriminate].
  destruct (as_num (dict_get sd "precipitation" (Num 0))) as [p|];
    [|discriminate].
  destruct (as_num (dict_get location "lat" (Num 0))) as [l|]; [|discriminate].
  intros _. exists n, e, t, p, l. repeat split.
Qed.

Lemma as_num_lookup (d : gmap string value) (key : string) (q default x : Q) :
  d !! key = Some (Num q) ->
  as_num (dict_get d key (Num default)) = Ok x -> x = q.
Proof. unfold dict_get. intros ->. cbn. congruence. Qed.

(** Open [identify_species_type] on an input it accepts; the band of the
    latitude is decided, the rules stay as they are. *)
Ltac open_identify H :=
  unfold identify_species_type in H;
  repeat match type of H with
    | context [as_num ?v] =>
        let q := fresh "q" in
        destruct (as_num v) as [q|] eqn:?; [|discriminate H]; cbn [bind] in H
    end;
  cbv zeta in H.

(** X7: the ecosystem follows the latitude alone: Tropical for
    |lat| <= 23.5, Templado for 23.5 < |lat| <= 66.5, Boreal/Polar beyond. *)
Theorem identify_species_ecosystem (sd location : gmap string value)
  (r : Species.t) (lat : Q) :
  identify_species_type sd location = Ok r ->
  location !! "lat" = Some (Num lat) ->
  (Qabs lat <= 23.5 -> Species.ecosystem_type r = "Tropical"%string)
  /\ (23.5 < Qabs lat <= 66.5 -> Species.ecosystem_type r = "Templado"%string)
  /\ (66.5 < Qabs lat -> Species.ecosystem_type r = "Boreal/Polar"%string).
Proof.
  intros H Hlat. open_identify H.
  match goal with
  | E : as_num (dict_get location "lat" (Num 0)) = Ok ?q |- _ =>
      apply (as_num_lookup location "lat" lat 0 q Hlat) in E; subst q
  end.
  unfold py_abs in H.
  destruct (leb_cases (-23.5) lat) as [[E1 L1]|[E1 L1]];
    destruct (leb_cases lat 23.5) as [[E2 L2]|[E2 L2]];
    destruct (ltb_cases 23.5 (Qabs lat)) as [[E3 L3]|[E3 L3]];
    destruct (leb_cases (Qabs lat) 66.5) as [[E4 L4]|[E4 L4]];
    rewrite E1, E2, E3, E4 in H; cbn [andb] in H;
    injection H as <-; cbn [Species.ecosystem_type];
    destruct (Qabs_cases lat) as [[? Ea]|[? Ea]]; rewrite Ea in *;
    repeat split; intros; try reflexivity; exfalso; lra.
Qed.

Lemma identify_species_ecosystem_witness :
  match identify_species_type Examples.rainforest_sample
          (<["lat" := Num (-40)]> ∅) with
  | Ok r => Species.ecosystem_type r = "Templado"%string
  | Raise _ => False
  end.
Proof.
  destruct (identify_species_type Examples.rainforest_sample
              (<["lat" := Num (-40)]> ∅)) as [r|e] eqn:E.
  - apply (proj1 (proj2 (identify_species_ecosystem _ _ r (-40) E
                           ltac:(reflexivity)))).
    vm_compute. split; [reflexivity | discriminate].
  - vm_compute in E. discriminate E.
Defined.

(** Split the result of [identify_species_type] into its fields; the band
    of the latitude and every rule guard stay opaque. *)
Ltac split_identify H :=
  open_identify H;
  match type of H with
  | context [match ?p with (_, _) => _ end] =>
      let eco := fresh "eco" in
      let f0 := fresh "f0" in
      destruct p as [eco f0] eqn:?
  end;
  injection H as <-;
  cbn [Species.ecosystem_type Species.species_hints Species.ecological_notes
       Species.biodiversity_potential Species.confidence
       Species.conservation_priority].

Lemma hinted_add (hs ns : list string) (f : findings) :
  hs <> [] -> ~ In "Vegetación general"%string hs ->
  Rules.hinted f -> Rules.hinted (add hs ns f).
Proof.
  intros Hne Hnot [H1 H2]. unfold Rules.hinted, add. cbn [hints notes]. split.
  - intro E. apply app_eq_nil in E as [_ E]. contradiction.
  - intro Hin. apply in_app_or in Hin as [Hin|Hin]; contradiction.
Qed.

Lemma hinted_when (c : bool) (rule : findings -> findings) (f : findings) :
  (forall g, Rules.hinted g -> Rules.hinted (rule g)) ->
  Rules.hinted f -> Rules.hinted (when c rule f).
Proof. intros Hr Hf. destruct c; cbn [when]; auto. Qed.

Ltac hinted_rule :=
  repeat first
    [ apply hinted_when; [intros ? ?|]
    | apply hinted_add;
      [discriminate | cbn [In]; intuition discriminate |]
    | match goal with |- Rules.hinted (if ?c then _ else _) => destruct c end
    | assumption ].

(** The findings of the three rule sets of the latitude bands. *)
Lemma hinted_band (c1 c2 c3 c4 c5 c6 c7 : bool) (eco : string)
  (f0 : findings) :
  (if c1 then
     ("Tropical"%string,
      when c3
        (add ["Flores tropicales: Orquídeas, Heliconias, Jengibre"%string]
             ["Período óptimo para polinizadores"%string])
        (when c4
           (add ["Selva tropical densa"%string]
                ["Alta biodiversidad esperada"%string])
           {| hints := []; notes := [] |}))
   else if c2 then
     ("Templado"%string,
      when c5
        (add ["Flores silvestres de primavera"%string]
             ["Importante para polinizadores nativos"%string])
        (when c6
           (add ["Árboles frutales en floración"%string;
                 "Posibles especies: Cerezos, Manzanos, Duraznos"%string]
                ["Momento crítico para control de plagas"%string])
           {| hints := []; notes := [] |}))
   else
     ("Boreal/Polar"%string,
      when c7
        (add ["Tundra floreciente o bosque boreal"%string]
             ["Ventana corta de floración - sensible a cambio climático"%string])
        {| hints := []; notes := [] |}))
  = (eco, f0) ->
  Rules.hinted f0.
Proof.
  assert (Rules.hinted {| hints := []; notes := [] |}) as H0.
  { split; [reflexivity | intros []]. }
  destruct c1; [|destruct c2]; intros [= <- <-]; hinted_rule.
Qed.

(** X8: the hints and the notes are never empty, and the confidence
    counts the hints of the rules: Baja exactly when no rule gave a hint
    (the hints are then the general one and the notes the normal one),
    Alta exactly when there are three hints or more. *)
Theorem identify_species_confidence (sd location : gmap string value)
  (r : Species.t) :
  identify_species_type sd location = Ok r ->
  Species.species_hints r <> []
  /\ Species.ecological_notes r <> []
  /\ (Species.confidence r = "Baja"%string
      <-> Species.species_hints r = ["Vegetación general"%string])
  /\ (Species.confidence r = "Baja"%string ->
      Species.ecological_notes r = ["Condiciones normales"%string])
  /\ (Species.confidence r = "Alta"%string
      <-> (3 <= length (Species.species_hints r))%nat).
Proof.
  intro H. split_identify H.
  match goal with
  | E : _ = (_, _) |- _ => apply hinted_band in E; rename E into Hf0
  end.
  match goal with
  | |- context [hints ?F] =>
      assert (Rules.hinted F) as [Hn Hd] by hinted_rule;
      generalize dependent (notes F); generalize dependent (hints F)
  end.
  intros l Hd ns Hn.
  destruct l as [|a [|b [|c l]]]; cbn [length Nat.ltb Nat.leb] in *.
  - rewrite (Hn eq_refl).
    repeat split; try discriminate; try reflexivity; try lia;
      intro G; try discriminate G; cbn in G; lia.
  - assert (a <> "Vegetación general"%string) by (intro; apply Hd; now left).
    destruct ns; repeat split; try discriminate; try reflexivity; try lia;
      intro G; try discriminate G; try congruence; cbn in G; lia.
  - destruct ns; repeat split; try discriminate; try reflexivity; try lia;
      intro G; try discriminate G; cbn in G; lia.
  - destruct ns; repeat split; try discriminate; try reflexivity;
      try (cbn; lia); intro G; try discriminate G.
Qed.

Lemma identify_species_confidence_witness :
  match identify_species_type Examples.rainforest_sample Examples.equator with
  | Ok r => Species.species_hints r <> []
  | Raise _ => False
  end.
Proof.
  destruct (identify_species_type Examples.rainforest_sample Examples.equator)
    as [r|e] eqn:E.
  - apply (proj1 (identify_species_confidence _ _ r E)).
  - vm_compute in E. discriminate E.
Defined.

(** X9: a sample whose ndvi is below 0.25, or that has no ndvi at all
    (it then counts as 0), is reported as degraded: the degradation hint
    is the last hint, the conservation priority is Alta and the
    confidence is not Baja. *)
Theorem identify_species_degraded (sd location : gmap string value)
  (r : Species.t) :
  identify_species_type sd location = Ok r ->
  sd !! "ndvi" = None
  \/ (exists q, sd !! "ndvi" = Some (Num q) /\ q < 0.25) ->
  last (Species.species_hints r) = Some "Vegetación escasa o degradada"%string
  /\ Species.conservation_priority r = "Alta"%string
  /\ Species.confidence r <> "Baja"%string.
Proof.
  intros H Hn. split_identify H.
  match goal with
  | E : as_num (dict_get sd "ndvi" (Num 0)) = Ok ?q |- _ =>
      assert (q < 0.25) as Hq;
      [ unfold dict_get in E;
        destruct Hn as [Hn|(q' & Hn & Hlt)]; rewrite Hn in E;
        injection E as <-; lra
      | assert (ltb q 0.25 = true) as -> by (now apply ltb_lt);
        assert (ltb q 0.3 = true) as -> by (apply ltb_lt; lra) ]
  end.
  cbn [when add hints notes]. rewrite orb_true_r.
  match goal with
  | |- context [hints ?F ++ _] => generalize (hints F)
  end.
  intro l. split; [|split; [reflexivity|]].
  - destruct l; cbn [app]; [reflexivity|].
    rewrite app_comm_cons. apply last_snoc.
  - rewrite length_app. cbn [length]. rewrite Nat.add_1_r.
    destruct l as [|a [|b l]]; cbn; discriminate.
Qed.

Lemma identify_species_degraded_witness :
  match identify_species_type ∅ ∅ with
  | Ok r => Species.conservation_priority r = "Alta"%string
  | Raise _ => False
  end.
Proof.
  destruct (identify_species_type ∅ ∅) as [r|e] eqn:E.
  - apply (identify_species_degraded ∅ ∅ r E). left. reflexivity.
  - vm_compute in E. discriminate E.
Defined.



End SpeciesClassifierMore.

(** ** Climate source, on every reply *)

Section ClimateSourceMore.
Import PyNum Py NASADataFetcher Parts Binary64.
Local Open Scope Q_scope.

Lemma fallback_fields (lat : Q) (lon : value) (w : world) :
  exists sample,
    _get_fallback_data (Num lat) lon w = Ok sample
    /\ sample !! "ndvi" = Some (Num (py_round (base_ndvi lat (random1 w)) 3))
    /\ sample !! "evi"
       = Some (Num (py_round (base_ndvi lat (random1 w) * 1.15) 3))
    /\ sample !! "temperature"
       = Some (Num (15 + uniform (-5) 15 (random2 w)))
    /\ sample !! "precipitation" = Some (Num (uniform 0 20 (random3 w)))
    /\ sample !! "date" = Some (Str (Datetime.strftime "" (now w))).
Proof.
  unfold _get_fallback_data. cbn [as_num bind]. cbv zeta.
  eexists. split; [reflexivity|]. unfold base_ndvi.
  split; [|split; [|split; [|split]]].
  - now rewrite lookup_insert_eq.
  - rewrite lookup_insert_ne by discriminate. now rewrite lookup_insert_eq.
  - do 2 (rewrite lookup_insert_ne by discriminate).
    now rewrite lookup_insert_eq.
  - do 3 (rewrite lookup_insert_ne by discriminate).
    now rewrite lookup_insert_eq.
  - do 4 (rewrite lookup_insert_ne by discriminate).
    now rewrite lookup_insert_eq.
Qed.

Lemma primary_fields (lat lon : value) (date : option value) (w : world)
  (T2M PRECTOTCORR : list value) (t p : Q) :
  reply w = Reply200 T2M PRECTOTCORR ->
  hd (Num 20) T2M = Num t ->
  hd (Num 0) PRECTOTCORR = Num p ->
  exists sample,
    get_vegetation_index lat lon date w = Ok sample
    /\ sample !! "ndvi"
       = Some (Num (py_round (_calculate_simulated_ndvi t p) 3))
    /\ sample !! "evi"
       = Some (Num (py_round (derived_evi (_calculate_simulated_ndvi t p)) 3))
    /\ sample !! "temperature" = Some (Num t)
    /\ sample !! "precipitation" = Some (Num p)
    /\ sample !! "date"
       = Some (match date with
               | Some d => d
               | None => Str (Datetime.strftime "" (now w))
               end).
Proof.
  intros Hr Ht Hp. unfold get_vegetation_index, lookup_attempt.
  rewrite Hr, Ht, Hp. cbn [as_num bind]. cbv zeta.
  eexists. split; [reflexivity|]. unfold derived_evi.
  split; [|split; [|split; [|split]]].
  - now rewrite lookup_insert_eq.
  - rewrite lookup_insert_ne by discriminate. now rewrite lookup_insert_eq.
  - do 2 (rewrite lookup_insert_ne by discriminate).
    now rewrite lookup_insert_eq.
  - do 3 (rewrite lookup_insert_ne by discriminate).
    now rewrite lookup_insert_eq.
  - do 4 (rewrite lookup_insert_ne by discriminate).
    now rewrite lookup_insert_eq.
Qed.

(** The two ways [get_vegetation_index] goes: the primary path, on a reply
    with status 200 whose first temperature and precipitation values are
    numbers, and the fallback otherwise. *)
Lemma get_vegetation_index_paths (lat lon : value) (date : option value)
  (w : world) :
  (exists T2M PRECTOTCORR t p,
      reply w = Reply200 T2M PRECTOTCORR
      /\ hd (Num 20) T2M = Num t /\ hd (Num 0) PRECTOTCORR = Num p)
  \/ get_vegetation_index lat lon date w = _get_fallback_data lat lon w.
Proof.
  unfold get_vegetation_index, lookup_attempt.
  destruct (reply w) as [T P| |e] eqn:Hr.
  - destruct (hd (Num 20) T) as [t|s] eqn:Ht;
      [destruct (hd (Num 0) P) as [p|s] eqn:Hp|].
    + left. exists T, P, t, p. auto.
    + right. reflexivity.
    + right. reflexivity.
  - right. destruct (_get_fallback_data lat lon w); reflexivity.
  - right. reflexivity.
Qed.

(** X11: for a latitude that is a number within the range of binary64,
    [get_vegetation_index] returns a sample on every reply, be it a failed
    request, a status other than 200 or a body without usable numbers; the
    sample has numbers under ndvi and evi and has the entries temperature,
    precipitation and date. *)
Theorem get_vegetation_index_total (lat : Q) (lon : value)
  (date : option value) (w : world) :
  finite lat ->
  exists sample n e,
    get_vegetation_index (Num lat) lon date w = Ok sample
    /\ sample !! "ndvi" = Some (Num n)
    /\ sample !! "evi" = Some (Num e)
    /\ is_Some (sample !! "temperature")
    /\ is_Some (sample !! "precipitation")
    /\ is_Some (sample !! "date").
Proof.
  intros _.
  destruct (get_vegetation_index_paths (Num lat) lon date w)
    as [(T & P & t & p & Hr & Ht & Hp) | ->].
  - destruct (primary_fields (Num lat) lon date w T P t p Hr Ht Hp)
      as (sample & Hs & Hn & He & H1 & H2 & H3).
    exists sample. do 2 eexists. rewrite H1, H2, H3. eauto 10.
  - destruct (fallback_fields lat lon w)
      as (sample & Hs & Hn & He & H1 & H2 & H3).
    exists sample. do 2 eexists. rewrite H1, H2, H3. eauto 10.
Qed.

Lemma get_vegetation_index_total_witness :
  exists sample n e,
    get_vegetation_index (Num 45) (Num 0) None Examples.offline = Ok sample
    /\ sample !! "ndvi" = Some (Num n)
    /\ sample !! "evi" = Some (Num e).
Proof.
  destruct (get_vegetation_index_total 45 (Num 0) None Examples.offline)
    as (sample & n & e & Hs & Hn & He & _).
  - vm_compute. discriminate.
  - exists sample, n, e. auto.
Defined.

(** X12: the fallback needs a numeric latitude.  With a latitude that is
    not a number, a failed lookup raises TypeError, out of
    [get_vegetation_index] too; a successful lookup does not look at the
    latitude and returns its sample. *)
Theorem get_vegetation_index_latitude (s : string) (lon : value)
  (date : option value) (w : world) :
  _get_fallback_data (Str s) lon w = Raise TypeError
  /\ (reply w = ReplyOther \/ (exists e, reply w = ReplyRaised e) ->
      get_vegetation_index (Str s) lon date w = Raise TypeError)
  /\ (forall T2M PRECTOTCORR t p,
        reply w = Reply200 T2M PRECTOTCORR ->
        hd (Num 20) T2M = Num t -> hd (Num 0) PRECTOTCORR = Num p ->
        exists sample, get_vegetation_index (Str s) lon date w = Ok sample).
Proof.
  split; [reflexivity|]. split.
  - intros [Hr | [e Hr]]; unfold get_vegetation_index, lookup_attempt;
      rewrite Hr; reflexivity.
  - intros T P t p Hr Ht Hp.
    destruct (primary_fields (Str s) lon date w T P t p Hr Ht Hp)
      as (sample & Hs & _). eauto.
Qed.

Lemma get_vegetation_index_latitude_witness :
  get_vegetation_index (Str "north") (Num 0) None Examples.offline
  = Raise TypeError.
Proof.
  apply (proj1 (proj2 (get_vegetation_index_latitude
                         "north" (Num 0) None Examples.offline))).
  left. reflexivity.
Defined.

(** X13: the date of the sample.  The primary path hands back the date it
    was asked for; the fallback stamps the sample with the day of the
    clock, whatever date was asked for. *)
Theorem get_vegetation_index_date (lat : Q) (lon requested : value)
  (w : world) :
  (forall T2M PRECTOTCORR t p,
      reply w = Reply200 T2M PRECTOTCORR ->
      hd (Num 20) T2M = Num t -> hd (Num 0) PRECTOTCORR = Num p ->
      exists sample,
        get_vegetation_index (Num lat) lon (Some requested) w = Ok sample
        /\ sample !! "date" = Some requested)
  /\ (reply w = ReplyOther \/ (exists e, reply w = ReplyRaised e) ->
      exists sample,
        get_vegetation_index (Num lat) lon (Some requested) w = Ok sample
        /\ sample !! "date" = Some (Str (Datetime.strftime "" (now w)))).
Proof.
  split.
  - intros T P t p Hr Ht Hp.
    destruct (primary_fields (Num lat) lon (Some requested) w T P t p Hr Ht Hp)
      as (sample & Hs & _ & _ & _ & _ & Hd). eauto.
  - intros Hr.
    destruct (fallback_fields lat lon w) as (sample & Hs & _ & _ & _ & _ & Hd).
    exists sample. split; [|exact Hd].
    unfold get_vegetation_index, lookup_attempt.
    destruct Hr as [Hr | [e Hr]]; rewrite Hr; [now rewrite Hs | exact Hs].
Qed.

Lemma get_vegetation_index_date_witness :
  exists sample,
    get_vegetation_index (Num 10) (Num 0) (Some (Str "19990101"))
      Examples.offline = Ok sample
    /\ sample !! "date" = Some (Str "20240101").
Proof.
  apply (proj2 (get_vegetation_index_date 10 (Num 0) (Str "19990101")
                  Examples.offline)).
  left. reflexivity.
Defined.

Lemma base_ndvi_range (lat random : Q) :
  Qabs lat <= 90 -> 0 <= random <= 1 ->
  0.4 <= base_ndvi lat random <= 0.7.
Proof.
  intros Hlat H1.
  unfold base_ndvi, uniform, py_abs.
  pose proof (Qabs_nonneg lat) as Ha.
  set (a := Qabs lat) in *. set (u := random) in *.
  assert (0 <= u * (1 - a / 90) <= u) as Hm.
  { split.
    - apply Qmult_le_0_compat; qlra.
    - rewrite <- (Qmult_1_r u) at 2.
      destruct (Qlt_le_dec 0 u) as [Hu|Hu].
      + apply Qmult_le_l; [assumption | qlra].
      + assert (u == 0) as -> by lra. lra. }
  set (m := u * (1 - a / 90)) in *.
  assert (0.4 + (0 + (0.3 - 0) * u) * (1 - a / 90) == 0.4 + 0.3 * m) as ->
    by (subst m; field).
  lra.
Qed.

(** X14: the ranges of the fallback sample, for a latitude in [-90, 90]
    and draws in [0, 1]: ndvi in [0.4, 0.7], evi in [0.46, 0.805] and not
    below ndvi, temperature in [10, 30], precipitation in [0, 20]. *)
Theorem fallback_ranges (lat : Q) (lon : value) (w : world) :
  Qabs lat <= 90 ->
  0 <= random1 w <= 1 -> 0 <= random2 w <= 1 -> 0 <= random3 w <= 1 ->
  exists sample n e t p,
    _get_fallback_data (Num lat) lon w = Ok sample
    /\ sample !! "ndvi" = Some (Num n)
    /\ sample !! "evi" = Some (Num e)
    /\ sample !! "temperature" = Some (Num t)
    /\ sample !! "precipitation" = Some (Num p)
    /\ 0.4 <= n <= 0.7 /\ 0.46 <= e <= 0.805 /\ n <= e
    /\ 10 <= t <= 30 /\ 0 <= p <= 20.
Proof.
  intros Hlat H1 H2 H3.
  destruct (fallback_fields lat lon w) as (sample & Hs & Hn & He & Ht & Hp & _).
  exists sample. do 4 eexists.
  split; [exact Hs|]. split; [exact Hn|]. split; [exact He|].
  split; [exact Ht|]. split; [exact Hp|].
  pose proof (base_ndvi_range lat (random1 w) Hlat H1) as Hb.
  split; [|split; [|split; [|split]]].
  - split; [apply py_round_lower | apply py_round_upper];
      try reflexivity; lra.
  - split; [apply py_round_lower | apply py_round_upper];
      try reflexivity; lra.
  - apply py_round_mono. lra.
  - unfold uniform. lra.
  - unfold uniform. lra.
Qed.

Lemma fallback_ranges_witness :
  exists sample n,
    _get_fallback_data (Num 45) (Num 0) Examples.offline = Ok sample
    /\ sample !! "ndvi" = Some (Num n)
    /\ 0.4 <= n <= 0.7.
Proof.
  destruct (fallback_ranges 45 (Num 0) Examples.offline)
    as (sample & n & e & t & p & Hs & Hn & _ & _ & _ & Hr & _);
    try (vm_compute; split; discriminate).
  - vm_compute. discriminate.
  - exists sample, n. auto.
Defined.

Lemma simulated_ndvi_factors (temp precip : Q) :
  exists tf pf,
    0 <= tf <= 1 /\ 0 < pf <= 1
    /\ (tf <= 1 - Qabs (temp - 20) / 30 \/ tf == 0)
    /\ (precip <= 0 -> pf == 0.3)
    /\ (0 < precip -> pf <= precip / 10)
    /\ _calculate_simulated_ndvi temp precip
       = py_max 0 (py_min 0.95 ((tf * 0.6 + pf * 0.4) * 0.9)).
Proof.
  unfold _calculate_simulated_ndvi, py_abs. cbv zeta.
  exists (py_max 0 (py_min 1 (1 - Qabs (temp - 20) / 30))),
         (if ltb 0 precip then py_min (precip / 10) 1 else 0.3).
  split; [|split; [|split; [|split; [|split; [|reflexivity]]]]].
  - destruct (py_min_cases 1 (1 - Qabs (temp - 20) / 30)) as [[H ->]|[H ->]];
      match goal with |- _ <= py_max 0 ?y <= _ =>
        destruct (py_max_cases 0 y) as [[G ->]|[G ->]] end; lra.
  - destruct (ltb_cases 0 precip) as [[-> H]|[-> H]]; [|lra].
    destruct (py_min_cases (precip / 10) 1) as [[G ->]|[G ->]]; qlra.
  - destruct (py_min_cases 1 (1 - Qabs (temp - 20) / 30)) as [[H ->]|[H ->]];
      match goal with |- py_max 0 ?y <= _ \/ _ =>
        destruct (py_max_cases 0 y) as [[G ->]|[G ->]] end;
      try (left; lra); right; reflexivity.
  - intro H. destruct (ltb_cases 0 precip) as [[-> G]|[-> G]];
      [exfalso; lra | reflexivity].
  - intro H. destruct (ltb_cases 0 precip) as [[-> G]|[-> G]];
      [|exfalso; lra].
    destruct (py_min_cases (precip / 10) 1) as [[K ->]|[K ->]]; lra.
Qed.

Lemma simulated_ndvi_span (temp precip : Q) :
  0 < _calculate_simulated_ndvi temp precip <= 0.9
  /\ (precip <= 0 -> 0.108 <= _calculate_simulated_ndvi temp precip)
  /\ (temp <= 10 \/ 30 <= temp ->
      _calculate_simulated_ndvi temp precip <= 0.72).
Proof.
  destruct (simulated_ndvi_factors temp precip)
    as (tf & pf & Htf & Hpf & Htemp & Hdry & _ & ->).
  set (raw := (tf * 0.6 + pf * 0.4) * 0.9).
  assert (0 < raw <= 0.9) as Hraw by (subst raw; lra).
  assert (py_max 0 (py_min 0.95 raw) = raw) as ->.
  { destruct (py_min_cases 0.95 raw) as [[H ->]|[H ->]]; [|exfalso; lra].
    destruct (py_max_cases 0 raw) as [[H' ->]|[H' ->]];
      [reflexivity | exfalso; lra]. }
  split; [exact Hraw|]. split.
  - intro H. specialize (Hdry H). subst raw. lra.
  - intro H.
    assert (tf <= 2 # 3) as Ht.
    { destruct Htemp as [Ht | Ht]; [|lra].
      destruct (Qabs_cases (temp - 20)) as [[? E]|[? E]]; rewrite E in Ht;
        destruct H; try qlra;
        pose proof (Qabs_nonneg (temp - 20)); qlra. }
    subst raw. lra.
Qed.

(** X15: for a temperature and a precipitation within the range of
    binary64 the derived ndvi is at most 0.9 (up to the error of the
    evaluation), so the final clamp to [0, 0.95] never acts from above;
    without precipitation it is at least 0.108, and a sample at 10 degrees
    or colder, or at 30 degrees or hotter, has at most 0.72, both up to
    that error. *)
Theorem simulated_ndvi_reach (temp precip : Q) :
  finite temp -> in_range precip ->
  0 <= _calculate_simulated_ndvi temp precip <= 0.9 + slack
  /\ (precip <= 0 -> 0.108 - slack <= _calculate_simulated_ndvi temp precip)
  /\ (temp <= 10 \/ 30 <= temp ->
      _calculate_simulated_ndvi temp precip <= 0.72 + slack).
Proof.
  intros _ _.
  destruct (simulated_ndvi_span temp precip) as ([H0 H1] & Hdry & Hcold).
  unfold slack. split; [lra|]. split.
  - intro H. specialize (Hdry H). lra.
  - intro H. specialize (Hcold H). lra.
Qed.

Lemma simulated_ndvi_reach_witness :
  _calculate_simulated_ndvi 5 12 <= 0.72 + slack.
Proof.
  apply (proj2 (proj2 (simulated_ndvi_reach 5 12
                         ltac:(vm_compute; discriminate)
                         ltac:(split; [vm_compute; discriminate
                                      | right; vm_compute; discriminate])))).
  left. lra.
Defined.

(** X16: light rain gives less ndvi than no rain.  Without precipitation
    the factor is 0.3, with 0 < precip <= 3 it is precip / 10. *)
Theorem simulated_ndvi_light_rain (temp precip : Q) :
  0 < precip <= 3 ->
  _calculate_simulated_ndvi temp precip <= _calculate_simulated_ndvi temp 0.
Proof.
  intros [H0 H1].
  destruct (simulated_ndvi_factors temp precip)
    as (tf & pf & Htf & Hpf & _ & _ & Hwet & E).
  clear E.
  unfold _calculate_simulated_ndvi in *. cbv zeta in *.
  destruct (ltb_cases 0 precip) as [[Ep G]|[Ep G]]; [|exfalso; lra].
  destruct (ltb_cases 0 0) as [[E0 G']|[E0 G']]; [exfalso; lra|].
  rewrite Ep in *. rewrite E0 in *.
  set (t := py_max 0 (py_min 1 (1 - py_abs (temp - 20) / 30))) in *.
  assert (py_min (precip / 10) 1 <= 0.3) as Hp.
  { destruct (py_min_cases (precip / 10) 1) as [[K ->]|[K ->]]; qlra. }
  set (q := py_min (precip / 10) 1) in *.
  repeat match goal with
    | |- context [py_min ?a ?b] =>
        destruct (py_min_cases a b) as [[? ->]|[? ->]]
    | |- context [py_max ?a ?b] =>
        destruct (py_max_cases a b) as [[? ->]|[? ->]]
    end; lra.
Qed.

Lemma simulated_ndvi_light_rain_witness :
  _calculate_simulated_ndvi 20 1 <= _calculate_simulated_ndvi 20 0.
Proof.
  apply (simulated_ndvi_light_rain 20 1). split; lra.
Defined.

(** X17: a reply with status 200 is used only if its first temperature
    and precipitation values are numbers: with a string in their place
    the result is the fallback sample; with empty tables the temperature
    counts as 20 and the precipitation as 0, which gives ndvi 0.648 and
    evi 0.778. *)
Theorem get_vegetation_index_reply_body (lat lon : value)
  (date : option value) (w : world) (T2M PRECTOTCORR : list value) :
  reply w = Reply200 T2M PRECTOTCORR ->
  ((exists s, hd (Num 20) T2M = Str s)
   \/ (exists s, hd (Num 0) PRECTOTCORR = Str s) ->
   get_vegetation_index lat lon date w = _get_fallback_data lat lon w)
  /\ (T2M = [] -> PRECTOTCORR = [] ->
      exists sample n e,
        get_vegetation_index lat lon date w = Ok sample
        /\ sample !! "temperature" = Some (Num 20)
        /\ sample !! "precipitation" = Some (Num 0)
        /\ sample !! "ndvi" = Some (Num n) /\ n == 0.648
        /\ sample !! "evi" = Some (Num e) /\ e == 0.778).
Proof.
  intro Hr. split.
  - intros Hbad. unfold get_vegetation_index, lookup_attempt. rewrite Hr.
    destruct Hbad as [[s Hs] | [s Hs]].
    + rewrite Hs. reflexivity.
    + rewrite Hs. destruct (as_num (hd (Num 20) T2M)); reflexivity.
  - intros -> ->.
    destruct (primary_fields lat lon date w [] [] 20 0 Hr eq_refl eq_refl)
      as (sample & Hs & Hn & He & Ht & Hp & _).
    exists sample. do 2 eexists.
    split; [exact Hs|]. split; [exact Ht|]. split; [exact Hp|].
    split; [exact Hn|]. split; [vm_compute; reflexivity|].
    split; [exact He|]. vm_compute. reflexivity.
Qed.

Lemma get_vegetation_index_reply_body_witness :
  get_vegetation_index (Num 10) (Num 0) None
    (mkworld (Datetime.mkdate 2024 1 1) (Reply200 [Str "n/a"] [Num 3])
       (1 # 2) (1 # 4) (3 # 4))
  = _get_fallback_data (Num 10) (Num 0)
      (mkworld (Datetime.mkdate 2024 1 1) (Reply200 [Str "n/a"] [Num 3])
         (1 # 2) (1 # 4) (3 # 4)).
Proof.
  apply (proj1 (get_vegetation_index_reply_body (Num 10) (Num 0) None
                  (mkworld (Datetime.mkdate 2024 1 1)
                     (Reply200 [Str "n/a"] [Num 3]) (1 # 2) (1 # 4) (3 # 4))
                  [Str "n/a"] [Num 3] eq_refl)).
  left. exists "n/a"%string. reflexivity.
Defined.

End ClimateSourceMore.

(** ** Bloom prediction, on series of any shape *)

Section BloomPredictorMore.
Import PyNum Py Datetime DateText BloomDetector Series Binary64.

(** The scanning loop on a series without transition: only the ndvi of
    the entries is read. *)
Lemma scan_loop_flat (suf : list (gmap string value)) (ndvis : list Q) :
  Forall2 has_ndvi suf ndvis ->
  rises ndvis = false ->
  forall (pre : list (gmap string value)) (acc : list value),
    for_each (scan_pair (pre ++ suf)) (seq (length pre) (length suf - 1)) acc
    = Ok acc.
Proof.
  induction 1 as [|e q suf ndvis He Hrest IH]; intros Hflat pre acc.
  - reflexivity.
  - destruct Hrest as [|e2 q2 suf ndvis He2 Hrest].
    + reflexivity.
    + replace (length (e :: e2 :: suf) - 1)%nat with (S (length suf))
        by (cbn; lia).
      cbn [seq]. rewrite for_each_cons.
      cbn [rises] in Hflat. apply orb_false_iff in Hflat as [Hpair Hflat].
      specialize (IH Hflat (pre ++ [e])).
      replace ((pre ++ [e]) ++ e2 :: suf) with (pre ++ e :: e2 :: suf) in IH
        by (now rewrite <- app_assoc).
      replace (length (pre ++ [e])) with (S (length pre)) in IH
        by (rewrite length_app; cbn; lia).
      replace (length (e2 :: suf) - 1)%nat with (length suf) in IH
        by (cbn; lia).
      unfold scan_pair at 1.
      rewrite list_item_middle, list_item_middle_next. cbn [bind].
      unfold has_ndvi in He, He2.
      unfold dict_item. rewrite He2. cbn [bind py_gt].
      unfold bloom_threshold_ndvi, growth_rate_threshold.
      destruct (ltb 0.6 q2); cbn [andb] in Hpair.
      * rewrite He. cbn [bind py_sub py_gt]. rewrite Hpair. apply IH.
      * apply IH.
Qed.

Lemma rises_below (ndvis : list Q) :
  Forall (fun q => q <= 0.6)%Q ndvis -> rises ndvis = false.
Proof.
  induction 1 as [|q ndvis Hq Hrest IH]; [reflexivity|].
  destruct Hrest as [|q2 ndvis Hq2 Hrest]; [reflexivity|].
  change (rises (q :: q2 :: ndvis))
    with ((ltb 0.6 q2 && ltb 0.05 (q2 - q)%Q) || rises (q2 :: ndvis)).
  rewrite IH.
  assert (ltb 0.6 q2 = false) as -> by (now apply ltb_ge).
  reflexivity.
Qed.

Lemma may_rise_rises (ndvis : list Q) :
  may_rise ndvis = false -> rises ndvis = false.
Proof.
  induction ndvis as [|q ndvis IH]; [reflexivity|].
  destruct ndvis as [|q2 ndvis]; [reflexivity|].
  change (may_rise (q :: q2 :: ndvis))
    with ((ltb (0.6 - slack) q2 && ltb (0.05 - slack) (q2 - q)%Q)
          || may_rise (q2 :: ndvis)).
  change (rises (q :: q2 :: ndvis))
    with ((ltb 0.6 q2 && ltb 0.05 (q2 - q)%Q) || rises (q2 :: ndvis)).
  intro H. apply orb_false_iff in H as [Hpair Hrest].
  rewrite (IH Hrest), orb_false_r.
  apply andb_false_iff in Hpair as [Hp | Hp]; apply ltb_ge in Hp;
    apply andb_false_iff; [left | right]; apply ltb_ge;
    unfold slack in Hp; lra.
Qed.

(** X18: a series of at least fourteen entries with numbers under ndvi
    and no transition gets the no-pattern answer, with probability 0.3;
    its dates are not read, so they may be missing or malformed.  There is
    no transition when the values lie in [-1, 1] and no consecutive pair
    has its next value above 0.6 and a growth above 0.05, each short of
    the error of the evaluation; nor when the values, whatever they are,
    stay at or below 0.6. *)
Theorem predict_bloom_date_no_pattern (series : list (gmap string value))
  (ndvis : list Q) :
  Forall2 has_ndvi series ndvis ->
  (14 <= length series)%nat ->
  (forallb plain ndvis = true -> may_rise ndvis = false ->
   predict_bloom_date series
   = Ok {| Prediction.date := "No hay patrón histórico";
           Prediction.probability := 0.3;
           Prediction.peak_period := "Variable";
           Prediction.historical_blooms := None |})
  /\ (Forall (fun q => q <= 0.6)%Q ndvis ->
      predict_bloom_date series
      = Ok {| Prediction.date := "No hay patrón histórico";
              Prediction.probability := 0.3;
              Prediction.peak_period := "Variable";
              Prediction.historical_blooms := None |}).
Proof.
  intros Hs Hlen.
  assert (rises ndvis = false ->
          predict_bloom_date series
          = Ok {| Prediction.date := "No hay patrón histórico";
                  Prediction.probability := 0.3;
                  Prediction.peak_period := "Variable";
                  Prediction.historical_blooms := None |}) as Hflat.
  { intro Hflat. unfold predict_bloom_date.
    replace (length series <? 14)%nat with false
      by (symmetry; apply Nat.ltb_ge; lia).
    pose proof (scan_loop_flat series ndvis Hs Hflat [] []) as L.
    cbn [app length] in L. unfold range. rewrite L. reflexivity. }
  split.
  - intros _ H. apply Hflat, may_rise_rises, H.
  - intro H. apply Hflat, rises_below, H.
Qed.

Lemma predict_bloom_date_no_pattern_witness :
  predict_bloom_date (replicate 14 (<["ndvi" := Num 0.5]> ∅))
  = Ok {| Prediction.date := "No hay patrón histórico";
          Prediction.probability := 0.3;
          Prediction.peak_period := "Variable";
          Prediction.historical_blooms := None |}.
Proof.
  apply (proj1 (predict_bloom_date_no_pattern
                  (replicate 14 (<["ndvi" := Num 0.5]> ∅))
                  (replicate 14 0.5%Q)
                  ltac:(repeat constructor)
                  ltac:(cbn; lia))); reflexivity.
Defined.

(** X19: whatever [predict_bloom_date] returns, its probability lies in
    [0, 0.95]; when the answer counts historical blooms, the count is at
    least 1, the probability at least 0.65, and from seven blooms on it
    is 0.95. *)
Theorem predict_bloom_date_probability (series : list (gmap string value))
  (r : Prediction.t) :
  predict_bloom_date series = Ok r ->
  (0 <= Prediction.probability r <= 0.95)%Q
  /\ (forall n, Prediction.historical_blooms r = Some n ->
        (1 <= n)%nat
        /\ (0.65 <= Prediction.probability r)%Q
        /\ ((7 <= n)%nat -> (Prediction.probability r == 0.95)%Q)).
Proof.
  unfold predict_bloom_date.
  destruct (length series <? 14)%nat.
  { intros [= <-]. cbn. split; [lra | discriminate]. }
  destruct (for_each _ _ _) as [bloom_dates|]; [|discriminate].
  cbn [bind].
  destruct bloom_dates as [|v l].
  { intros [= <-]. cbn. split; [lra | discriminate]. }
  destruct (_calculate_average_interval (v :: l)); [|discriminate].
  cbn [bind].
  destruct (list_item_last (v :: l)); [|discriminate]. cbn [bind].
  destruct (strptime _); [|discriminate]. cbn [bind].
  destruct (add_days _ _); [|discriminate]. cbn [bind].
  intro E.
  apply (f_equal (fun x => match x with Ok a => a | Raise _ => r end)) in E.
  cbv beta iota in E. subst r.
  cbn [Prediction.probability Prediction.historical_blooms].
  set (n := length (v :: l)).
  assert (1 <= Z.of_nat n)%Z as Hn by (subst n; cbn [length]; lia).
  assert (1 <= inject_Z (Z.of_nat n))%Q as Hq
    by (change 1%Q with (inject_Z 1); now rewrite <- Zle_Qle).
  set (x := inject_Z (Z.of_nat n)) in *.
  assert (0.65 <= py_min 0.95 (0.6 + x * 0.05) <= 0.95)%Q as Hm.
  { destruct (py_min_cases 0.95 (0.6 + x * 0.05)%Q) as [[G ->]|[G ->]]; lra. }
  split; [|intros k [= <-]; split; [lia|split]].
  - split; [apply py_round_lower | apply py_round_upper];
      try reflexivity; lra.
  - apply py_round_lower; [reflexivity | lra].
  - intro H7.
    assert (7 <= x)%Q as Hx.
    { subst x. change 7%Q with (inject_Z 7). rewrite <- Zle_Qle. lia. }
    assert (py_min 0.95 (0.6 + x * 0.05) == 0.95)%Q as ->.
    { destruct (py_min_cases 0.95 (0.6 + x * 0.05)%Q) as [[G ->]|[G ->]];
        lra. }
    reflexivity.
Qed.

Lemma predict_bloom_date_probability_witness :
  match predict_bloom_date
          (Examples.entry_for <$> Examples.uneven_transitions) with
  | Ok r => (0 <= Prediction.probability r <= 0.95)%Q
  | Raise _ => False
  end.
Proof.
  destruct (predict_bloom_date
              (Examples.entry_for <$> Examples.uneven_transitions))
    as [r|e] eqn:E.
  - apply (proj1 (predict_bloom_date_probability _ r E)).
  - vm_compute in E. discriminate E.
Defined.

Lemma day_gaps_ends (mid : list date) :
  forall first final : date,
    fold_right Z.add 0%Z (Spec.day_gaps (first :: mid ++ [final]))
    = days_between final first
    /\ length (Spec.day_gaps (first :: mid ++ [final])) = S (length mid).
Proof.
  induction mid as [|t mid IH]; intros first final.
  - cbn. unfold days_between. split; [lia | reflexivity].
  - destruct (IH t final) as [Hs Hl].
    change (Spec.day_gaps (first :: (t :: mid) ++ [final]))
      with (days_between t first :: Spec.day_gaps (t :: mid ++ [final])).
    cbn [fold_right length]. rewrite Hs, Hl.
    unfold days_between. split; [lia | reflexivity].
Qed.

Lemma py_int_quot (a : Z) (p : positive) :
  py_int (inject_Z a / inject_Z (Z.pos p)) = Z.quot a (Z.pos p).
Proof.
  unfold py_int, Qdiv, Qmult, Qinv, inject_Z. cbn [Qnum Qden].
  now rewrite Z.mul_1_r, Pos.mul_1_l.
Qed.

(** X20: with two transition dates or more, the average interval is the
    span from the first to the last of them divided by the number of gaps,
    cut toward zero: the dates in between do not count.  For dates in
    ascending order it lies between 0 and that span. *)
Theorem average_interval_ends (first final : date) (mid : list date) :
  Forall Spec.well_formed_date (first :: mid ++ [final]) ->
  _calculate_average_interval (date_value <$> first :: mid ++ [final])
  = Ok (Z.quot (days_between final first) (Z.of_nat (S (length mid))))
  /\ ((toordinal first <= toordinal final)%Z ->
      (0 <= Z.quot (days_between final first) (Z.of_nat (S (length mid)))
       <= days_between final first)%Z).
Proof.
  intro Hd. split.
  - rewrite (average_interval_whole _ Hd). f_equal.
    unfold Spec.whole_interval.
    destruct (day_gaps_ends mid first final) as [Hs Hl].
    destruct (Spec.day_gaps (first :: mid ++ [final])) as [|g gaps] eqn:G;
      [discriminate Hl|].
    rewrite <- py_int_truncate. unfold Spec.mean. rewrite Hs, Hl.
    change (Z.of_nat (S (length mid)))
      with (Z.pos (Pos.of_succ_nat (length mid))).
    apply py_int_quot.
  - intro Hle. unfold days_between.
    set (span := (toordinal final - toordinal first)%Z).
    assert (0 <= span)%Z by (subst span; lia).
    assert (0 < Z.of_nat (S (length mid)))%Z by lia.
    rewrite Z.quot_div_nonneg by lia. split.
    + apply Z.div_pos; lia.
    + apply Z.div_le_upper_bound; [lia|]. nia.
Qed.

Lemma average_interval_ends_witness :
  _calculate_average_interval
    (date_value <$> [mkdate 2024 1 1; mkdate 2024 1 8; mkdate 2024 1 16])
  = Ok 7%Z.
Proof.
  apply (proj1 (average_interval_ends (mkdate 2024 1 1) (mkdate 2024 1 16)
                  [mkdate 2024 1 8] ltac:(repeat constructor))).
Defined.

(** X21: entries that lack a key.  In a series of at least fourteen
    entries, a second entry without ndvi raises KeyError('ndvi'), whatever
    the first entry holds; and when the first pair is a transition, a
    first entry without date raises KeyError('date'). *)
Theorem predict_bloom_date_missing_key (e0 e1 : gmap string value)
  (rest : list (gmap string value)) :
  (12 <= length rest)%nat ->
  (e1 !! "ndvi" = None ->
   predict_bloom_date (e0 :: e1 :: rest) = Raise (KeyError "ndvi"))
  /\ (forall q0 q1 : Q,
        e0 !! "ndvi" = Some (Num q0) -> e1 !! "ndvi" = Some (Num q1) ->
        (0.6 < q1)%Q -> (0.05 < q1 - q0)%Q ->
        e0 !! "date" = None ->
        predict_bloom_date (e0 :: e1 :: rest) = Raise (KeyError "date")).
Proof.
  intro Hlen.
  assert (forall acc,
             for_each (scan_pair (e0 :: e1 :: rest))
               (range (length (e0 :: e1 :: rest) - 1)) acc
             = bind (scan_pair (e0 :: e1 :: rest) acc 0)
                 (fun s => for_each (scan_pair (e0 :: e1 :: rest))
                             (seq 1 (length rest)) s)) as Hloop.
  { intro acc. unfold range.
    replace (length (e0 :: e1 :: rest) - 1)%nat with (S (length rest))
      by (cbn; lia).
    reflexivity. }
  assert (list_item (e0 :: e1 :: rest) 0 = Ok e0) as L0 by reflexivity.
  assert (list_item (e0 :: e1 :: rest) (0 + 1) = Ok e1) as L1 by reflexivity.
  split.
  - intro Hn. unfold predict_bloom_date.
    replace (length (e0 :: e1 :: rest) <? 14)%nat with false
      by (symmetry; apply Nat.ltb_ge; cbn; lia).
    rewrite Hloop. unfold scan_pair at 1. rewrite L0, L1. cbn [bind].
    unfold dict_item at 1. rewrite Hn. reflexivity.
  - intros q0 q1 H0 H1 Hq Hr Hd. unfold predict_bloom_date.
    replace (length (e0 :: e1 :: rest) <? 14)%nat with false
      by (symmetry; apply Nat.ltb_ge; cbn; lia).
    rewrite Hloop. unfold scan_pair at 1. rewrite L0, L1. cbn [bind].
    unfold dict_item at 1 2 3 4. rewrite H1. cbn [bind py_gt].
    unfold bloom_threshold_ndvi, growth_rate_threshold.
    assert (ltb 0.6 q1 = true) as -> by (now apply ltb_lt).
    rewrite H0. cbn [bind py_sub py_gt].
    assert (ltb 0.05 (q1 - q0)%Q = true) as -> by (now apply ltb_lt).
    rewrite Hd. reflexivity.
Qed.

Lemma predict_bloom_date_missing_key_witness :
  predict_bloom_date (∅ :: ∅ :: replicate 12 ∅) = Raise (KeyError "ndvi").
Proof.
  apply (proj1 (predict_bloom_date_missing_key ∅ ∅ (replicate 12 ∅)
                  ltac:(cbn; lia))).
  reflexivity.
Defined.

End BloomPredictorMore.

(** ** Samples of the climate source, scored and classified *)

Section Pipelines.
Import PyNum Py NASADataFetcher BloomDetector Parts.
Local Open Scope Q_scope.

(** Every sample of [get_vegetation_index], for a latitude in [-90, 90]
    and a first draw in [0, 1]. *)
Lemma sample_shape (lat : Q) (lon : value) (date : option value) (w : world) :
  Qabs lat <= 90 -> 0 <= random1 w <= 1 ->
  exists sample n e t p,
    get_vegetation_index (Num lat) lon date w = Ok sample
    /\ sample !! "ndvi" = Some (Num n)
    /\ sample !! "evi" = Some (Num e)
    /\ sample !! "temperature" = Some (Num t)
    /\ sample !! "precipitation" = Some (Num p)
    /\ 0 <= n <= 0.9 /\ n <= e
    /\ (t < 10 -> n <= 0.72).
Proof.
  intros Hlat Hu.
  destruct (get_vegetation_index_paths (Num lat) lon date w)
    as [(T & P & t & p & Hr & Ht & Hp) | ->].
  - destruct (primary_fields (Num lat) lon date w T P t p Hr Ht Hp)
      as (sample & Hs & Hn & He & H1 & H2 & _).
    exists sample. do 4 eexists.
    split; [exact Hs|]. split; [exact Hn|]. split; [exact He|].
    split; [exact H1|]. split; [exact H2|].
    destruct (simulated_ndvi_span t p) as ([Hpos Hmax] & _ & Hcold).
    split; [|split].
    + split; [apply py_round_lower | apply py_round_upper];
        try reflexivity; lra.
    + apply py_round_mono, derived_evi_ge. lra.
    + intro Hc. apply py_round_upper; [reflexivity|].
      apply Hcold. left. lra.
  - destruct (fallback_fields lat lon w)
      as (sample & Hs & Hn & He & H1 & H2 & _).
    exists sample. do 4 eexists.
    split; [exact Hs|]. split; [exact Hn|]. split; [exact He|].
    split; [exact H1|]. split; [exact H2|].
    pose proof (base_ndvi_range lat (random1 w) Hlat Hu) as Hb.
    split; [|split].
    + split; [apply py_round_lower | apply py_round_upper];
        try reflexivity; lra.
    + apply py_round_mono. lra.
    + intros _. apply py_round_upper; [reflexivity | lra].
Qed.

(** X22: scoring a sample of the climate source.  For a latitude in
    [-90, 90] and a first draw in [0, 1], whatever the reply,
    [analyze_bloom] accepts the sample [get_vegetation_index] returns and
    gives it a level in [0, 100]. *)
Theorem analyze_bloom_of_sample (lat : Q) (lon : value) (date : option value)
  (w : world) :
  Qabs lat <= 90 -> 0 <= random1 w <= 1 ->
  exists sample r,
    get_vegetation_index (Num lat) lon date w = Ok sample
    /\ analyze_bloom sample = Ok r
    /\ 0 <= Assessment.level r <= 100.
Proof.
  intros Hlat Hu.
  destruct (sample_shape lat lon date w Hlat Hu)
    as (sample & n & e & t & p & Hs & Hn & He & Ht & Hp & Hr & Hne & _).
  exists sample.
  unfold analyze_bloom, dict_get. rewrite Hn, He, Ht, Hp.
  cbn [as_num bind]. cbv zeta.
  destruct (status_band (_calculate_bloom_level n e t p)) as [[st c] col].
  eexists. split; [exact Hs|]. split; [reflexivity|].
  cbn [Assessment.level].
  destruct (calculate_bloom_level_span n e t p) as (Hup & Hlow & _).
  split; [apply Hlow; lra | exact Hup].
Qed.

Lemma analyze_bloom_of_sample_witness :
  exists sample r,
    get_vegetation_index (Num 45) (Num 0) None Examples.offline = Ok sample
    /\ analyze_bloom sample = Ok r
    /\ 0 <= Assessment.level r <= 100.
Proof.
  apply (analyze_bloom_of_sample 45 (Num 0) None Examples.offline);
    vm_compute; try split; discriminate.
Defined.

Lemma not_in_add (x : string) (hs ns : list string) (f : findings) :
  ~ In x hs -> ~ In x (hints f) -> ~ In x (hints (add hs ns f)).
Proof.
  intros H1 H2. unfold add. cbn [hints]. intro Hin.
  apply in_app_or in Hin as [Hin|Hin]; contradiction.
Qed.

Lemma not_in_when (x : string) (c : bool) (rule : findings -> findings)
  (f : findings) :
  (forall g, ~ In x (hints g) -> ~ In x (hints (rule g))) ->
  ~ In x (hints f) -> ~ In x (hints (when c rule f)).
Proof. intros Hr Hf. destruct c; cbn [when]; auto. Qed.

Ltac not_in_rule :=
  repeat first
    [ apply not_in_when; [intros ? ?|]
    | apply not_in_add; [cbn [In]; intuition discriminate |]
    | match goal with
      | |- ~ In _ (hints (if ?c then _ else _)) => destruct c
      end
    | assumption ].

Lemma band_no_alert (c1 c2 c3 c4 c5 c6 c7 : bool) (eco : string)
  (f0 : findings) :
  (if c1 then
     ("Tropical"%string,
      when c3
        (add ["Flores tropicales: Orquídeas, Heliconias, Jengibre"%string]
             ["Período óptimo para polinizadores"%string])
        (when c4
           (add ["Selva tropical densa"%string]
                ["Alta biodiversidad esperada"%string])
           {| hints := []; notes := [] |}))
   else if c2 then
     ("Templado"%string,
      when c5
        (add ["Flores silvestres de primavera"%string]
             ["Importante para polinizadores nativos"%string])
        (when c6
           (add ["Árboles frutales en floración"%string;
                 "Posibles especies: Cerezos, Manzanos, Duraznos"%string]
                ["Momento crítico para control de plagas"%string])
           {| hints := []; notes := [] |}))
   else
     ("Boreal/Polar"%string,
      when c7
        (add ["Tundra floreciente o bosque boreal"%string]
             ["Ventana corta de floración - sensible a cambio climático"%string])
        {| hints := []; notes := [] |}))
  = (eco, f0) ->
  ~ In "⚠️ ALERTA: Posible especie invasora"%string (hints f0).
Proof.
  assert (~ In "⚠️ ALERTA: Posible especie invasora"%string
            (hints {| hints := []; notes := [] |})) as H0 by (intros []).
  destruct c1; [|destruct c2]; intros [= <- <-]; not_in_rule.
Qed.

Lemma no_alert_in_hints (lat : Q) (lon : value)
  (date : option value) (w : world) (sample location : gmap string value)
  (r : Species.t) :
  Qabs lat <= 90 -> 0 <= random1 w <= 1 ->
  get_vegetation_index (Num lat) lon date w = Ok sample ->
  identify_species_type sample location = Ok r ->
  ~ In "⚠️ ALERTA: Posible especie invasora"%string (Species.species_hints r).
Proof.
  intros Hlat Hu Hs H.
  destruct (sample_shape lat lon date w Hlat Hu)
    as (sample' & n & e & t & p & Hs' & Hn & He & Ht & Hp & _ & _ & Hcold).
  assert (sample' = sample) as -> by congruence.
  unfold identify_species_type, dict_get in H.
  rewrite Hn, He, Ht, Hp in H. cbn [as_num bind] in H.
  destruct (as_num _) as [l|] in H; [|discriminate H].
  cbn [bind] in H. cbv zeta in H.
  assert (ltb 0.75 n && ltb t 10 = false) as Hguard.
  { destruct (ltb_cases t 10) as [[-> Hc]|[-> Hc]];
      [|apply andb_false_r].
    specialize (Hcold Hc).
    assert (ltb 0.75 n = false) as -> by (apply ltb_ge; lra). reflexivity. }
  rewrite Hguard in H.
  match type of H with
  | context [match ?pr with (_, _) => _ end] =>
      destruct pr as [eco f0] eqn:Eband
  end.
  apply band_no_alert in Eband.
  apply (f_equal (fun x => match x with Ok a => a | Raise _ => r end)) in H.
  cbv beta iota in H. subst r. cbn [Species.species_hints].
  match goal with
  | |- context [hints ?F] =>
      assert (~ In "⚠️ ALERTA: Posible especie invasora"%string (hints F))
        as HF by (cbn [when]; not_in_rule);
      destruct (hints F)
  end.
  - cbn [In]. intuition discriminate.
  - exact HF.
Qed.

Lemma identify_species_accepts (sd location : gmap string value)
  (n e t p lat : Q) :
  sd !! "ndvi" = Some (Num n) -> sd !! "evi" = Some (Num e) ->
  sd !! "temperature" = Some (Num t) ->
  sd !! "precipitation" = Some (Num p) ->
  location !! "lat" = Some (Num lat) ->
  exists r, identify_species_type sd location = Ok r.
Proof.
  intros Hn He Ht Hp Hl. unfold identify_species_type, dict_get.
  rewrite Hn, He, Ht, Hp, Hl. cbn [as_num bind]. cbv zeta.
  match goal with
  | |- context [match ?pr with (_, _) => _ end] => destruct pr as [eco f0]
  end.
  eexists. reflexivity.
Qed.

(** X23: the invasive-species alert cannot come from a sample of the
    climate source.  Its rule asks for ndvi > 0.75 in a sample colder than
    10 degrees; the primary path gives such a sample at most 0.72, and the
    fallback never more than 0.7.  So for a latitude in [-90, 90] and a
    first draw in [0, 1], and a location with a numeric latitude,
    [identify_species_type] accepts the sample [get_vegetation_index]
    returns and the alert is not among its hints. *)
Theorem identify_species_no_alert (lat : Q) (lon : value)
  (date : option value) (w : world) (location : gmap string value)
  (lat' : Q) :
  Qabs lat <= 90 -> 0 <= random1 w <= 1 ->
  location !! "lat" = Some (Num lat') ->
  exists sample r,
    get_vegetation_index (Num lat) lon date w = Ok sample
    /\ identify_species_type sample location = Ok r
    /\ ~ In "⚠️ ALERTA: Posible especie invasora"%string
          (Species.species_hints r).
Proof.
  intros Hlat Hu Hloc.
  destruct (sample_shape lat lon date w Hlat Hu)
    as (sample & n & e & t & p & Hs & Hn & He & Ht & Hp & _).
  destruct (identify_species_accepts sample location n e t p lat'
              Hn He Ht Hp Hloc) as [r Hr].
  exists sample, r. split; [exact Hs|]. split; [exact Hr|].
  exact (no_alert_in_hints lat lon date w sample location r Hlat Hu Hs Hr).
Qed.

Lemma identify_species_no_alert_witness :
  exists sample r,
    get_vegetation_index (Num 45) (Num 0) None Examples.offline = Ok sample
    /\ identify_species_type sample (<["lat" := Num 45]> ∅) = Ok r
    /\ ~ In "⚠️ ALERTA: Posible especie invasora"%string
          (Species.species_hints r).
Proof.
  apply (identify_species_no_alert 45 (Num 0) None Examples.offline
           (<["lat" := Num 45]> ∅) 45).
  - vm_compute. discriminate.
  - vm_compute. split; discriminate.
  - reflexivity.
Defined.

End Pipelines.

(** ** Days of the calendar *)

Section Calendar.
Import Py Datetime DateText NASASeries.
Local Open Scope Z_scope.

Lemma calendar_cycle (n : Z) : 1 <= n <= 146097 -> calendar_ok n = true.
Proof.
  intro H. apply (forallb_interval calendar_ok 1 146097);
    [vm_cast_no_check (eq_refl true) | lia].
Qed.

Lemma days_before_month_shift (y m q : Z) :
  _days_before_month (y + 400 * q) m = _days_before_month y m.
Proof. unfold _days_before_month. now rewrite is_leap_shift. Qed.

Lemma days_in_month_shift (y m q : Z) :
  _days_in_month (y + 400 * q) m = _days_in_month y m.
Proof. unfold _days_in_month. now rewrite is_leap_shift. Qed.

Lemma days_before_year_late (y : Z) :
  10000 <= y -> 3652059 <= _days_before_year y.
Proof. intro H. unfold _days_before_year. Z.div_mod_to_equations. lia. Qed.

Lemma ordinal_split (n : Z) :
  1 <= n ->
  exists q r, 0 <= r < 146097 /\ 0 <= q /\ n = 146097 * q + r + 1.
Proof.
  intro H1. exists ((n - 1) / 146097), ((n - 1) mod 146097).
  split; [apply Z.mod_pos_bound; lia|].
  split; [apply Z.div_pos; lia|].
  pose proof (Z.div_mod (n - 1) 146097 ltac:(lia)). lia.
Qed.

Lemma valid_date_fields (y m d : Z) :
  valid_date y m d = true <->
  1 <= y <= 9999 /\ 1 <= m <= 12 /\ 1 <= d <= _days_in_month y m.
Proof.
  unfold valid_date, MINYEAR, MAXYEAR.
  rewrite !andb_true_iff, !Z.leb_le. lia.
Qed.

Lemma cycle_day (r y m d : Z) :
  0 <= r < 146097 -> _ord2ymd (r + 1) = (y, m, d) ->
  1 <= y /\ 1 <= m <= 12 /\ 1 <= d <= _days_in_month y m
  /\ 0 <= _days_before_month y m.
Proof.
  intros Hr E. assert (1 <= r + 1 <= 146097) as Hr1 by lia.
  pose proof (calendar_cycle (r + 1) Hr1) as Hc.
  unfold calendar_ok in Hc. cbv zeta in Hc. rewrite E in Hc.
  cbn [fst snd] in Hc.
  apply andb_true_iff in Hc as [Hv Hb].
  apply Z.leb_le in Hb. apply valid_date_fields in Hv.
  clear Hr1 E Hr.
  destruct Hv as (? & ? & ?). repeat split; try lia.
Qed.

Lemma ymd2ord_ord2ymd (n y m d : Z) :
  1 <= n -> _ord2ymd n = (y, m, d) -> _ymd2ord y m d = n.
Proof.
  intros H E.
  assert (fromordinal n = mkdate y m d) as Ef
    by (unfold fromordinal; rewrite E; reflexivity).
  pose proof (toordinal_fromordinal n H) as Hord.
  rewrite Ef in Hord. exact Hord.
Qed.

(** The day of an ordinal of the calendar passes the check of the [date]
    constructor. *)
Lemma fromordinal_valid (n : Z) :
  1 <= n <= _MAXORDINAL -> Spec.well_formed_date (fromordinal n).
Proof.
  intros [H1 Hmax].
  destruct (ordinal_split n H1) as (q & r & Hr & Hq & E).
  destruct (_ord2ymd (r + 1)) as [[y m] d] eqn:Ec.
  assert (_ord2ymd n = (y + 400 * q, m, d)) as Es.
  { rewrite E, (ord2ymd_shift r q Hr), Ec. reflexivity. }
  pose proof (ymd2ord_ord2ymd n _ _ _ H1 Es) as Hord.
  destruct (cycle_day r y m d Hr Ec) as (Hy & Hm & Hd & Hb).
  unfold Spec.well_formed_date, fromordinal. rewrite Es.
  cbn [year month day].
  apply valid_date_fields. rewrite days_in_month_shift.
  split; [|split]; [|exact Hm | exact Hd].
  split; [lia|].
  destruct (Z_le_gt_dec (y + 400 * q) 9999) as [|Hgt]; [assumption|].
  pose proof (days_before_year_late (y + 400 * q) ltac:(lia)) as Hlate.
  unfold _ymd2ord in Hord. rewrite days_before_month_shift in Hord.
  unfold _MAXORDINAL in Hmax. lia.
Qed.

Lemma days_before_year_next (y : Z) :
  _days_before_year (y + 1)
  = _days_before_year y + 365 + (if _is_leap y then 1 else 0).
Proof.
  unfold _days_before_year, _is_leap. cbv zeta.
  replace (y + 1 - 1) with y by lia.
  destruct (y mod 4 =? 0) eqn:E4; destruct (y mod 100 =? 0) eqn:E100;
    destruct (y mod 400 =? 0) eqn:E400; cbn [andb orb negb];
    rewrite ?Z.eqb_eq, ?Z.eqb_neq in *;
    Z.div_mod_to_equations; lia.
Qed.

Lemma days_before_year_mono (y : Z) :
  1 <= y <= 9999 -> 0 <= _days_before_year y
                    /\ _days_before_year (y + 1) <= 3652059.
Proof.
  intro H. unfold _days_before_year. cbv zeta. Z.div_mod_to_equations. lia.
Qed.

Lemma days_in_year (y m d : Z) :
  1 <= m <= 12 -> 1 <= d <= _days_in_month y m ->
  1 <= _days_before_month y m + d <= 365 + (if _is_leap y then 1 else 0).
Proof.
  intros Hm Hd. unfold _days_in_month, _days_before_month in *.
  assert (m = 1 \/ m = 2 \/ m = 3 \/ m = 4 \/ m = 5 \/ m = 6 \/ m = 7
          \/ m = 8 \/ m = 9 \/ m = 10 \/ m = 11 \/ m = 12) as Hc by lia.
  destruct (_is_leap y);
    repeat (destruct Hc as [-> | Hc]); try subst m;
    cbv [table _DAYS_IN_MONTH _DAYS_BEFORE_MONTH nth Z.to_nat Pos.to_nat
         Pos.iter_op Init.Nat.add Z.eqb Z.ltb Z.compare Pos.compare
         Pos.compare_cont Pos.eqb andb] in *; lia.
Qed.

Lemma toordinal_range (t : date) :
  Spec.well_formed_date t -> 1 <= toordinal t <= _MAXORDINAL.
Proof.
  intro Hw. apply valid_date_fields in Hw as (Hy & Hm & Hd).
  unfold toordinal, _ymd2ord, _MAXORDINAL.
  pose proof (days_in_year _ _ _ Hm Hd).
  pose proof (days_before_year_next (year t)).
  pose proof (days_before_year_mono (year t) Hy). lia.
Qed.

End Calendar.

(** ** Order of the days *)

Section CalendarOrder.
Import PyNum Py Datetime DateText NASADataFetcher NASASeries NASATimeSeries Weekly.
Local Open Scope Z_scope.

Lemma days_before_year_le (y y' : Z) :
  y <= y' -> _days_before_year y <= _days_before_year y'.
Proof.
  intro H. unfold _days_before_year. cbv zeta. Z.div_mod_to_equations. lia.
Qed.

Lemma months_before (y m m' : Z) :
  1 <= m -> m < m' -> m' <= 12 ->
  _days_before_month y m + _days_in_month y m <= _days_before_month y m'.
Proof.
  intros H1 H2 H3. unfold _days_in_month, _days_before_month.
  assert (m = 1 \/ m = 2 \/ m = 3 \/ m = 4 \/ m = 5 \/ m = 6 \/ m = 7
          \/ m = 8 \/ m = 9 \/ m = 10 \/ m = 11) as Hc by lia.
  assert (m' = 2 \/ m' = 3 \/ m' = 4 \/ m' = 5 \/ m' = 6 \/ m' = 7
          \/ m' = 8 \/ m' = 9 \/ m' = 10 \/ m' = 11 \/ m' = 12) as Hc' by lia.
  destruct (_is_leap y);
    repeat (destruct Hc as [-> | Hc]); try subst m;
    repeat (destruct Hc' as [-> | Hc']); try subst m';
    try lia;
    cbv [table _DAYS_IN_MONTH _DAYS_BEFORE_MONTH nth Z.to_nat Pos.to_nat
         Pos.iter_op Init.Nat.add Z.eqb Z.ltb Z.compare Pos.compare
         Pos.compare_cont Pos.eqb andb]; lia.
Qed.

Lemma before_ordinal (t1 t2 : date) :
  Spec.well_formed_date t1 -> Spec.well_formed_date t2 ->
  before t1 t2 -> toordinal t1 < toordinal t2.
Proof.
  intros H1 H2 Hb.
  apply valid_date_fields in H1 as (Hy1 & Hm1 & Hd1).
  apply valid_date_fields in H2 as (Hy2 & Hm2 & Hd2).
  unfold toordinal, _ymd2ord.
  pose proof (days_in_year _ _ _ Hm1 Hd1) as Hin1.
  pose proof (days_in_year _ _ _ Hm2 Hd2) as Hin2.
  destruct Hb as [Hy | [Hy [Hm | [Hm Hd]]]].
  - pose proof (days_before_year_next (year t1)) as Hn.
    pose proof (days_before_year_le (year t1 + 1) (year t2) ltac:(lia)).
    lia.
  - rewrite Hy in *.
    pose proof (months_before (year t2) (month t1) (month t2)
                  ltac:(lia) Hm ltac:(lia)).
    lia.
  - rewrite Hy, Hm in *. lia.
Qed.

Lemma before_cases (t1 t2 : date) : before t1 t2 \/ t1 = t2 \/ before t2 t1.
Proof.
  destruct t1 as [y1 m1 d1], t2 as [y2 m2 d2]. unfold before.
  cbn [year month day].
  destruct (Z.lt_total y1 y2) as [?|[->|?]]; [lia| |lia].
  destruct (Z.lt_total m1 m2) as [?|[->|?]]; [lia| |lia].
  destruct (Z.lt_total d1 d2) as [?|[->|?]]; [lia| |lia].
  right. left. reflexivity.
Qed.

Lemma date_le_ordinal (t1 t2 : date) :
  Spec.well_formed_date t1 -> Spec.well_formed_date t2 ->
  date_le t1 t2 = (toordinal t1 <=? toordinal t2).
Proof.
  intros H1 H2.
  destruct (before_cases t1 t2) as [Hb | [-> | Hb]].
  - pose proof (before_ordinal t1 t2 H1 H2 Hb).
    replace (toordinal t1 <=? toordinal t2) with true
      by (symmetry; apply Z.leb_le; lia).
    unfold date_le, before in *.
    destruct (Z.ltb_spec (year t1) (year t2)); [reflexivity|].
    destruct (Z.eqb_spec (year t1) (year t2)); [|lia].
    destruct (Z.ltb_spec (month t1) (month t2)); [reflexivity|].
    destruct (Z.eqb_spec (month t1) (month t2)); [|lia].
    destruct (Z.leb_spec (day t1) (day t2)); [reflexivity|lia].
  - rewrite Z.leb_refl. unfold date_le.
    rewrite !Z.eqb_refl, Z.leb_refl, !orb_true_r. reflexivity.
  - pose proof (before_ordinal t2 t1 H2 H1 Hb).
    replace (toordinal t1 <=? toordinal t2) with false
      by (symmetry; apply Z.leb_gt; lia).
    unfold date_le, before in *.
    destruct (Z.ltb_spec (year t1) (year t2)); [lia|].
    destruct (Z.eqb_spec (year t1) (year t2)); [|reflexivity].
    destruct (Z.ltb_spec (month t1) (month t2)); [lia|].
    destruct (Z.eqb_spec (month t1) (month t2)); [|reflexivity].
    destruct (Z.leb_spec (day t1) (day t2)); [lia|reflexivity].
Qed.

Lemma fromordinal_toordinal (t : date) :
  Spec.well_formed_date t -> fromordinal (toordinal t) = t.
Proof.
  intro Hw. pose proof (toordinal_range t Hw) as Hr.
  pose proof (fromordinal_valid _ Hr) as Hw'.
  pose proof (toordinal_fromordinal (toordinal t) ltac:(lia)) as Ho.
  destruct (before_cases (fromordinal (toordinal t)) t) as [Hb | [E | Hb]].
  - pose proof (before_ordinal _ _ Hw' Hw Hb). lia.
  - exact E.
  - pose proof (before_ordinal _ _ Hw Hw' Hb). lia.
Qed.

Lemma year_ordinal (t1 t2 : date) :
  Spec.well_formed_date t1 -> Spec.well_formed_date t2 ->
  toordinal t1 <= toordinal t2 -> year t1 <= year t2.
Proof.
  intros H1 H2 Hle.
  destruct (Z_le_gt_dec (year t1) (year t2)) as [|Hgt]; [assumption|].
  assert (before t2 t1) as Hb by (left; lia).
  pose proof (before_ordinal t2 t1 H2 H1 Hb). lia.
Qed.

End CalendarOrder.

(** ** Series of daily samples *)

Section History.
Import PyNum Py Datetime DateText NASADataFetcher NASASeries BloomDetector.
Local Open Scope Z_scope.

Lemma add_days_back (end_date : date) (i : nat) :
  Z.of_nat i < toordinal end_date <= _MAXORDINAL ->
  add_days end_date (- Z.of_nat i) = Ok (day_back end_date i)
  /\ Spec.well_formed_date (day_back end_date i)
  /\ toordinal (day_back end_date i) = toordinal end_date - Z.of_nat i.
Proof.
  intros [Hi Hmax]. unfold add_days, day_back.
  replace (toordinal end_date + - Z.of_nat i)
    with (toordinal end_date - Z.of_nat i) by lia.
  replace ((0 <? toordinal end_date - Z.of_nat i)
           && (toordinal end_date - Z.of_nat i <=? _MAXORDINAL)) with true
    by (symmetry; apply andb_true_iff; split;
        [apply Z.ltb_lt | apply Z.leb_le]; lia).
  split; [reflexivity|]. split.
  - apply fromordinal_valid. lia.
  - apply toordinal_fromordinal. lia.
Qed.

Lemma sample_numbers (lat : Q) (lon : value) (date : option value)
  (w : world) :
  exists data n e,
    get_vegetation_index (Num lat) lon date w = Ok data
    /\ data !! "ndvi" = Some (Num n) /\ data !! "evi" = Some (Num e).
Proof.
  destruct (get_vegetation_index_paths (Num lat) lon date w)
    as [(T & P & t & p & Hr & Ht & Hp) | ->].
  - destruct (primary_fields (Num lat) lon date w T P t p Hr Ht Hp)
      as (sample & Hs & Hn & He & _).
    exists sample. eauto.
  - destruct (fallback_fields lat lon w) as (sample & Hs & Hn & He & _).
    exists sample. eauto.
Qed.

Lemma history_loop (lat : Q) (lon : value) (end_date : date)
  (calls : nat -> world) (len : nat) :
  forall (start : nat) (acc : list (gmap string value)),
    Z.of_nat (start + len) <= toordinal end_date <= _MAXORDINAL ->
    exists new,
      for_each
        (fun historical i =>
           let! day := add_days end_date (- Z.of_nat i) in
           let! data :=
             get_vegetation_index (Num lat) lon
               (Some (Str (strftime "" day))) (calls i) in
           let! ndvi := dict_item data "ndvi" in
           let! evi := dict_item data "evi" in
           Ok (historical
               ++ [<["date" := Str (strftime "" day)]>
                     (<["ndvi" := ndvi]> (<["evi" := evi]> ∅))]))
        (seq start len) acc
      = Ok (acc ++ new)
      /\ Forall2 (fun entry i =>
                    history_entry (Num lat) lon end_date calls entry i
                    /\ Spec.well_formed_date (day_back end_date i))
           new (seq start len).
Proof.
  set (body := fun (historical : list (gmap string value)) (i : nat) => _).
  induction len as [|len IH]; intros start acc Hr.
  - exists []. cbn. rewrite app_nil_r. split; [reflexivity | constructor].
  - cbn [seq]. rewrite for_each_cons. unfold body at 1.
    destruct (add_days_back end_date start ltac:(lia)) as (Ha & Hwf & _).
    rewrite Ha. cbn [bind].
    destruct (sample_numbers lat lon
                (Some (Str (strftime "" (day_back end_date start))))
                (calls start)) as (data & n & e & Hd & Hn & He).
    rewrite Hd. cbn [bind]. unfold dict_item. rewrite Hn, He. cbn [bind].
    destruct (IH (S start)
                (acc ++ [<["date" := Str (strftime "" (day_back end_date start))]>
                           (<["ndvi" := Num n]> (<["evi" := Num e]> ∅))])
                ltac:(lia)) as (new & Hl & Hf).
    exists (<["date" := Str (strftime "" (day_back end_date start))]>
              (<["ndvi" := Num n]> (<["evi" := Num e]> ∅)) :: new).
    split.
    + rewrite Hl, <- app_assoc. reflexivity.
    + constructor; [|exact Hf].
      split; [|exact Hwf]. exists data, n, e. auto.
Qed.

Lemma historical_entries (lat : Q) (lon : value) (days : Z) (end_date : date)
  (calls : nat -> world) :
  Spec.well_formed_date end_date -> days <= toordinal end_date ->
  exists new,
    get_historical_data (Num lat) lon days end_date calls = Ok (reverse new)
    /\ Forall2 (fun entry i =>
                  history_entry (Num lat) lon end_date calls entry i
                  /\ Spec.well_formed_date (day_back end_date i))
         new (seq 0 (Z.to_nat days)).
Proof.
  intros Hw Hr. pose proof (toordinal_range end_date Hw) as Ho.
  unfold get_historical_data, range.
  destruct (history_loop lat lon end_date calls (Z.to_nat days) 0 []
              ltac:(lia)) as (new & Hl & Hf).
  rewrite Hl. cbn [bind app]. exists new. split; [|exact Hf].
  now rewrite rev_alt.
Qed.

(** X24: one entry per day back.  For a numeric latitude and a clock
    whose day lies at least the asked number of days after 1000-01-01
    (from that day on the year is written with four digits),
    [get_historical_data] returns one entry per day asked for, oldest
    first: the entry at position k is for the day [days - 1 - k] days
    before the clock's day, holds the text of that day under date, and
    under ndvi and evi the numbers of the sample fetched for that text;
    the day is in the year 1000 or later. *)
Theorem get_historical_data_days (lat : Q) (lon : value) (days : Z)
  (end_date : date) (calls : nat -> world) :
  Spec.well_formed_date end_date ->
  toordinal (mkdate 1000 1 1) + days <= toordinal end_date ->
  exists historical,
    get_historical_data (Num lat) lon days end_date calls = Ok historical
    /\ length historical = Z.to_nat days
    /\ forall k : nat, (k < Z.to_nat days)%nat ->
         let i := (Z.to_nat days - 1 - k)%nat in
         exists entry,
           historical !! k = Some entry
           /\ history_entry (Num lat) lon end_date calls entry i
           /\ Spec.well_formed_date (day_back end_date i)
           /\ toordinal (day_back end_date i) = toordinal end_date - Z.of_nat i
           /\ 1000 <= year (day_back end_date i).
Proof.
  intros Hw Hfirst. pose proof (toordinal_range end_date Hw) as Hto.
  assert (days <= toordinal end_date) as Hr
    by (rewrite first_padded_day in Hfirst; lia).
  destruct (historical_entries lat lon days end_date calls Hw Hr)
    as (new & Hh & Hf).
  pose proof (Forall2_length _ _ _ Hf) as Hlen. rewrite length_seq in Hlen.
  exists (reverse new). split; [exact Hh|].
  split; [now rewrite length_reverse|].
  intros k Hk i.
  rewrite reverse_lookup by lia. rewrite Hlen.
  replace (Z.to_nat days - S k)%nat with i by lia.
  destruct (Forall2_lookup_r _ _ _ i i Hf) as (entry & He & Hent & Hwi).
  { apply lookup_seq. lia. }
  exists entry. split; [exact He|]. split; [exact Hent|].
  split; [exact Hwi|].
  destruct (add_days_back end_date i ltac:(lia)) as (_ & _ & Ho).
  split; [exact Ho|].
  apply (year_ordinal (mkdate 1000 1 1) (day_back end_date i));
    [reflexivity | exact Hwi |].
  rewrite Ho. lia.
Qed.

Lemma ascending_from_weaken (days : list date) (lo lo' : Z) :
  lo' <= lo -> ascending_from lo days -> ascending_from lo' days.
Proof.
  destruct days as [|t days]; cbn; [auto|].
  intros ? [? ?]. split; [lia | assumption].
Qed.

Lemma transitions_ascending (samples : list Spec.sample) :
  forall lo : Z,
    ascending_from lo (snd <$> samples) ->
    ascending_from lo (Spec.transitions samples).
Proof.
  induction samples as [|s samples IH]; intros lo H; [exact I|].
  destruct samples as [|s2 samples]; [exact I|].
  rewrite fmap_cons in H. destruct H as [Hlo Hrest].
  change (Spec.transitions (s :: s2 :: samples))
    with (if Spec.is_transition s s2
          then snd s :: Spec.transitions (s2 :: samples)
          else Spec.transitions (s2 :: samples)).
  specialize (IH _ Hrest).
  destruct (Spec.is_transition s s2).
  - split; assumption.
  - apply (ascending_from_weaken _ (toordinal (snd s))); assumption.
Qed.

Lemma transitions_all (P : date -> Prop) (samples : list Spec.sample) :
  Forall P (snd <$> samples) -> Forall P (Spec.transitions samples).
Proof.
  induction samples as [|s samples IH]; intro H; [constructor|].
  destruct samples as [|s2 samples]; [constructor|].
  rewrite fmap_cons in H. apply Forall_cons in H as [Hs Hrest].
  change (Spec.transitions (s :: s2 :: samples))
    with (if Spec.is_transition s s2
          then snd s :: Spec.transitions (s2 :: samples)
          else Spec.transitions (s2 :: samples)).
  specialize (IH Hrest).
  destruct (Spec.is_transition s s2); [constructor|]; assumption.
Qed.

Lemma ascending_ends (mid : list date) :
  forall (lo : Z) (first final : date),
    ascending_from lo (first :: mid ++ [final]) ->
    lo <= toordinal first <= toordinal final.
Proof.
  induction mid as [|t mid IH]; intros lo first final H.
  - cbn in H. lia.
  - destruct H as [H1 H2]. specialize (IH _ t final H2). lia.
Qed.

Lemma whole_interval_ends (first final : date) (mid : list date) :
  Spec.whole_interval (first :: mid ++ [final])
  = Z.quot (days_between final first) (Z.of_nat (S (length mid))).
Proof.
  unfold Spec.whole_interval.
  destruct (day_gaps_ends mid first final) as [Hs Hl].
  destruct (Spec.day_gaps (first :: mid ++ [final])) as [|g gaps] eqn:G;
    [discriminate Hl|].
  rewrite <- py_int_truncate. unfold Spec.mean. rewrite Hs, Hl.
  change (Z.of_nat (S (length mid)))
    with (Z.pos (Pos.of_succ_nat (length mid))).
  apply py_int_quot.
Qed.

Lemma interval_range (dates : list date) (lo hi : Z) (final : date) :
  ascending_from lo dates ->
  Forall (fun t => toordinal t <= hi) dates ->
  last dates = Some final ->
  lo <= toordinal final + Spec.whole_interval dates
  <= hi + Z.max 90 (hi - lo).
Proof.
  intros Ha Hf Hl. destruct dates as [|first rest]; [discriminate|].
  destruct rest as [|x mid _] using rev_ind.
  - cbn in Hl. injection Hl as <-. cbn in Ha.
    apply Forall_cons in Hf as [Hf _].
    change (Spec.whole_interval [first]) with 90. lia.
  - rewrite app_comm_cons, last_snoc in Hl. injection Hl as <-.
    rewrite whole_interval_ends.
    pose proof (ascending_ends mid lo first x Ha) as Hends.
    rewrite app_comm_cons in Hf. apply Forall_app in Hf as [_ Hf].
    apply Forall_cons in Hf as [Hf _].
    unfold days_between.
    set (span := toordinal x - toordinal first).
    assert (0 <= span) by (subst span; lia).
    assert (0 < Z.of_nat (S (length mid))) by lia.
    assert (0 <= Z.quot span (Z.of_nat (S (length mid))) <= span) as Hq.
    { rewrite Z.quot_div_nonneg by lia. split.
      - apply Z.div_pos; lia.
      - apply Z.div_le_upper_bound; [lia|]. nia. }
    subst span. lia.
Qed.

Lemma history_days (lat lon : value) (end_date : date)
  (calls : nat -> world) (n : nat) :
  Z.of_nat n <= toordinal end_date ->
  ascending_from (toordinal end_date - Z.of_nat n + 1)
    (snd <$> reverse (sample_back lat lon end_date calls <$> seq 0 n))
  /\ Forall (fun t => toordinal t <= toordinal end_date)
       (snd <$> reverse (sample_back lat lon end_date calls <$> seq 0 n)).
Proof.
  induction n as [|n IH]; intro Hn; [split; [exact I | constructor]|].
  destruct (IH ltac:(lia)) as [Ha Hf].
  assert (snd <$> reverse (sample_back lat lon end_date calls
                           <$> seq 0 (S n))
          = day_back end_date n
            :: (snd <$> reverse (sample_back lat lon end_date calls
                                 <$> seq 0 n))) as E.
  { rewrite seq_S, fmap_app, reverse_app. reflexivity. }
  assert (toordinal (day_back end_date n) = toordinal end_date - Z.of_nat n)
    as Ho by (apply toordinal_fromordinal; lia).
  split.
  - refine (eq_ind_r (ascending_from _) _ E).
    cbn [ascending_from]. split; [lia|]. rewrite Ho.
    apply (ascending_from_weaken _ (toordinal end_date - Z.of_nat n + 1));
      [lia | exact Ha].
  - rewrite E. constructor; [lia | exact Hf].
Qed.

Lemma historical_samples (lat : Q) (lon : value) (days : Z) (end_date : date)
  (calls : nat -> world) :
  Spec.well_formed_date end_date -> days <= toordinal end_date ->
  exists historical,
    get_historical_data (Num lat) lon days end_date calls = Ok historical
    /\ length historical = Z.to_nat days
    /\ Forall2 Spec.entry_of historical
         (reverse (sample_back (Num lat) lon end_date calls
                   <$> seq 0 (Z.to_nat days))).
Proof.
  intros Hw Hr.
  destruct (historical_entries lat lon days end_date calls Hw Hr)
    as (new & Hh & Hf).
  pose proof (Forall2_length _ _ _ Hf) as Hlen. rewrite length_seq in Hlen.
  exists (reverse new). split; [exact Hh|].
  split; [now rewrite length_reverse|].
  apply Forall2_reverse, Forall2_fmap_r.
  eapply Forall2_impl; [exact Hf|].
  intros entry i [(data & n & e & Hd & Hn & He & ->) Hwi].
  unfold compose, Spec.entry_of, Spec.date_text, sample_back, ndvi_back.
  cbn [fst snd]. rewrite Hd, Hn. split; [|split; [|exact Hwi]].
  - rewrite lookup_insert_ne by discriminate. apply lookup_insert_eq.
  - apply lookup_insert_eq.
Qed.

Lemma get_historical_data_days_witness :
  exists historical,
    get_historical_data (Num 45) (Num 0) 3 (mkdate 2024 3 1)
      (fun _ => Examples.offline) = Ok historical
    /\ length historical = Z.to_nat 3
    /\ forall k : nat, (k < Z.to_nat 3)%nat ->
         let i := (Z.to_nat 3 - 1 - k)%nat in
         exists entry,
           historical !! k = Some entry
           /\ history_entry (Num 45) (Num 0) (mkdate 2024 3 1)
                (fun _ => Examples.offline) entry i
           /\ Spec.well_formed_date (day_back (mkdate 2024 3 1) i)
           /\ toordinal (day_back (mkdate 2024 3 1) i)
              = toordinal (mkdate 2024 3 1) - Z.of_nat i
           /\ 1000 <= year (day_back (mkdate 2024 3 1) i).
Proof.
  apply (get_historical_data_days 45 (Num 0) 3 (mkdate 2024 3 1)
           (fun _ => Examples.offline)).
  - reflexivity.
  - vm_compute. discriminate.
Defined.

(** X25: the series of [get_historical_data] is always accepted by
    [predict_bloom_date].  For a numeric latitude and a clock whose day
    lies at least the asked number of days after 1000-01-01 (from that
    day on the year is written with four digits) and at least
    max(90, days) days before 9999-12-31, the prediction made from the
    series returns a result on every behaviour of the remote service: no
    entry lacks a key, no date fails to parse and the predicted date
    stays within the calendar. *)
Theorem predict_bloom_date_of_history (lat : Q) (lon : value) (days : Z)
  (end_date : date) (calls : nat -> world) :
  Spec.well_formed_date end_date ->
  toordinal (mkdate 1000 1 1) + days <= toordinal end_date ->
  toordinal end_date + Z.max 90 days <= _MAXORDINAL ->
  exists historical r,
    get_historical_data (Num lat) lon days end_date calls = Ok historical
    /\ predict_bloom_date historical = Ok r.
Proof.
  intros Hw Hfirst Hmax.
  pose proof (toordinal_range end_date Hw) as Hto.
  assert (days <= toordinal end_date) as Hr
    by (rewrite first_padded_day in Hfirst; lia).
  destruct (historical_samples lat lon days end_date calls Hw Hr)
    as (historical & Hh & Hlen & Hs).
  exists historical.
  set (samples := reverse (sample_back (Num lat) lon end_date calls
                           <$> seq 0 (Z.to_nat days))) in *.
  destruct (Nat.lt_ge_cases (length historical) 14) as [Hshort|Hlong].
  { eexists. split; [exact Hh|]. unfold predict_bloom_date.
    replace (length historical <? 14)%nat with true
      by (symmetry; apply Nat.ltb_lt; lia).
    reflexivity. }
  destruct (last (Spec.transitions samples)) as [last_t|] eqn:Hlast.
  - eexists. split; [exact Hh|].
    apply (predict_bloom_date_general historical samples last_t Hs Hlong
             Hlast).
    destruct (history_days (Num lat) lon end_date calls (Z.to_nat days)
                ltac:(lia)) as [Ha Hf].
    fold samples in Ha, Hf.
    pose proof (interval_range _ _ _ last_t
                  (transitions_ascending samples _ Ha)
                  (transitions_all _ samples Hf) Hlast).
    lia.
  - apply last_None in Hlast.
    eexists. split; [exact Hh|]. unfold predict_bloom_date.
    replace (length historical <? 14)%nat with false
      by (symmetry; apply Nat.ltb_ge; lia).
    pose proof (scan_loop historical samples Hs [] []) as L.
    cbn [app length] in L. unfold range. rewrite L. cbn [bind].
    rewrite Hlast. reflexivity.
Qed.

Lemma predict_bloom_date_of_history_witness :
  exists historical r,
    get_historical_data (Num 45) (Num 0) 90 (mkdate 2024 3 1)
      (fun _ => Examples.offline) = Ok historical
    /\ predict_bloom_date historical = Ok r.
Proof.
  apply (predict_bloom_date_of_history 45 (Num 0) 90 (mkdate 2024 3 1)
           (fun _ => Examples.offline)).
  - reflexivity.
  - vm_compute. discriminate.
  - vm_compute. discriminate.
Defined.

End History.

(** ** Weekly series between two dates *)

Section TimeSeriesLoop.
Import PyNum Py Datetime DateText NASADataFetcher NASASeries NASATimeSeries Weekly.
Local Open Scope Z_scope.

Lemma strptime_dashed_valid (v : value) (t : date) :
  strptime_dashed v = Ok t -> Spec.well_formed_date t.
Proof.
  unfold strptime_dashed, make_date, Spec.well_formed_date.
  destruct v as [q|s]; [discriminate|].
  destruct (re_Y_m_d s) as [[[[y m] d] [|c r]]|]; try discriminate.
  destruct (valid_date y m d) eqn:E; [|discriminate].
  intro H. injection H as <-. exact E.
Qed.

Lemma events_of_app (l1 l2 : list (string * Q)) :
  events_of (l1 ++ l2) = events_of l1 ++ events_of l2.
Proof. unfold events_of. apply flat_map_app. Qed.

Lemma events_of_one (d : string) (n : Q) :
  events_of [(d, n)]
  = if ltb 0.6 n then [TimeSeries.mkevent d (Num n)] else [].
Proof.
  unfold events_of. cbn [flat_map fst snd]. now rewrite app_nil_r.
Qed.

(** One pass for a numeric latitude: the sample is there and holds
    numbers, so only the step to the next week can fail. *)
Lemma time_series_step_numeric (lat : Q) (lon : value) (w : world)
  (current : date) (acc : TimeSeries.t) :
  exists data n e,
    get_vegetation_index (Num lat) lon (Some (Str (strftime "" current))) w
    = Ok data
    /\ data !! "ndvi" = Some (Num n) /\ data !! "evi" = Some (Num e)
    /\ time_series_step (Num lat) lon w current acc
       = let! next := add_days current 7 in
         Ok (next,
             TimeSeries.mk
               (TimeSeries.dates acc ++ [strftime "-" current])
               (TimeSeries.ndvi acc ++ [Num n])
               (TimeSeries.evi acc ++ [Num e])
               (TimeSeries.bloom_events acc
                ++ events_of [(strftime "-" current, n)])).
Proof.
  destruct (sample_numbers lat lon (Some (Str (strftime "" current))) w)
    as (data & n & e & Hd & Hn & He).
  exists data, n, e. split; [exact Hd|]. split; [exact Hn|].
  split; [exact He|].
  unfold time_series_step. rewrite Hd. cbn [bind].
  unfold dict_item. rewrite Hn, He. cbn [bind py_gt].
  rewrite events_of_one.
  destruct (ltb 0.6 n); [reflexivity|]. now rewrite app_nil_r.
Qed.

Lemma week_day_ordinal (start : date) (k : nat) :
  Spec.well_formed_date start ->
  toordinal start + 7 * Z.of_nat k <= _MAXORDINAL ->
  Spec.well_formed_date (week_day start k)
  /\ toordinal (week_day start k) = toordinal start + 7 * Z.of_nat k.
Proof.
  intros Hw Hmax. pose proof (toordinal_range start Hw). unfold week_day.
  split; [apply fromordinal_valid | apply toordinal_fromordinal]; lia.
Qed.

Lemma weeks_passes (start end_ : date) (k : nat) :
  (k < weeks start end_)%nat <->
  toordinal start + 7 * Z.of_nat k <= toordinal end_.
Proof.
  unfold weeks.
  set (span := toordinal end_ - toordinal start).
  assert (toordinal end_ = toordinal start + span) as -> by (subst span; lia).
  clearbody span. split; intro H.
  - assert (Z.of_nat k < span / 7 + 1) by lia.
    Z.div_mod_to_equations. lia.
  - assert (Z.of_nat k < span / 7 + 1) by (Z.div_mod_to_equations; lia).
    lia.
Qed.

Lemma weekly_series_next (lat lon : value) (start : date)
  (calls : nat -> world) (k : nat) :
  weekly_series lat lon start calls (S k)
  = TimeSeries.mk
      (TimeSeries.dates (weekly_series lat lon start calls k)
       ++ [week_text start k])
      (TimeSeries.ndvi (weekly_series lat lon start calls k)
       ++ [Num (week_number lat lon start calls "ndvi" k)])
      (TimeSeries.evi (weekly_series lat lon start calls k)
       ++ [Num (week_number lat lon start calls "evi" k)])
      (TimeSeries.bloom_events (weekly_series lat lon start calls k)
       ++ events_of [(week_text start k,
                      week_number lat lon start calls "ndvi" k)]).
Proof.
  unfold weekly_series. cbv zeta. cbn [TimeSeries.dates TimeSeries.ndvi
    TimeSeries.evi TimeSeries.bloom_events].
  rewrite seq_S, !fmap_app, events_of_app. reflexivity.
Qed.

Lemma week_day_next (start : date) (k : nat) :
  Spec.well_formed_date start ->
  toordinal start + 7 * Z.of_nat (S k) <= _MAXORDINAL ->
  add_days (week_day start k) 7 = Ok (week_day start (S k)).
Proof.
  intros Hw Hmax. pose proof (toordinal_range start Hw).
  destruct (week_day_ordinal start k Hw ltac:(lia)) as [_ Ho].
  unfold add_days. rewrite Ho.
  replace ((0 <? toordinal start + 7 * Z.of_nat k + 7)
           && (toordinal start + 7 * Z.of_nat k + 7 <=? _MAXORDINAL))
    with true
    by (symmetry; apply andb_true_iff; split;
        [apply Z.ltb_lt | apply Z.leb_le]; lia).
  unfold week_day. do 2 f_equal. lia.
Qed.

Lemma week_day_last (start : date) (k : nat) :
  Spec.well_formed_date start ->
  toordinal start + 7 * Z.of_nat k <= _MAXORDINAL ->
  _MAXORDINAL < toordinal start + 7 * Z.of_nat (S k) ->
  add_days (week_day start k) 7 = Raise OverflowError.
Proof.
  intros Hw Hk Hmax.
  destruct (week_day_ordinal start k Hw Hk) as [_ Ho].
  unfold add_days. rewrite Ho.
  replace (toordinal start + 7 * Z.of_nat k + 7 <=? _MAXORDINAL)
    with false by (symmetry; apply Z.leb_gt; lia).
  now rewrite andb_false_r.
Qed.

(** A pass of the loop on a day that is not after [end_]. *)
Lemma time_series_pass (lat : Q) (lon : value) (start end_ : date)
  (calls : nat -> world) (fuel k : nat) :
  Spec.well_formed_date start -> Spec.well_formed_date end_ ->
  (k < weeks start end_)%nat ->
  time_series_loop (S fuel) (Num lat) lon end_ calls k (week_day start k)
    (weekly_series (Num lat) lon start calls k)
  = match add_days (week_day start k) 7 with
    | Ok next =>
        time_series_loop fuel (Num lat) lon end_ calls (S k) next
          (weekly_series (Num lat) lon start calls (S k))
    | Raise e => Some (Raise e)
    end.
Proof.
  intros Hs He Hk. pose proof (toordinal_range end_ He) as Hre.
  apply weeks_passes in Hk.
  destruct (week_day_ordinal start k Hs ltac:(lia)) as [Hw Ho].
  cbn [time_series_loop].
  rewrite (date_le_ordinal _ _ Hw He), Ho.
  replace (toordinal start + 7 * Z.of_nat k <=? toordinal end_) with true
    by (symmetry; apply Z.leb_le; lia).
  destruct (time_series_step_numeric lat lon (calls k) (week_day start k)
              (weekly_series (Num lat) lon start calls k))
    as (data & n & e & Hd & Hn & Hev & ->).
  destruct (add_days (week_day start k) 7) as [next|x]; [|reflexivity].
  cbn [bind]. rewrite weekly_series_next.
  unfold week_number, week_text. rewrite Hd, Hn, Hev. reflexivity.
Qed.

Lemma weekly_loop (lat : Q) (lon : value) (start end_ : date)
  (calls : nat -> world) :
  Spec.well_formed_date start -> Spec.well_formed_date end_ ->
  toordinal start + 7 * Z.of_nat (weeks start end_) <= _MAXORDINAL ->
  forall (j k fuel : nat),
    (k + j = weeks start end_)%nat -> (j < fuel)%nat ->
    time_series_loop fuel (Num lat) lon end_ calls k (week_day start k)
      (weekly_series (Num lat) lon start calls k)
    = Some (Ok (weekly_series (Num lat) lon start calls (weeks start end_))).
Proof.
  intros Hs He Hmax.
  induction j as [|j IH]; intros k fuel Hk Hf;
    (destruct fuel as [|fuel]; [lia|]).
  - replace (k + 0)%nat with k in Hk by lia. subst k.
    destruct (week_day_ordinal start (weeks start end_) Hs Hmax) as [Hw Ho].
    cbn [time_series_loop]. rewrite (date_le_ordinal _ _ Hw He), Ho.
    assert (~ (weeks start end_ < weeks start end_)%nat) as Hn by lia.
    rewrite weeks_passes in Hn.
    replace (toordinal start + 7 * Z.of_nat (weeks start end_)
             <=? toordinal end_) with false
      by (symmetry; apply Z.leb_gt; lia).
    reflexivity.
  - rewrite (time_series_pass lat lon start end_ calls fuel k Hs He
               ltac:(lia)).
    rewrite (week_day_next start k Hs ltac:(lia)).
    apply IH; lia.
Qed.

Lemma weekly_loop_overflow (lat : Q) (lon : value) (start end_ : date)
  (calls : nat -> world) :
  Spec.well_formed_date start -> Spec.well_formed_date end_ ->
  _MAXORDINAL < toordinal start + 7 * Z.of_nat (weeks start end_) ->
  forall (j k fuel : nat),
    (k + S j = weeks start end_)%nat -> (j < fuel)%nat ->
    time_series_loop fuel (Num lat) lon end_ calls k (week_day start k)
      (weekly_series (Num lat) lon start calls k)
    = Some (Raise OverflowError).
Proof.
  intros Hs He Hmax. pose proof (toordinal_range end_ He) as Hre.
  induction j as [|j IH]; intros k fuel Hk Hf;
    (destruct fuel as [|fuel]; [lia|]).
  - assert (k < weeks start end_)%nat as Hlt by lia.
    rewrite (time_series_pass lat lon start end_ calls fuel k Hs He Hlt).
    apply weeks_passes in Hlt.
    rewrite (week_day_last start k Hs ltac:(lia)); [reflexivity|].
    replace (S k) with (weeks start end_) by lia. exact Hmax.
  - assert (k < weeks start end_)%nat as Hlt by lia.
    assert (S k < weeks start end_)%nat as Hlt' by lia.
    rewrite (time_series_pass lat lon start end_ calls fuel k Hs He Hlt).
    apply weeks_passes in Hlt'.
    rewrite (week_day_next start k Hs ltac:(lia)).
    apply IH; lia.
Qed.

Lemma time_series_start (lat lon : value) (start : date)
  (calls : nat -> world) :
  Spec.well_formed_date start ->
  week_day start 0 = start
  /\ weekly_series lat lon start calls 0 = TimeSeries.mk [] [] [] [].
Proof.
  intro Hs. split; [|reflexivity].
  unfold week_day. replace (toordinal start + 7 * Z.of_nat 0)
    with (toordinal start) by lia.
  now apply fromordinal_toordinal.
Qed.

(** X26: the weekly passes of [get_time_series], for a numeric latitude
    and two texts that parse under [%Y-%m-%d] to the days [start] and
    [end_], [start] in the year 1000 or later (from then on the year is
    written with four digits).  The loop makes (end_ - start) div 7 + 1
    passes, one every seventh day from [start] while the day is not
    after [end_]; provided the day a week after the last
    pass is still in the calendar, the function returns the series of
    these passes: the days in the dashed form, the ndvi and evi numbers
    of the samples fetched for the compact texts of the days, and as
    bloom events the dated ndvi numbers above 0.6.  No day of a pass is
    after [end_] or before the year 1000.  With [end_] before [start]
    there is no pass. *)
Theorem get_time_series_weekly (lat : Q) (lon start_date end_date : value)
  (start end_ : date) (calls : nat -> world) (fuel : nat) :
  strptime_dashed start_date = Ok start ->
  strptime_dashed end_date = Ok end_ ->
  1000 <= year start ->
  toordinal start + 7 * Z.of_nat (weeks start end_) <= _MAXORDINAL ->
  (weeks start end_ < fuel)%nat ->
  get_time_series fuel (Num lat) lon start_date end_date calls
  = Some (Ok (weekly_series (Num lat) lon start calls (weeks start end_)))
  /\ (forall k : nat, (k < weeks start end_)%nat ->
        toordinal (week_day start k) = toordinal start + 7 * Z.of_nat k
        /\ toordinal (week_day start k) <= toordinal end_
        /\ 1000 <= year (week_day start k))
  /\ (toordinal end_ < toordinal start -> weeks start end_ = 0%nat).
Proof.
  intros Hps Hpe Hyear Hmax Hfuel.
  pose proof (strptime_dashed_valid _ _ Hps) as Hs.
  pose proof (strptime_dashed_valid _ _ Hpe) as He.
  split; [|split].
  - unfold get_time_series. rewrite Hps, Hpe.
    destruct (time_series_start (Num lat) lon start calls Hs) as [E0 E1].
    pose proof (weekly_loop lat lon start end_ calls Hs He Hmax
                  (weeks start end_) 0 fuel ltac:(lia) Hfuel) as L.
    rewrite E0, E1 in L. exact L.
  - intros k Hk. apply weeks_passes in Hk.
    pose proof (toordinal_range end_ He).
    destruct (week_day_ordinal start k Hs ltac:(lia)) as [Hw Ho].
    rewrite Ho. split; [reflexivity|]. split; [lia|].
    pose proof (year_ordinal start (week_day start k) Hs Hw ltac:(lia)).
    lia.
  - intro Hlt. unfold weeks. Z.div_mod_to_equations. lia.
Qed.

Lemma get_time_series_weekly_witness :
  get_time_series 10 (Num 45) (Num 0) (Str "2024-01-01") (Str "2024-02-01")
    (fun _ => Examples.offline)
  = Some (Ok (weekly_series (Num 45) (Num 0) (mkdate 2024 1 1)
                (fun _ => Examples.offline)
                (weeks (mkdate 2024 1 1) (mkdate 2024 2 1)))).
Proof.
  refine (proj1 (get_time_series_weekly 45 (Num 0) (Str "2024-01-01")
                   (Str "2024-02-01") (mkdate 2024 1 1) (mkdate 2024 2 1)
                   (fun _ => Examples.offline) 10 _ _ _ _ _)).
  - vm_compute. reflexivity.
  - vm_compute. reflexivity.
  - vm_compute. discriminate.
  - vm_compute. discriminate.
  - vm_compute. lia.
Defined.

Lemma get_time_series_past_calendar (lat : Q)
  (lon start_date end_date : value) (start end_ : date)
  (calls : nat -> world) (fuel : nat) :
  strptime_dashed start_date = Ok start ->
  strptime_dashed end_date = Ok end_ ->
  toordinal start <= toordinal end_ ->
  (weeks start end_ <= fuel)%nat ->
  _MAXORDINAL < toordinal start + 7 * Z.of_nat (weeks start end_) ->
  get_time_series fuel (Num lat) lon start_date end_date calls
  = Some (Raise OverflowError).
Proof.
  intros Hps Hpe Hle Hfuel Hmax.
  pose proof (strptime_dashed_valid _ _ Hps) as Hs.
  pose proof (strptime_dashed_valid _ _ Hpe) as He.
  unfold get_time_series. rewrite Hps, Hpe.
  destruct (time_series_start (Num lat) lon start calls Hs) as [E0 E1].
  assert (0 < weeks start end_)%nat as Hpos.
  { apply weeks_passes. lia. }
  pose proof (weekly_loop_overflow lat lon start end_ calls Hs He Hmax
                (weeks start end_ - 1) 0 fuel ltac:(lia) ltac:(lia)) as L.
  rewrite E0, E1 in L. exact L.
Qed.

(** X27: the loop steps past the end of the calendar.  For a numeric
    latitude and a [start] not after [end_], when the day a week after the
    last pass would be after 9999-12-31 the step to it raises
    OverflowError, out of [get_time_series], and the samples collected
    are lost.  This is so for every [start] when [end_] is 9999-12-31. *)
Theorem get_time_series_overflow (lat : Q) (lon start_date end_date : value)
  (start end_ : date) (calls : nat -> world) (fuel : nat) :
  strptime_dashed start_date = Ok start ->
  strptime_dashed end_date = Ok end_ ->
  toordinal start <= toordinal end_ ->
  (weeks start end_ <= fuel)%nat ->
  (_MAXORDINAL < toordinal start + 7 * Z.of_nat (weeks start end_) ->
   get_time_series fuel (Num lat) lon start_date end_date calls
   = Some (Raise OverflowError))
  /\ (toordinal end_ = _MAXORDINAL ->
      get_time_series fuel (Num lat) lon start_date end_date calls
      = Some (Raise OverflowError)).
Proof.
  intros Hps Hpe Hle Hfuel.
  pose proof (get_time_series_past_calendar lat lon start_date end_date
                start end_ calls fuel Hps Hpe Hle Hfuel) as H.
  split; [exact H|].
  intro Hlast. apply H.
  assert (~ (weeks start end_ < weeks start end_)%nat) as Hn by lia.
  rewrite weeks_passes in Hn. lia.
Qed.

Lemma get_time_series_overflow_witness :
  get_time_series 10 (Num 45) (Num 0) (Str "9999-12-01") (Str "9999-12-31")
    (fun _ => Examples.offline)
  = Some (Raise OverflowError).
Proof.
  refine (proj2 (get_time_series_overflow 45 (Num 0) (Str "9999-12-01")
                   (Str "9999-12-31") (mkdate 9999 12 1) (mkdate 9999 12 31)
                   (fun _ => Examples.offline) 10 _ _ _ _) _).
  - vm_compute. reflexivity.
  - vm_compute. reflexivity.
  - vm_compute. discriminate.
  - vm_compute. lia.
  - vm_compute. reflexivity.
Defined.

End TimeSeriesLoop.

Section TimeSeriesShape.
Import PyNum Py Datetime DateText NASADataFetcher NASASeries NASATimeSeries Weekly.
Local Open Scope Z_scope.

Lemma zip_snoc {A B} (l : list A) (k : list B) (a : A) (b : B) :
  length l = length k -> zip (l ++ [a]) (k ++ [b]) = zip l k ++ [(a, b)].
Proof.
  revert k. induction l as [|x l IH]; intros [|y k] H; try discriminate.
  - reflexivity.
  - cbn. f_equal. apply IH. now injection H.
Qed.

Lemma time_series_step_consistent (lat lon : value) (w : world)
  (current next : date) (acc acc' : TimeSeries.t) :
  consistent acc ->
  time_series_step lat lon w current acc = Ok (next, acc') ->
  consistent acc'.
Proof.
  intros (ndvis & Hn & Hd & He & Hb) Hstep.
  unfold time_series_step in Hstep.
  destruct (get_vegetation_index lat lon _ w) as [data|x];
    [|discriminate]. cbn [bind] in Hstep.
  destruct (dict_item data "ndvi") as [[n|s]|x]; cbn [bind] in Hstep;
    [| |discriminate].
  - destruct (dict_item data "evi") as [e|x]; cbn [bind py_gt] in Hstep;
      [|discriminate].
    destruct (add_days current 7) as [next'|x]; cbn [bind] in Hstep;
      [|destruct (ltb 0.6 n); discriminate].
    assert (acc'
            = TimeSeries.mk
                (TimeSeries.dates acc ++ [strftime "-" current])
                (TimeSeries.ndvi acc ++ [Num n])
                (TimeSeries.evi acc ++ [e])
                (TimeSeries.bloom_events acc
                 ++ events_of [(strftime "-" current, n)])) as ->.
    { rewrite events_of_one.
      destruct (ltb 0.6 n); cbn [bind] in Hstep; [congruence|].
      rewrite app_nil_r. congruence. }
    exists (ndvis ++ [n]).
    cbn [TimeSeries.dates TimeSeries.ndvi TimeSeries.evi
         TimeSeries.bloom_events].
    rewrite Hn, Hb, fmap_app, !length_app, Hd, He.
    rewrite (zip_snoc _ _ _ _ Hd), events_of_app.
    repeat split; reflexivity.
  - destruct (dict_item data "evi") as [e|x]; cbn [bind py_gt] in Hstep;
      discriminate.
Qed.

Lemma time_series_loop_consistent (lat lon : value) (end_ : date)
  (calls : nat -> world) (fuel : nat) :
  forall (k : nat) (current : date) (acc series : TimeSeries.t),
    consistent acc ->
    time_series_loop fuel lat lon end_ calls k current acc = Some (Ok series) ->
    consistent series.
Proof.
  induction fuel as [|fuel IH]; intros k current acc series Hc Hl;
    [discriminate|].
  cbn [time_series_loop] in Hl.
  destruct (date_le current end_); [|congruence].
  destruct (time_series_step lat lon (calls k) current acc)
    as [[next acc']|x] eqn:Hstep; [|discriminate].
  apply (IH (S k) next acc' series); [|exact Hl].
  exact (time_series_step_consistent _ _ _ _ _ _ _ Hc Hstep).
Qed.

(** X28: the lists of a series go together.  Whatever the inputs, a
    series [get_time_series] returns has one date, one ndvi entry and one
    evi entry per pass; its ndvi entries are numbers; and its bloom
    events are exactly the dated ndvi numbers above 0.6, in order, so
    there are at most as many events as dates. *)
Theorem get_time_series_lists (fuel : nat)
  (lat lon start_date end_date : value) (calls : nat -> world)
  (series : TimeSeries.t) :
  get_time_series fuel lat lon start_date end_date calls = Some (Ok series) ->
  exists ndvis : list Q,
    TimeSeries.ndvi series = Num <$> ndvis
    /\ length (TimeSeries.dates series) = length ndvis
    /\ length (TimeSeries.evi series) = length ndvis
    /\ TimeSeries.bloom_events series
       = events_of (zip (TimeSeries.dates series) ndvis)
    /\ (length (TimeSeries.bloom_events series)
        <= length (TimeSeries.dates series))%nat.
Proof.
  intro H. unfold get_time_series in H.
  destruct (strptime_dashed start_date) as [start|x]; [|discriminate].
  destruct (strptime_dashed end_date) as [end_|x]; [|discriminate].
  assert (consistent (TimeSeries.mk [] [] [] [])) as H0.
  { exists []. repeat split; reflexivity. }
  destruct (time_series_loop_consistent _ _ _ _ _ _ _ _ _ H0 H)
    as (ndvis & Hn & Hd & He & Hb).
  exists ndvis. repeat split; try assumption.
  rewrite Hb.
  assert (forall l : list (string * Q),
             (length (events_of l) <= length l)%nat) as Hle.
  { induction l as [|p l IHl]; [reflexivity|].
    change (events_of (p :: l))
      with ((if ltb 0.6 (snd p)
             then [TimeSeries.mkevent (fst p) (Num (snd p))] else [])
            ++ events_of l).
    rewrite length_app. destruct (ltb 0.6 (snd p)); cbn [length]; lia. }
  pose proof (Hle (zip (TimeSeries.dates series) ndvis)) as Hz.
  rewrite length_zip in Hz. lia.
Qed.

Lemma get_time_series_lists_witness :
  match get_time_series 10 (Num 45) (Num 0) (Str "2024-01-01")
          (Str "2024-02-01") (fun _ => Examples.offline) with
  | Some (Ok series) =>
      exists ndvis : list Q,
        TimeSeries.ndvi series = Num <$> ndvis
        /\ length (TimeSeries.dates series) = length ndvis
        /\ length (TimeSeries.evi series) = length ndvis
        /\ TimeSeries.bloom_events series
           = events_of (zip (TimeSeries.dates series) ndvis)
        /\ (length (TimeSeries.bloom_events series)
            <= length (TimeSeries.dates series))%nat
  | _ => False
  end.
Proof.
  destruct (get_time_series 10 (Num 45) (Num 0) (Str "2024-01-01")
              (Str "2024-02-01") (fun _ => Examples.offline))
    as [[series|x]|] eqn:E.
  - exact (get_time_series_lists _ _ _ _ _ _ _ E).
  - vm_compute in E. discriminate E.
  - vm_compute in E. discriminate E.
Defined.

Lemma literal_dash_pad2 (m : Z) (rest : string) :
  1 <= m <= 12 -> literal dash (String.append (pad 2 m) rest) = None.
Proof.
  intro H.
  assert (m = 1 \/ m = 2 \/ m = 3 \/ m = 4 \/ m = 5 \/ m = 6 \/ m = 7
          \/ m = 8 \/ m = 9 \/ m = 10 \/ m = 11 \/ m = 12) as C by lia.
  repeat (destruct C as [-> | C]; [reflexivity|]). now subst.
Qed.

Lemma strptime_dashed_compact (t : date) :
  Spec.well_formed_date t ->
  strptime_dashed (Str (strftime "" t)) = Raise ValueError.
Proof.
  destruct t as [y m d]. unfold Spec.well_formed_date. cbn [year month day].
  intro Hv. destruct (valid_date_bounds y m d Hv) as (Hy & Hm & Hd).
  unfold strftime, strptime_dashed, re_Y_m_d. cbn [year month day].
  norm_append. rewrite (pad4_text y Hy), (re_Y_text4 y _ Hy).
  now rewrite (literal_dash_pad2 m _ Hm).
Qed.

(** X29: the compact date text is not accepted.  The eight-digit text of
    a day, the form [%Y%m%d] that [get_vegetation_index] is given and
    that [get_historical_data] and the fallback sample write, makes
    [get_time_series] raise ValueError: as start date, and as end date
    after a start date that parses. *)
Theorem get_time_series_compact_text (t : date) (fuel : nat)
  (lat lon other : value) (calls : nat -> world) :
  Spec.well_formed_date t ->
  get_time_series fuel lat lon (Str (strftime "" t)) other calls
  = Some (Raise ValueError)
  /\ (forall start : date,
        strptime_dashed other = Ok start ->
        get_time_series fuel lat lon other (Str (strftime "" t)) calls
        = Some (Raise ValueError)).
Proof.
  intro Hw. unfold get_time_series.
  rewrite (strptime_dashed_compact t Hw). split; [reflexivity|].
  intros start ->. reflexivity.
Qed.

Lemma get_time_series_compact_text_witness :
  get_time_series 10 (Num 45) (Num 0) (Str (strftime "" (mkdate 2024 1 1)))
    (Str "2024-02-01") (fun _ => Examples.offline)
  = Some (Raise ValueError).
Proof.
  refine (proj1 (get_time_series_compact_text (mkdate 2024 1 1) 10 (Num 45)
                   (Num 0) (Str "2024-02-01") (fun _ => Examples.offline)
                   _)).
  vm_compute. reflexivity.
Defined.

End TimeSeriesShape.

Section TimeSeriesEnds.
Import PyNum Py Datetime DateText NASADataFetcher NASASeries NASATimeSeries Weekly.
Local Open Scope Z_scope.

Lemma time_series_step_next (lat lon : value) (w : world)
  (current next : date) (acc acc' : TimeSeries.t) :
  time_series_step lat lon w current acc = Ok (next, acc') ->
  add_days current 7 = Ok next.
Proof.
  unfold time_series_step.
  destruct (get_vegetation_index lat lon _ w) as [data|x];
    [|discriminate]. cbn [bind].
  destruct (dict_item data "ndvi") as [ndvi|x]; [|discriminate]. cbn [bind].
  destruct (dict_item data "evi") as [evi|x]; [|discriminate]. cbn [bind].
  destruct (py_gt ndvi (Num 0.6)) as [high|x]; [|discriminate]. cbn [bind].
  destruct (add_days current 7) as [next'|x]; [|discriminate]. cbn [bind].
  congruence.
Qed.

Lemma add_days_week (current next : date) :
  Spec.well_formed_date current ->
  add_days current 7 = Ok next ->
  Spec.well_formed_date next /\ toordinal next = toordinal current + 7.
Proof.
  intros Hw. pose proof (toordinal_range current Hw). unfold add_days.
  destruct (Z.leb_spec (toordinal current + 7) _MAXORDINAL) as [Hle|Hgt];
    [|rewrite andb_false_r; discriminate].
  replace (0 <? toordinal current + 7) with true
    by (symmetry; apply Z.ltb_lt; lia).
  cbn [andb]. intro E. injection E as <-.
  split; [apply fromordinal_valid | apply toordinal_fromordinal]; lia.
Qed.

(** The loop ends: passes beyond [weeks current end_] are never asked
    for. *)
Lemma time_series_loop_ends (lat lon : value) (end_ : date)
  (calls : nat -> world) :
  Spec.well_formed_date end_ ->
  forall (n k : nat) (current : date) (acc : TimeSeries.t),
    Spec.well_formed_date current ->
    (weeks current end_ <= n)%nat ->
    exists r,
      forall fuel : nat,
        (n < fuel)%nat ->
        time_series_loop fuel lat lon end_ calls k current acc = Some r.
Proof.
  intro He.
  induction n as [|n IH]; intros k current acc Hw Hn.
  - exists (Ok acc). intros [|fuel] Hf; [lia|].
    cbn [time_series_loop]. rewrite (date_le_ordinal _ _ Hw He).
    assert (~ (0 < weeks current end_)%nat) as H0 by lia.
    rewrite weeks_passes in H0.
    replace (toordinal current <=? toordinal end_) with false
      by (symmetry; apply Z.leb_gt; lia).
    reflexivity.
  - destruct (Z.leb_spec (toordinal current) (toordinal end_)) as [Hle|Hgt].
    + destruct (time_series_step lat lon (calls k) current acc)
        as [[next acc']|x] eqn:Hstep.
      * destruct (add_days_week current next Hw
                    (time_series_step_next _ _ _ _ _ _ _ Hstep))
          as [Hw' Ho].
        destruct (IH (S k) next acc' Hw') as [r Hr].
        { assert (~ (n < weeks next end_)%nat) as Hlt; [|lia].
          intro Hlt. apply weeks_passes in Hlt.
          assert (~ (S n < weeks current end_)%nat) as Hc by lia.
          apply Hc. apply weeks_passes. lia. }
        exists r. intros [|fuel] Hf; [lia|].
        cbn [time_series_loop]. rewrite (date_le_ordinal _ _ Hw He).
        replace (toordinal current <=? toordinal end_) with true
          by (symmetry; apply Z.leb_le; lia).
        rewrite Hstep. apply Hr. lia.
      * exists (Raise x). intros [|fuel] Hf; [lia|].
        cbn [time_series_loop]. rewrite (date_le_ordinal _ _ Hw He).
        replace (toordinal current <=? toordinal end_) with true
          by (symmetry; apply Z.leb_le; lia).
        now rewrite Hstep.
    + exists (Ok acc). intros [|fuel] Hf; [lia|].
      cbn [time_series_loop]. rewrite (date_le_ordinal _ _ Hw He).
      replace (toordinal current <=? toordinal end_) with false
        by (symmetry; apply Z.leb_gt; lia).
      reflexivity.
Qed.

(** X30: the loop of [get_time_series] ends on every input.  There is
    a number of passes such that, allowed any number of passes above it,
    the function gives one and the same result, a series or an
    exception: no input keeps the loop running, and the result does not
    depend on the allowance. *)
Theorem get_time_series_ends (lat lon start_date end_date : value)
  (calls : nat -> world) :
  exists (passes : nat) (r : result TimeSeries.t),
    forall fuel : nat,
      (passes < fuel)%nat ->
      get_time_series fuel lat lon start_date end_date calls = Some r.
Proof.
  unfold get_time_series.
  destruct (strptime_dashed start_date) as [start|x] eqn:Hps;
    [|exists 0%nat, (Raise x); reflexivity].
  destruct (strptime_dashed end_date) as [end_|x] eqn:Hpe;
    [|exists 0%nat, (Raise x); reflexivity].
  pose proof (strptime_dashed_valid _ _ Hps) as Hs.
  pose proof (strptime_dashed_valid _ _ Hpe) as He.
  destruct (time_series_loop_ends lat lon end_ calls He
              (weeks start end_) 0 start (TimeSeries.mk [] [] [] []) Hs
              ltac:(lia)) as [r Hr].
  exists (weeks start end_), r. exact Hr.
Qed.

End TimeSeriesEnds.
